(** * Noel Photography backend: order and booking workflows

    A shallow embedding of the Express controllers of the server
    ([auth.controller], [booking.controller], [order.controller]) over an
    explicit model of the MongoDB collections they read and write.

    - A JavaScript Number is an IEEE-754 binary64 value: Rocq's primitive
      [float], whose operations round exactly as JavaScript's do.
    - A collection addressed by [_id] is a [gmap] from the id to the
      document; the users collection, which [login] queries by email, is
      the list of its documents.
    - A handler is a function from the request and the database to a reply
      ([res.status(..).json(..)] or [next(err)]) and the database it leaves
      behind.  Calls to outside services (bcrypt, JWT, Stripe, Calendly)
      are arguments of the handlers that use them.
      Such an argument is the service as of that call: a token carries
      the time it was signed at, so two calls need not be given the same
      [getSignedJwtToken].
    - A string is the sequence of the bytes of its UTF-8 encoding; what
      JavaScript does by character ([trim]) or counts in UTF-16 code units
      ([length]) is computed from those bytes.
    - The stock [createOrder] writes is a number: Mongoose refuses to save
      NaN, which only infinite or ill-typed quantities and stocks produce;
      the properties that depend on it assume [OrderSpec.all_numbers].
    - Ids are well-formed ObjectId strings; the CastError Mongoose raises on
      a malformed id is outside the model. *)

From Stdlib Require Import Floats Ascii.
From stdpp Require Import gmap strings list fin_maps pretty.


(** ** Values shared by the controllers *)

Definition Number := float.

Abbreviation ObjectId := string.

(** JavaScript reads the literal [0.1] as the nearest binary64 value. *)
Definition zero_point_one : Number := 0x1.999999999999ap-4%float.

(** A template literal: text with interpolated numbers left unrendered. *)
Inductive Piece :=
| Txt (s : string)
| Num (x : Number).

Definition Template := list Piece.

(** Modelled from the spec: the [ErrorResponse] class ([error.middleware.js]
    is not among the sources), an error with a stable message and a status:
    the two arguments the controllers construct it with, which the error
    middleware of [app.js] reads back as [message] and [statusCode].
    Besides it a handler may pass to [next] an error Mongoose throws, which
    carries no [statusCode]: the error of the validators, where [errors]
    lists the failing paths with their messages and [model] names the
    model of the document that failed (empty for the validators of an
    update, which have no document), or the error of a value an update
    could not cast to the type ([kind]) of its path. *)
Inductive Err :=
| ErrorResponse (message : Template) (statusCode : nat)
| ValidationError (model : string) (errors : list (string * string))
| CastError (kind path : string).

Inductive Reply (A : Type) :=
| Send (status : nat) (body : A)
| Next (e : Err).

Arguments Send {A} status body.
Arguments Next {A} e.

(** The error middleware of [app.js]: [res.status(err.statusCode || 500)]. *)
Definition Err_status (e : Err) : nat :=
  match e with
  | ErrorResponse _ c => if Nat.eqb c 0 then 500 else c
  | ValidationError _ _ => 500
  | CastError _ _ => 500
  end.

Definition Reply_status {A} (r : Reply A) : nat :=
  match r with
  | Send s _ => s
  | Next e => Err_status e
  end.

(** The message of Mongoose's [enum] validator. *)
Definition enum_message (value path : string) : string :=
  "`" +:+ value +:+ "` is not a valid enum value for path `" +:+ path +:+ "`.".

(** The message of the cast error of a Date path that was given
    [new Date(s)] for an [s] that is no date. *)
Definition invalid_date_message (path : string) : string :=
  let quote := String "034"%char "" in
  "Cast to date failed for value " +:+ quote +:+ "Invalid Date" +:+ quote
  +:+ " (type Date) at path " +:+ quote +:+ path +:+ quote.

(** Truthiness of an optional string: [undefined] and [''] are falsy. *)
Definition truthy (o : option string) : bool :=
  match o with
  | Some s => negb (String.eqb s "")
  | None => false
  end.

Inductive Role := RoleUser | RoleAdmin.

Definition Role_eqb (a b : Role) : bool :=
  match a, b with
  | RoleUser, RoleUser | RoleAdmin, RoleAdmin => true
  | _, _ => false
  end.

(** [req.user], as the [protect] middleware attaches it. *)
Module ReqUser.
Record t := mk { id : ObjectId; role : Role }.
End ReqUser.

(** ** Documents *)

Module User.
Record t := mk {
  _id : ObjectId;
  name : string;
  email : string;
  password : string;   (* the bcrypt hash *)
  role : Role
}.
End User.

(** Modelled from the spec: the Product schema ([product.model.js] is not
    among the sources): name, price, stock, category, imageUrl. *)
Module Product.
Record t := mk {
  name : string;
  price : Number;
  stock : Number;
  category : string;
  imageUrl : string
}.
Definition with_stock (s : Number) (p : t) : t :=
  mk (name p) (price p) s (category p) (imageUrl p).
End Product.

Module Address.
Record t := mk {
  name : string; street : string; city : string; state : string;
  zipCode : string; country : string; phone : string
}.
End Address.

Inductive PaymentType := Stripe | Paypal.
Inductive PaymentStatus := PayPending | PayCompleted | PayFailed | PayRefunded.
Inductive OrderStatus :=
  OrdPending | OrdProcessing | OrdShipped | OrdDelivered | OrdCancelled.

Module PaymentInfo.
Record t := mk {
  type : PaymentType;
  transactionId : option string;
  status : PaymentStatus
}.
(** The schema defaults. *)
Definition default : t := mk Stripe None PayPending.
Definition with_status (s : PaymentStatus) (p : t) : t :=
  mk (type p) (transactionId p) s.
End PaymentInfo.

Module OrderLine.
Record t := mk {
  product : ObjectId;
  name : string;
  price : Number;
  quantity : Number
}.
End OrderLine.

Module Order.
Record t := mk {
  user : ObjectId;
  products : list OrderLine.t;
  shippingAddress : Address.t;
  paymentInfo : PaymentInfo.t;
  subtotal : Number;
  tax : Number;
  shipping : Number;
  total : Number;
  status : OrderStatus;
  trackingNumber : option string;
  notes : option string
}.
Definition with_status (s : OrderStatus) (o : t) : t :=
  mk (user o) (products o) (shippingAddress o) (paymentInfo o) (subtotal o)
     (tax o) (shipping o) (total o) s (trackingNumber o) (notes o).
Definition with_paymentInfo (p : PaymentInfo.t) (o : t) : t :=
  mk (user o) (products o) (shippingAddress o) p (subtotal o)
     (tax o) (shipping o) (total o) (status o) (trackingNumber o) (notes o).
End Order.

(** [new Date(s)]: a Date is represented by the value it was built from;
    parsing is not modelled. *)
Inductive JSDate := NewDate (s : string).

Inductive BookingStatus := BkPending | BkConfirmed | BkCompleted | BkCancelled.

Module TimeSlot.
Record t := mk { start : JSDate; end_ : JSDate }.
End TimeSlot.

Module AdditionalDetails.
Record t := mk {
  numberOfPeople : option Number;
  specialRequirements : option string;
  preferredStyle : option string;
  outfitChanges : option Number
}.
End AdditionalDetails.

Inductive PaymentMethod := CreditCard | PaypalMethod | Cash | BankTransfer.

Module BookingPayment.
Record t := mk {
  amount : Number;
  deposit : Number;
  isPaid : bool;
  method : PaymentMethod;
  transactionId : option string
}.
End BookingPayment.

(** The Booking schema ([booking.model.js]), without [deliverables] and
    [createdAt], which no controller modelled here reads or writes. *)
Module Booking.
Record t := mk {
  client : ObjectId;
  sessionType : string;
  date : JSDate;
  timeSlot : TimeSlot.t;
  location : string;
  additionalDetails : AdditionalDetails.t;
  photographer : option ObjectId;
  status : BookingStatus;
  payment : BookingPayment.t;
  calendlyEventId : option string;
  notes : option string
}.
Definition with_status (s : BookingStatus) (b : t) : t :=
  mk (client b) (sessionType b) (date b) (timeSlot b) (location b)
     (additionalDetails b) (photographer b) s (payment b)
     (calendlyEventId b) (notes b).
End Booking.

(** ** The database *)

Module DB.
Record t := mk {
  users : list User.t;
  products : gmap ObjectId Product.t;
  orders : gmap ObjectId Order.t;
  bookings : gmap ObjectId Booking.t
}.
Definition with_products (ps : gmap ObjectId Product.t) (db : t) : t :=
  mk (users db) ps (orders db) (bookings db).
Definition with_orders (os : gmap ObjectId Order.t) (db : t) : t :=
  mk (users db) (products db) os (bookings db).
Definition with_bookings (bs : gmap ObjectId Booking.t) (db : t) : t :=
  mk (users db) (products db) (orders db) bs.
End DB.

(** ** Errors the controllers do not build themselves

    A handler's [catch] passes to [next] whatever was thrown; what is not an
    [ErrorResponse] nor a validation error has no [statusCode], and the error
    middleware answers 500. *)

Inductive Thrown :=
| TypeError (reading : string)      (* a property read on [null] *)
| DuplicateKey (index value : string).   (* MongoDB's E11000, from a unique index *)

Inductive Outcome (A : Type) :=
| Replied (r : Reply A)
| Threw (e : Thrown).

Arguments Replied {A} r.
Arguments Threw {A} e.

Definition Outcome_status {A} (o : Outcome A) : nat :=
  match o with
  | Replied r => Reply_status r
  | Threw _ => 500
  end.

(** [User.findById(id)] *)
Definition User_findById (id : ObjectId) (db : DB.t) : option User.t :=
  List.find (λ u, String.eqb (User._id u) id) (DB.users db).

(** What [populate(path, 'name email')] puts in place of a user id: the
    [_id], the name and the email of that user. *)
Module Populated.
Record t := mk { _id : ObjectId; name : string; email : string }.
End Populated.

Definition populate (id : ObjectId) (db : DB.t) : option Populated.t :=
  (λ u, Populated.mk (User._id u) (User.name u) (User.email u)) <$> User_findById id db.

(** ** Order workflow ([order.controller]) *)

Module Orders.

(** One entry of [req.body.products]. *)
Module Item.
Record t := mk { product : ObjectId; quantity : Number }.
End Item.

Module Body.
Record t := mk {
  products : option (list Item.t);
  shippingAddress : option Address.t
}.
End Body.

Module Req.
Record t := mk { user : ReqUser.t; body : Body.t }.
End Req.

Definition Product_findById (id : ObjectId) (db : DB.t) : option Product.t :=
  DB.products db !! id.

(** [product.save()] after [product.stock -= q]: Mongoose writes the
    modified path, [stock], of the document with that id.  The stock
    written is taken to be a number: a stock that is NaN, which infinite
    or ill-typed quantities can produce, Mongoose refuses to save, and the
    call ends there with that error.  The properties of calls that fail
    assume [OrderSpec.all_numbers], under which no such stock arises. *)
Definition Product_save_stock (id : ObjectId) (stock : Number) (db : DB.t) : DB.t :=
  DB.with_products (alter (Product.with_stock stock) id (DB.products db)) db.

Definition Order_findById (id : ObjectId) (db : DB.t) : option Order.t :=
  DB.orders db !! id.

(** Not NaN. *)
Definition is_number (x : Number) : bool := PrimFloat.eqb x x.

(** The [min] validators of the Order schema: [v >= min] (false on NaN). *)
Definition at_least (min v : Number) : bool := PrimFloat.leb min v.

(** What a Number path reports of a failing value: the message of its
    [min] validator for a number, that of the cast error for NaN, which
    no Number path holds. *)
Definition below_message (path message : string) (v : Number) : string :=
  let quote := String "034"%char "" in
  if is_number v then message
  else "Cast to Number failed for value " +:+ quote +:+ "NaN" +:+ quote
       +:+ " (type number) at path " +:+ quote +:+ path +:+ quote.

Fixpoint quantity_errors (i : nat) (ls : list OrderLine.t) : list (string * string) :=
  match ls with
  | [] => []
  | l :: ls =>
      (if at_least 1%float (OrderLine.quantity l) then []
       else [("products." +:+ pretty i +:+ ".quantity",
              below_message ("products." +:+ pretty i +:+ ".quantity")
                "Quantity must be at least 1" (OrderLine.quantity l))])
      ++ quantity_errors (S i) ls
  end.

(** The paths of an order document that fail, with their messages, in the
    order of the schema (Mongoose reports them keyed by path). *)
Definition Order_validate (o : Order.t) : list (string * string) :=
  quantity_errors 0 (Order.products o)
  ++ (if at_least 0%float (Order.subtotal o) then []
      else [("subtotal",
             below_message "subtotal" "Subtotal cannot be negative" (Order.subtotal o))])
  ++ (if at_least 0%float (Order.tax o) then []
      else [("tax", below_message "tax" "Tax cannot be negative" (Order.tax o))])
  ++ (if at_least 0%float (Order.shipping o) then []
      else [("shipping",
             below_message "shipping" "Shipping cost cannot be negative"
               (Order.shipping o))])
  ++ (if at_least 0%float (Order.total o) then []
      else [("total", below_message "total" "Total cannot be negative" (Order.total o))]).

(** [Order.create(doc)]: validate, then insert under the id the driver
    generated ([newId]). *)
Definition Order_create (newId : ObjectId) (o : Order.t) (db : DB.t)
  : (Err + Order.t) * DB.t :=
  match Order_validate o with
  | [] => (inr o, DB.with_orders (<[newId := o]> (DB.orders db)) db)
  | errs => (inl (ValidationError "Order" errs), db)
  end.

(** The body of the [for (const item of products)] loop with the
    variables it updates: [orderItems], [subtotal] and the database. *)
Fixpoint processItems (items : list Item.t) (orderItems : list OrderLine.t)
    (subtotal : Number) (db : DB.t)
  : (Err + (list OrderLine.t * Number)) * DB.t :=
  match items with
  | [] => (inr (orderItems, subtotal), db)
  | item :: rest =>
      match Product_findById (Item.product item) db with
      | None =>
          (inl (ErrorResponse
                  [Txt "Product not found with id of "; Txt (Item.product item)]
                  404), db)
      | Some product =>
          if PrimFloat.ltb (Product.stock product) (Item.quantity item) then
            (inl (ErrorResponse
                    [Txt (Product.name product); Txt " is out of stock. Only ";
                     Num (Product.stock product); Txt " available."]
                    400), db)
          else
            let orderItems :=
              orderItems ++ [OrderLine.mk (Item.product item) (Product.name product)
                               (Product.price product) (Item.quantity item)] in
            let subtotal :=
              PrimFloat.add subtotal
                (PrimFloat.mul (Product.price product) (Item.quantity item)) in
            let stock := PrimFloat.sub (Product.stock product) (Item.quantity item) in
            processItems rest orderItems subtotal
              (Product_save_stock (Item.product item) stock db)
      end
  end.

(** The order document handed to [Order.create]. *)
Definition buildOrder (user : ObjectId) (orderItems : list OrderLine.t)
    (shippingAddress : Address.t) (subtotal : Number) : Order.t :=
  let tax := PrimFloat.mul subtotal zero_point_one in
  let shipping := if PrimFloat.ltb 100%float subtotal then 0%float else 10%float in
  let total := PrimFloat.add (PrimFloat.add subtotal tax) shipping in
  Order.mk user orderItems shippingAddress PaymentInfo.default
    subtotal tax shipping total OrdPending None None.

Definition createOrder (newId : ObjectId) (req : Req.t) (db : DB.t)
  : Reply (ObjectId * Order.t) * DB.t :=
  match Body.products (Req.body req) with
  | None | Some [] =>
      (Next (ErrorResponse [Txt "Please add at least one product to your order"] 400), db)
  | Some products =>
      match Body.shippingAddress (Req.body req) with
      | None => (Next (ErrorResponse [Txt "Please provide a shipping address"] 400), db)
      | Some shippingAddress =>
          match processItems products [] 0%float db with
          | (inl e, db) => (Next e, db)
          | (inr (orderItems, subtotal), db) =>
              match Order_create newId
                      (buildOrder (ReqUser.id (Req.user req)) orderItems
                         shippingAddress subtotal) db with
              | (inl e, db) => (Next e, db)
              | (inr order, db) => (Send 201 (newId, order), db)
              end
          end
      end
  end.

(** [PUT /api/orders/:id/status] *)
Module StatusReq.
Record t := mk { id : ObjectId; status : option string }.
End StatusReq.

(** The [enum] of [status] in the Order schema. *)
Definition OrderStatus_of_string (s : string) : option OrderStatus :=
  if String.eqb s "pending" then Some OrdPending
  else if String.eqb s "processing" then Some OrdProcessing
  else if String.eqb s "shipped" then Some OrdShipped
  else if String.eqb s "delivered" then Some OrdDelivered
  else if String.eqb s "cancelled" then Some OrdCancelled
  else None.

Definition OrderStatus_to_string (s : OrderStatus) : string :=
  match s with
  | OrdPending => "pending"
  | OrdProcessing => "processing"
  | OrdShipped => "shipped"
  | OrdDelivered => "delivered"
  | OrdCancelled => "cancelled"
  end.

Definition updateOrderStatus (req : StatusReq.t) (db : DB.t)
  : Reply (ObjectId * Order.t) * DB.t :=
  if negb (truthy (StatusReq.status req)) then
    (Next (ErrorResponse [Txt "Please provide a status"] 400), db)
  else
    match Order_findById (StatusReq.id req) db with
    | None =>
        (Next (ErrorResponse
                 [Txt "Order not found with id of "; Txt (StatusReq.id req)] 404), db)
    | Some order =>
        (* order.status = status; await order.save() *)
        match OrderStatus_of_string (default "" (StatusReq.status req)) with
        | None =>
            (Next (ValidationError "Order"
                     [("status",
                       enum_message (default "" (StatusReq.status req)) "status")]), db)
        | Some status =>
            (Send 200 (StatusReq.id req, Order.with_status status order),
             DB.with_orders
               (alter (Order.with_status status) (StatusReq.id req) (DB.orders db)) db)
        end
    end.

(** The event [stripe.webhooks.constructEvent] returns: its [type] and
    [data.object.metadata.orderId]. *)
Module StripeEvent.
Record t := mk { type : string; orderId : option ObjectId }.
End StripeEvent.

Module WebhookReq.
Record t := mk { body : string; signature : option string }.
End WebhookReq.

Inductive WebhookBody :=
| WebhookError (text : string)   (* res.send(`Webhook Error: ...`) *)
| Received.                      (* res.json({ received: true }) *)

Section Webhook.
(** Stripe's signature check, given the raw body, the
    [stripe-signature] header and [STRIPE_WEBHOOK_SECRET]: the event, or
    the message of the error it throws. *)
Variable constructEvent : string → option string → option string → string + StripeEvent.t.
Variable STRIPE_WEBHOOK_SECRET : option string.

Definition handleStripeWebhook (req : WebhookReq.t) (db : DB.t)
  : Reply WebhookBody * DB.t :=
  match constructEvent (WebhookReq.body req) (WebhookReq.signature req)
          STRIPE_WEBHOOK_SECRET with
  | inl message => (Send 400 (WebhookError ("Webhook Error: " +:+ message)), db)
  | inr event =>
      let db :=
        if String.eqb (StripeEvent.type event) "payment_intent.succeeded" then
          (* findById(undefined) finds nothing *)
          match StripeEvent.orderId event with
          | None => db
          | Some orderId =>
              match Order_findById orderId db with
              | None => db
              | Some _ =>
                  DB.with_orders
                    (alter (λ order,
                              Order.with_status OrdProcessing
                                (Order.with_paymentInfo
                                   (PaymentInfo.with_status PayCompleted
                                      (Order.paymentInfo order)) order))
                       orderId (DB.orders db)) db
              end
          end
        else db in
      (Send 200 Received, db)
  end.
End Webhook.

End Orders.

(** ** Order views and payment intents ([order.controller], continued) *)

Module Payments.
Import Orders.

(** *** [GET /api/orders/:id] *)

Module ViewReq.
Record t := mk { id : ObjectId; user : ReqUser.t }.
End ViewReq.

(** The order with its [user] populated. *)
Definition getOrder (req : ViewReq.t) (db : DB.t)
  : Outcome (ObjectId * Order.t * Populated.t) :=
  match Order_findById (ViewReq.id req) db with
  | None =>
      Replied (Next (ErrorResponse
                       [Txt "Order not found with id of "; Txt (ViewReq.id req)] 404))
  | Some order =>
      match populate (Order.user order) db with
      | None => Threw (TypeError "_id")   (* order.user is null *)
      | Some user =>
          if negb (String.eqb (Populated._id user) (ReqUser.id (ViewReq.user req)))
             && negb (Role_eqb (ReqUser.role (ViewReq.user req)) RoleAdmin) then
            Replied (Next (ErrorResponse
                             [Txt "User "; Txt (ReqUser.id (ViewReq.user req));
                              Txt " is not authorized to view this order"] 401))
          else Replied (Send 200 (ViewReq.id req, order, user))
      end
  end.

(** *** [POST /api/orders/create-payment-intent] *)

Module IntentReq.
Record t := mk { user : ReqUser.t; orderId : option string }.
End IntentReq.

(** The argument of [stripe.paymentIntents.create]. *)
Module IntentParams.
Record t := mk {
  amount : Number;
  currency : string;
  orderId : string;    (* metadata.orderId *)
  userId : string      (* metadata.userId *)
}.
End IntentParams.

(** What the controller reads of the payment intent Stripe returns. *)
Module Intent.
Record t := mk { id : string; client_secret : string }.
End Intent.

Module IntentReply.
Record t := mk { clientSecret : string; orderId : ObjectId }.
End IntentReply.

Section Gateway.
(** [Math.round] *)
Variable Math_round : Number → Number.
(** [stripe.paymentIntents.create]: the intent, or the error it throws. *)
Variable paymentIntents_create : IntentParams.t → Err + Intent.t.

(** Besides the reply and the database, the requests sent to Stripe. *)
Definition createPaymentIntent (req : IntentReq.t) (db : DB.t)
  : Reply IntentReply.t * DB.t * list IntentParams.t :=
  if negb (truthy (IntentReq.orderId req)) then
    (Next (ErrorResponse [Txt "Please provide an order ID"] 400), db, [])
  else
    let orderId := default "" (IntentReq.orderId req) in
    match Order_findById orderId db with
    | None =>
        (Next (ErrorResponse [Txt "Order not found with id of "; Txt orderId] 404),
         db, [])
    | Some order =>
        if negb (String.eqb (Order.user order) (ReqUser.id (IntentReq.user req))) then
          (Next (ErrorResponse
                   [Txt "User "; Txt (ReqUser.id (IntentReq.user req));
                    Txt " is not authorized to pay for this order"] 401), db, [])
        else
          let params :=
            IntentParams.mk
              (Math_round (PrimFloat.mul (Order.total order) 100%float)) "usd"
              orderId (ReqUser.id (IntentReq.user req)) in
          match paymentIntents_create params with
          | inl e => (Next e, db, [params])
          | inr paymentIntent =>
              (Send 200 (IntentReply.mk (Intent.client_secret paymentIntent) orderId),
               DB.with_orders
                 (alter (Order.with_paymentInfo
                           (PaymentInfo.mk Stripe (Some (Intent.id paymentIntent))
                              PayPending))
                    orderId (DB.orders db)) db,
               [params])
          end
    end.

End Gateway.

End Payments.

(** ** Order creation, one awaited operation at a time

    [createOrder] is an [async] function: it gives up control at each
    [await] ([Product.findById], [product.save], [Order.create]) and other
    requests may run in between.  A task is a call suspended at one of these
    operations; a step performs the awaited operation on the database and
    runs the handler up to the next one. *)

Module OrderTasks.
Import Orders.

(** What stays fixed during a call. *)
Module Call.
Record t := mk { newId : ObjectId; user : ObjectId; shippingAddress : Address.t }.
End Call.

Inductive Task :=
| AwaitFind (c : Call.t) (item : Item.t) (rest : list Item.t)
    (orderItems : list OrderLine.t) (subtotal : Number)
| AwaitSave (c : Call.t) (id : ObjectId) (stock : Number) (rest : list Item.t)
    (orderItems : list OrderLine.t) (subtotal : Number)
| AwaitCreate (c : Call.t) (order : Order.t)
| Finished (r : Reply (ObjectId * Order.t)).

(** The head of the loop: the next item to look up, or the code after the
    loop up to [Order.create]. *)
Definition iterate (c : Call.t) (items : list Item.t)
    (orderItems : list OrderLine.t) (subtotal : Number) : Task :=
  match items with
  | item :: rest => AwaitFind c item rest orderItems subtotal
  | [] =>
      AwaitCreate c
        (buildOrder (Call.user c) orderItems (Call.shippingAddress c) subtotal)
  end.

(** The call up to its first [await]. *)
Definition start (newId : ObjectId) (req : Req.t) : Task :=
  match Body.products (Req.body req) with
  | None | Some [] =>
      Finished (Next (ErrorResponse
                        [Txt "Please add at least one product to your order"] 400))
  | Some products =>
      match Body.shippingAddress (Req.body req) with
      | None => Finished (Next (ErrorResponse [Txt "Please provide a shipping address"] 400))
      | Some shippingAddress =>
          iterate (Call.mk newId (ReqUser.id (Req.user req)) shippingAddress)
            products [] 0%float
      end
  end.

Definition step (t : Task) (db : DB.t) : Task * DB.t :=
  match t with
  | AwaitFind c item rest orderItems subtotal =>
      match Product_findById (Item.product item) db with
      | None =>
          (Finished (Next (ErrorResponse
                             [Txt "Product not found with id of ";
                              Txt (Item.product item)] 404)), db)
      | Some product =>
          if PrimFloat.ltb (Product.stock product) (Item.quantity item) then
            (Finished (Next (ErrorResponse
                               [Txt (Product.name product);
                                Txt " is out of stock. Only ";
                                Num (Product.stock product); Txt " available."]
                               400)), db)
          else
            (AwaitSave c (Item.product item)
               (PrimFloat.sub (Product.stock product) (Item.quantity item)) rest
               (orderItems ++ [OrderLine.mk (Item.product item) (Product.name product)
                                 (Product.price product) (Item.quantity item)])
               (PrimFloat.add subtotal
                  (PrimFloat.mul (Product.price product) (Item.quantity item))),
             db)
      end
  | AwaitSave c id stock rest orderItems subtotal =>
      (iterate c rest orderItems subtotal, Product_save_stock id stock db)
  | AwaitCreate c order =>
      match Order_create (Call.newId c) order db with
      | (inl e, db) => (Finished (Next e), db)
      | (inr order, db) => (Finished (Send 201 (Call.newId c, order)), db)
      end
  | Finished r => (Finished r, db)
  end.

(** A call run alone for [n] steps. *)
Fixpoint run (n : nat) (t : Task) (db : DB.t) : Task * DB.t :=
  match n with
  | 0 => (t, db)
  | S n => let '(t, db) := step t db in run n t db
  end.

(** The rest of [createOrder] once the loop is over. *)
Definition conclude (c : Call.t)
    (r : (Err + (list OrderLine.t * Number)) * DB.t) : Task * DB.t :=
  match r with
  | (inl e, db) => (Finished (Next e), db)
  | (inr (orderItems, subtotal), db) =>
      match Order_create (Call.newId c)
              (buildOrder (Call.user c) orderItems (Call.shippingAddress c) subtotal)
              db with
      | (inl e, db) => (Finished (Next e), db)
      | (inr order, db) => (Finished (Send 201 (Call.newId c, order)), db)
      end
  end.

(** The number of awaited operations a call can take. *)
Definition steps_of (req : Req.t) : nat :=
  2 * length (default [] (Body.products (Req.body req))) + 1.

(** Two calls in flight; the schedule says whose awaited operation the
    database serves next. *)
Inductive Turn := First | Second.

Fixpoint interleave (schedule : list Turn) (t1 t2 : Task) (db : DB.t)
  : Task * Task * DB.t :=
  match schedule with
  | [] => (t1, t2, db)
  | First :: schedule =>
      let '(t1, db) := step t1 db in interleave schedule t1 t2 db
  | Second :: schedule =>
      let '(t2, db) := step t2 db in interleave schedule t1 t2 db
  end.

Definition succeeded (t : Task) : bool :=
  match t with
  | Finished (Send 201 _) => true
  | _ => false
  end.

(** The reply of the out-of-stock branch. *)
Definition out_of_stock (t : Task) : bool :=
  match t with
  | Finished (Next (ErrorResponse [Txt _; Txt " is out of stock. Only "; Num _;
                                   Txt " available."] 400)) => true
  | _ => false
  end.

End OrderTasks.

(** ** Booking workflow ([booking.controller]) *)

Module Bookings.

Definition Booking_findById (id : ObjectId) (db : DB.t) : option Booking.t :=
  DB.bookings db !! id.

Definition BookingStatus_of_string (s : string) : option BookingStatus :=
  if String.eqb s "pending" then Some BkPending
  else if String.eqb s "confirmed" then Some BkConfirmed
  else if String.eqb s "completed" then Some BkCompleted
  else if String.eqb s "cancelled" then Some BkCancelled
  else None.

Definition BookingStatus_to_string (s : BookingStatus) : string :=
  match s with
  | BkPending => "pending"
  | BkConfirmed => "confirmed"
  | BkCompleted => "completed"
  | BkCancelled => "cancelled"
  end.

Definition BookingStatus_eqb (a b : BookingStatus) : bool :=
  String.eqb (BookingStatus_to_string a) (BookingStatus_to_string b).

(** The owner-or-admin test both [updateBooking] and [cancelBooking] make:
    [booking.client.toString() !== req.user.id && req.user.role !== 'admin']. *)
Definition not_owner_nor_admin (booking : Booking.t) (user : ReqUser.t) : bool :=
  negb (String.eqb (Booking.client booking) (ReqUser.id user))
  && negb (Role_eqb (ReqUser.role user) RoleAdmin).

(** *** [PUT /api/bookings/:id/status] *)

Module StatusReq.
Record t := mk { id : ObjectId; status : option string }.
End StatusReq.

Definition updateBookingStatus (req : StatusReq.t) (db : DB.t)
  : Reply (ObjectId * Booking.t) * DB.t :=
  if negb (truthy (StatusReq.status req)) then
    (Next (ErrorResponse [Txt "Please provide a status"] 400), db)
  else
    match Booking_findById (StatusReq.id req) db with
    | None =>
        (Next (ErrorResponse
                 [Txt "Booking not found with id of "; Txt (StatusReq.id req)] 404), db)
    | Some booking =>
        (* booking.status = status; await booking.save() *)
        match BookingStatus_of_string (default "" (StatusReq.status req)) with
        | None =>
            (Next (ValidationError "Booking"
                     [("status",
                       enum_message (default "" (StatusReq.status req)) "status")]), db)
        | Some status =>
            (Send 200 (StatusReq.id req, Booking.with_status status booking),
             DB.with_bookings
               (alter (Booking.with_status status) (StatusReq.id req) (DB.bookings db))
               db)
        end
    end.

(** *** [PUT /api/bookings/:id] *)

Module SlotInput.
Record t := mk { start : string; end_ : string }.
End SlotInput.

Module UpdateBody.
Record t := mk {
  sessionType : option string;
  date : option string;
  timeSlot : option SlotInput.t;
  location : option string;
  additionalDetails : option AdditionalDetails.t;
  notes : option string
}.
End UpdateBody.

Module UpdateReq.
Record t := mk { id : ObjectId; user : ReqUser.t; body : UpdateBody.t }.
End UpdateReq.

(** [updateFields] once its [undefined] entries are deleted: [None] is an
    absent key. *)
Module UpdateFields.
Record t := mk {
  sessionType : option string;
  date : option JSDate;
  timeSlot : option TimeSlot.t;
  location : option string;
  additionalDetails : option AdditionalDetails.t;
  notes : option string
}.
End UpdateFields.

Definition updateFields_of (body : UpdateBody.t) : UpdateFields.t :=
  UpdateFields.mk
    (UpdateBody.sessionType body)
    (if truthy (UpdateBody.date body)
     then NewDate <$> UpdateBody.date body else None)
    ((λ ts, TimeSlot.mk (NewDate (SlotInput.start ts)) (NewDate (SlotInput.end_ ts)))
       <$> UpdateBody.timeSlot body)
    (UpdateBody.location body)
    (UpdateBody.additionalDetails body)
    (UpdateBody.notes body).

(** The white space [String.prototype.trim] removes (WhiteSpace and
    LineTerminator of ECMAScript), by the bytes of its UTF-8 encoding.  In
    one byte: tab, line feed, vertical tab, form feed, carriage return,
    space. *)
Definition is_space (c : Ascii.ascii) : bool :=
  let n := Ascii.nat_of_ascii c in
  ((9 <=? n)%nat && (n <=? 13)%nat) || (n =? 32)%nat.

(** In two bytes: U+00A0, the no-break space. *)
Definition is_space2 (c1 c2 : Ascii.ascii) : bool :=
  (Ascii.nat_of_ascii c1 =? 194)%nat && (Ascii.nat_of_ascii c2 =? 160)%nat.

(** In three bytes: U+1680, U+2000 to U+200A, U+2028, U+2029, U+202F,
    U+205F, U+3000 and U+FEFF. *)
Definition is_space3 (c1 c2 c3 : Ascii.ascii) : bool :=
  let a := Ascii.nat_of_ascii c1 in
  let b := Ascii.nat_of_ascii c2 in
  let c := Ascii.nat_of_ascii c3 in
  ((a =? 225) && (b =? 154) && (c =? 128))%nat
  || ((a =? 226) && (b =? 128)
      && (((128 <=? c) && (c <=? 138)) || (c =? 168) || (c =? 169) || (c =? 175)))%nat
  || ((a =? 226) && (b =? 129) && (c =? 159))%nat
  || ((a =? 227) && (b =? 128) && (c =? 128))%nat
  || ((a =? 239) && (b =? 187) && (c =? 191))%nat.

(** Whether the string is one white space character. *)
Definition is_white (s : string) : bool :=
  match s with
  | String c1 EmptyString => is_space c1
  | String c1 (String c2 EmptyString) => is_space2 c1 c2
  | String c1 (String c2 (String c3 EmptyString)) => is_space3 c1 c2 c3
  | _ => false
  end.

Fixpoint trim_start (s : string) : string :=
  match s with
  | String c1 s1 =>
      if is_space c1 then trim_start s1
      else
        match s1 with
        | String c2 s2 =>
            if is_space2 c1 c2 then trim_start s2
            else
              match s2 with
              | String c3 s3 => if is_space3 c1 c2 c3 then trim_start s3 else s
              | EmptyString => s
              end
        | EmptyString => s
        end
  | EmptyString => EmptyString
  end.

(** What is left of [c] and the trimmed rest ends in white space only if
    it is one white space character, that [c] begins. *)
Fixpoint trim_end (s : string) : string :=
  match s with
  | String c s' =>
      let t := String c (trim_end s') in
      if is_white t then EmptyString else t
  | EmptyString => EmptyString
  end.

(** The [trim: true] setter of [location]. *)
Definition trim (s : string) : string := trim_end (trim_start s).

(** The [enum] of [sessionType] in the Booking schema. *)
Definition sessionTypes : list string :=
  ["portrait"; "wedding"; "event"; "family"; "commercial"; "other"].

Definition is_sessionType (s : string) : bool :=
  existsb (String.eqb s) sessionTypes.

(** The update as Mongoose casts it: setters applied. *)
Definition castUpdate (u : UpdateFields.t) : UpdateFields.t :=
  UpdateFields.mk (UpdateFields.sessionType u) (UpdateFields.date u)
    (UpdateFields.timeSlot u) (trim <$> UpdateFields.location u)
    (UpdateFields.additionalDetails u) (UpdateFields.notes u).

(** [runValidators: true]: the validators of the paths the update sets. *)
Definition validateUpdate (u : UpdateFields.t) : list (string * string) :=
  match UpdateFields.sessionType u with
  | Some s =>
      if String.eqb s "" then [("sessionType", "Please specify the session type")]
      else if is_sessionType s then []
      else [("sessionType", enum_message s "sessionType")]
  | None => []
  end
  ++ match UpdateFields.location u with
     | Some s => if String.eqb s "" then [("location", "Please provide a location")] else []
     | None => []
     end.

(** [$set] of the keys present. *)
Definition applyUpdate (u : UpdateFields.t) (b : Booking.t) : Booking.t :=
  Booking.mk (Booking.client b)
    (default (Booking.sessionType b) (UpdateFields.sessionType u))
    (default (Booking.date b) (UpdateFields.date u))
    (default (Booking.timeSlot b) (UpdateFields.timeSlot u))
    (default (Booking.location b) (UpdateFields.location u))
    (default (Booking.additionalDetails b) (UpdateFields.additionalDetails u))
    (Booking.photographer b)
    (Booking.status b)
    (Booking.payment b)
    (Booking.calendlyEventId b)
    (match UpdateFields.notes u with Some n => Some n | None => Booking.notes b end).

Section Update.
(** Whether [new Date(s)] is a valid date. *)
Variable Date_valid : string → bool.

Definition JSDate_valid (d : JSDate) : bool :=
  match d with NewDate s => Date_valid s end.

Definition date_failure (path : string) (d : JSDate) : option Err :=
  if JSDate_valid d then None else Some (CastError "date" path).

(** Casting the update to the schema fails at the first Date path, in the
    order of the keys of [updateFields], that holds an invalid date. *)
Definition castFailure (u : UpdateFields.t) : option Err :=
  match UpdateFields.date u ≫= date_failure "date" with
  | Some e => Some e
  | None =>
      match UpdateFields.timeSlot u with
      | Some timeSlot =>
          match date_failure "timeSlot.start" (TimeSlot.start timeSlot) with
          | Some e => Some e
          | None => date_failure "timeSlot.end" (TimeSlot.end_ timeSlot)
          end
      | None => None
      end
  end.

(** [Booking.findByIdAndUpdate(id, update, { new: true, runValidators: true })]:
    the update is cast, then validated, then written. *)
Definition Booking_findByIdAndUpdate (id : ObjectId) (u : UpdateFields.t) (db : DB.t)
  : (Err + option Booking.t) * DB.t :=
  match castFailure u with
  | Some e => (inl e, db)
  | None =>
      let u := castUpdate u in
      match validateUpdate u with
      | [] =>
          (inr (applyUpdate u <$> Booking_findById id db),
           DB.with_bookings (alter (applyUpdate u) id (DB.bookings db)) db)
      | errs => (inl (ValidationError "" errs), db)
      end
  end.

Definition updateBooking (req : UpdateReq.t) (db : DB.t)
  : Reply (ObjectId * option Booking.t) * DB.t :=
  match Booking_findById (UpdateReq.id req) db with
  | None =>
      (Next (ErrorResponse
               [Txt "Booking not found with id of "; Txt (UpdateReq.id req)] 404), db)
  | Some booking =>
      if not_owner_nor_admin booking (UpdateReq.user req) then
        (Next (ErrorResponse
                 [Txt "User "; Txt (ReqUser.id (UpdateReq.user req));
                  Txt " is not authorized to update this booking"] 401), db)
      else if (BookingStatus_eqb (Booking.status booking) BkConfirmed
               || BookingStatus_eqb (Booking.status booking) BkCompleted)
              && negb (Role_eqb (ReqUser.role (UpdateReq.user req)) RoleAdmin) then
        (Next (ErrorResponse
                 [Txt "Cannot update a booking that is already ";
                  Txt (BookingStatus_to_string (Booking.status booking))] 400), db)
      else
        match Booking_findByIdAndUpdate (UpdateReq.id req)
                (updateFields_of (UpdateReq.body req)) db with
        | (inl e, db) => (Next e, db)
        | (inr booking, db) => (Send 200 (UpdateReq.id req, booking), db)
        end
  end.

End Update.

(** *** [PUT /api/bookings/:id/cancel] *)

Module CancelReq.
Record t := mk {
  id : ObjectId;
  user : ReqUser.t;
  cancellationReason : option string
}.
End CancelReq.

(** The request [axios.post] sends to Calendly: the event whose
    cancellation it asks for, the reason in its body, the bearer key. *)
Module CalendlyCall.
Record t := mk { eventId : string; reason : string; apiKey : string }.
End CalendlyCall.

(** What a handler does outside the database: the requests it sends to
    Calendly and the lines it writes with [console.error]. *)
Module Effects.
Record t := mk { calls : list CalendlyCall.t; logged : list string }.
Definition none : t := mk [] [].
End Effects.

Section Cancel.
(** Whether Calendly accepts a cancellation request ([false]:
    [axios.post] rejects). *)
Variable axios_post : CalendlyCall.t → bool.
Variable CALENDLY_API_KEY : option string.

Definition cancelBooking (req : CancelReq.t) (db : DB.t)
  : Reply (ObjectId * Booking.t) * DB.t * Effects.t :=
  match Booking_findById (CancelReq.id req) db with
  | None =>
      (Next (ErrorResponse
               [Txt "Booking not found with id of "; Txt (CancelReq.id req)] 404),
       db, Effects.none)
  | Some booking =>
      if not_owner_nor_admin booking (CancelReq.user req) then
        (Next (ErrorResponse
                 [Txt "User "; Txt (ReqUser.id (CancelReq.user req));
                  Txt " is not authorized to cancel this booking"] 401),
         db, Effects.none)
      else if BookingStatus_eqb (Booking.status booking) BkCompleted then
        (Next (ErrorResponse [Txt "Cannot cancel a completed booking"] 400),
         db, Effects.none)
      else
        let booking := Booking.with_status BkCancelled booking in
        let db :=
          DB.with_bookings
            (alter (Booking.with_status BkCancelled) (CancelReq.id req)
               (DB.bookings db)) db in
        let effects :=
          if truthy (Booking.calendlyEventId booking) && truthy CALENDLY_API_KEY then
            let call :=
              CalendlyCall.mk (default "" (Booking.calendlyEventId booking))
                (if truthy (CancelReq.cancellationReason req)
                 then default "" (CancelReq.cancellationReason req)
                 else "Cancelled by user")
                (default "" CALENDLY_API_KEY) in
            (* try { await axios.post(..) } catch (err) { console.error(..) } *)
            Effects.mk [call]
              (if axios_post call then [] else ["Failed to cancel Calendly event:"])
          else Effects.none in
        (Send 200 (CancelReq.id req, booking), db, effects)
  end.
End Cancel.

End Bookings.

(** ** Authentication ([auth.controller]) *)

Module Auth.

Module LoginBody.
Record t := mk { email : option string; password : option string }.
End LoginBody.

(** [User.findOne({ email })]: the first user document with that email. *)
Definition User_findOne_email (email : string) (db : DB.t) : option User.t :=
  List.find (λ u, String.eqb (User.email u) email) (DB.users db).

Section Login.
(** [bcrypt.compare(entered, hash)] *)
Variable bcrypt_compare : string → string → bool.
(** [user.getSignedJwtToken()] as of this call: [jwt.sign] stamps the
    token with the time it signs at, so the tokens of two calls are those
    of two such functions. *)
Variable getSignedJwtToken : User.t → string.

Definition matchPassword (user : User.t) (enteredPassword : string) : bool :=
  bcrypt_compare enteredPassword (User.password user).

(** [sendTokenResponse(user, statusCode, res)]: the token, in the cookie
    and in the JSON body. *)
Definition sendTokenResponse (user : User.t) (statusCode : nat) : Reply string :=
  Send statusCode (getSignedJwtToken user).

Definition login (body : LoginBody.t) (db : DB.t) : Reply string :=
  if negb (truthy (LoginBody.email body)) || negb (truthy (LoginBody.password body)) then
    Next (ErrorResponse [Txt "Please provide an email and password"] 400)
  else
    match User_findOne_email (default "" (LoginBody.email body)) db with
    | None => Next (ErrorResponse [Txt "Invalid credentials"] 401)
    | Some user =>
        if negb (matchPassword user (default "" (LoginBody.password body))) then
          Next (ErrorResponse [Txt "Invalid credentials"] 401)
        else sendTokenResponse user 200
    end.
End Login.

End Auth.

(** ** Booking creation, assignment, views and the Calendly webhook
    ([booking.controller], continued) *)

Module BookingDesk.
Import Bookings.

(** The [payment] object as a request or the webhook gives it. *)
Module PaymentInput.
Record t := mk {
  amount : option Number;
  deposit : option Number;
  isPaid : option bool;
  method : option string;
  transactionId : option string
}.
End PaymentInput.

(** The document handed to [Booking.create] (its [status] is always
    ['pending']); the dates are still the values [new Date] is given. *)
Module Draft.
Record t := mk {
  client : ObjectId;
  sessionType : string;
  date : string;
  timeSlot : SlotInput.t;
  location : string;
  additionalDetails : AdditionalDetails.t;
  payment : PaymentInput.t;
  calendlyEventId : option string
}.
End Draft.

(** The [enum] of [payment.method] in the Booking schema. *)
Definition PaymentMethod_of_string (s : string) : option PaymentMethod :=
  if String.eqb s "credit_card" then Some CreditCard
  else if String.eqb s "paypal" then Some PaypalMethod
  else if String.eqb s "cash" then Some Cash
  else if String.eqb s "bank_transfer" then Some BankTransfer
  else None.

Definition Booking_with_photographer (p : ObjectId) (b : Booking.t) : Booking.t :=
  Booking.mk (Booking.client b) (Booking.sessionType b) (Booking.date b)
    (Booking.timeSlot b) (Booking.location b) (Booking.additionalDetails b)
    (Some p) (Booking.status b) (Booking.payment b) (Booking.calendlyEventId b)
    (Booking.notes b).

(** [Booking.findOne({ calendlyEventId })]: a stored booking with that event
    id, the first the collection yields. *)
Definition Booking_findOne_event (uuid : string) (db : DB.t)
  : option (ObjectId * Booking.t) :=
  head (filter (λ kv, Booking.calendlyEventId kv.2 = Some uuid)
          (map_to_list (DB.bookings db))).

Module CreateBody.
Record t := mk {
  sessionType : option string;
  date : option string;
  timeSlot : option SlotInput.t;
  location : option string;
  additionalDetails : option AdditionalDetails.t;
  payment : option PaymentInput.t;
  calendlyEventId : option string
}.
End CreateBody.

Module CreateReq.
Record t := mk { user : ReqUser.t; body : CreateBody.t }.
End CreateReq.

(** What the handler reads of [req.body.payload]: [invitee.email],
    [event_type.name] and, of [scheduled_event], [start_time], [end_time],
    [location.location] and [uuid]. *)
Module CalendlyPayload.
Record t := mk {
  invitee_email : string;
  event_type_name : string;
  start_time : string;
  end_time : string;
  location : option string;
  uuid : string
}.
End CalendlyPayload.

Module CalendlyEvent.
Record t := mk { event : option string; payload : option CalendlyPayload.t }.
End CalendlyEvent.

Section Desk.
(** Whether [new Date(s)] is a valid date. *)
Variable Date_valid : string → bool.

(** The validators of the Booking schema on a new document, path by path;
    [location] is validated as trimmed. *)
Definition Draft_validate (d : Draft.t) : list (string * string) :=
  (if String.eqb (Draft.sessionType d) ""
   then [("sessionType", "Please specify the session type")]
   else if is_sessionType (Draft.sessionType d) then []
   else [("sessionType", enum_message (Draft.sessionType d) "sessionType")])
  ++ (if Date_valid (Draft.date d) then []
      else [("date", invalid_date_message "date")])
  ++ (if Date_valid (SlotInput.start (Draft.timeSlot d)) then []
      else [("timeSlot.start", invalid_date_message "timeSlot.start")])
  ++ (if Date_valid (SlotInput.end_ (Draft.timeSlot d)) then []
      else [("timeSlot.end", invalid_date_message "timeSlot.end")])
  ++ (if String.eqb (trim (Draft.location d)) ""
      then [("location", "Please provide a location")] else [])
  ++ match PaymentInput.amount (Draft.payment d) with
     | None => [("payment.amount", "Please specify the payment amount")]
     | Some a =>
         if PrimFloat.leb 0%float a then []
         else [("payment.amount", "Payment amount cannot be negative")]
     end
  ++ match PaymentInput.deposit (Draft.payment d) with
     | None => []
     | Some a =>
         if PrimFloat.leb 0%float a then []
         else [("payment.deposit", "Deposit cannot be negative")]
     end
  ++ match PaymentInput.method (Draft.payment d) with
     | None => []
     | Some m =>
         match PaymentMethod_of_string m with
         | Some _ => []
         | None => [("payment.method", enum_message m "payment.method")]
         end
     end.

(** The document stored for a valid draft: setters and defaults applied. *)
Definition Draft_document (d : Draft.t) : Booking.t :=
  Booking.mk (Draft.client d) (Draft.sessionType d) (NewDate (Draft.date d))
    (TimeSlot.mk (NewDate (SlotInput.start (Draft.timeSlot d)))
       (NewDate (SlotInput.end_ (Draft.timeSlot d))))
    (trim (Draft.location d)) (Draft.additionalDetails d) None BkPending
    (BookingPayment.mk
       (default 0%float (PaymentInput.amount (Draft.payment d)))
       (default 0%float (PaymentInput.deposit (Draft.payment d)))
       (default false (PaymentInput.isPaid (Draft.payment d)))
       (default CreditCard
          (PaymentInput.method (Draft.payment d) ≫= PaymentMethod_of_string))
       (PaymentInput.transactionId (Draft.payment d)))
    (Draft.calendlyEventId d) None.

(** [Booking.create(doc)]: validate, then insert under the id the driver
    generated ([newId]). *)
Definition Booking_create (newId : ObjectId) (d : Draft.t) (db : DB.t)
  : (Err + Booking.t) * DB.t :=
  match Draft_validate d with
  | [] =>
      (inr (Draft_document d),
       DB.with_bookings (<[newId := Draft_document d]> (DB.bookings db)) db)
  | errs => (inl (ValidationError "Booking" errs), db)
  end.

(** *** [POST /api/bookings] *)

Definition createBooking (newId : ObjectId) (req : CreateReq.t) (db : DB.t)
  : Reply (ObjectId * Booking.t) * DB.t :=
  let body := CreateReq.body req in
  match CreateBody.timeSlot body, CreateBody.payment body with
  | Some timeSlot, Some payment =>
      if negb (truthy (CreateBody.sessionType body))
         || negb (truthy (CreateBody.date body))
         || negb (truthy (CreateBody.location body)) then
        (Next (ErrorResponse [Txt "Please provide all required booking details"] 400), db)
      else
        match Booking_create newId
                (Draft.mk (ReqUser.id (CreateReq.user req))
                   (default "" (CreateBody.sessionType body))
                   (default "" (CreateBody.date body))
                   timeSlot
                   (default "" (CreateBody.location body))
                   (default (AdditionalDetails.mk None None None None)
                      (CreateBody.additionalDetails body))
                   payment
                   (CreateBody.calendlyEventId body)) db with
        | (inl e, db) => (Next e, db)
        | (inr booking, db) => (Send 201 (newId, booking), db)
        end
  | _, _ =>
      (Next (ErrorResponse [Txt "Please provide all required booking details"] 400), db)
  end.

(** *** [POST /api/bookings/calendly-webhook] *)

Definition handleCalendlyWebhook (newId : ObjectId) (req : CalendlyEvent.t) (db : DB.t)
  : Outcome unit * DB.t :=
  if String.eqb (default "" (CalendlyEvent.event req)) "invitee.created" then
    match CalendlyEvent.payload req with
    | None => (Threw (TypeError "invitee"), db)
    | Some payload =>
        match Auth.User_findOne_email (CalendlyPayload.invitee_email payload) db with
        | None => (Replied (Send 200 tt), db)
        | Some user =>
            match Booking_create newId
                    (Draft.mk (User._id user)
                       (CalendlyPayload.event_type_name payload)
                       (CalendlyPayload.start_time payload)
                       (SlotInput.mk (CalendlyPayload.start_time payload)
                          (CalendlyPayload.end_time payload))
                       (if truthy (CalendlyPayload.location payload)
                        then default "" (CalendlyPayload.location payload)
                        else "To be determined")
                       (AdditionalDetails.mk None None None None)
                       (PaymentInput.mk (Some 0%float) None (Some false) None None)
                       (Some (CalendlyPayload.uuid payload))) db with
            | (inl e, db) => (Replied (Next e), db)
            | (inr _, db) => (Replied (Send 200 tt), db)
            end
        end
    end
  else if String.eqb (default "" (CalendlyEvent.event req)) "invitee.canceled" then
    match CalendlyEvent.payload req with
    | None => (Threw (TypeError "scheduled_event"), db)
    | Some payload =>
        match Booking_findOne_event (CalendlyPayload.uuid payload) db with
        | None => (Replied (Send 200 tt), db)
        | Some (id, _) =>
            (Replied (Send 200 tt),
             DB.with_bookings
               (alter (Booking.with_status BkCancelled) id (DB.bookings db)) db)
        end
    end
  else (Replied (Send 200 tt), db).

End Desk.

(** *** [PUT /api/bookings/:id/assign] *)

Module AssignReq.
Record t := mk { id : ObjectId; photographerId : option string }.
End AssignReq.

Definition assignPhotographer (req : AssignReq.t) (db : DB.t)
  : Reply (ObjectId * Booking.t) * DB.t :=
  if negb (truthy (AssignReq.photographerId req)) then
    (Next (ErrorResponse [Txt "Please provide a photographer ID"] 400), db)
  else
    let photographerId := default "" (AssignReq.photographerId req) in
    match User_findById photographerId db with
    | Some photographer =>
        if negb (Role_eqb (User.role photographer) RoleAdmin) then
          (Next (ErrorResponse
                   [Txt "Photographer not found with id of "; Txt photographerId] 404),
           db)
        else
          match Booking_findById (AssignReq.id req) db with
          | None =>
              (Next (ErrorResponse
                       [Txt "Booking not found with id of "; Txt (AssignReq.id req)]
                       404), db)
          | Some booking =>
              (Send 200 (AssignReq.id req,
                         Booking_with_photographer photographerId booking),
               DB.with_bookings
                 (alter (Booking_with_photographer photographerId) (AssignReq.id req)
                    (DB.bookings db)) db)
          end
    | None =>
        (Next (ErrorResponse
                 [Txt "Photographer not found with id of "; Txt photographerId] 404), db)
    end.

(** *** [GET /api/bookings/:id] *)

Module ViewReq.
Record t := mk { id : ObjectId; user : ReqUser.t }.
End ViewReq.

(** The booking with its [client] and its [photographer] populated (of the
    client also the phone, which the users of this model do not carry). *)
Definition getBooking (req : ViewReq.t) (db : DB.t)
  : Outcome (ObjectId * Booking.t * Populated.t * option Populated.t) :=
  match Booking_findById (ViewReq.id req) db with
  | None =>
      Replied (Next (ErrorResponse
                       [Txt "Booking not found with id of "; Txt (ViewReq.id req)] 404))
  | Some booking =>
      let photographer := Booking.photographer booking ≫= (λ p, populate p db) in
      match populate (Booking.client booking) db with
      | None => Threw (TypeError "_id")   (* booking.client is null *)
      | Some client =>
          if negb (String.eqb (Populated._id client) (ReqUser.id (ViewReq.user req)))
             && match photographer with
                | Some p =>
                    negb (String.eqb (Populated._id p) (ReqUser.id (ViewReq.user req)))
                | None => true
                end
             && negb (Role_eqb (ReqUser.role (ViewReq.user req)) RoleAdmin) then
            Replied (Next (ErrorResponse
                             [Txt "User "; Txt (ReqUser.id (ViewReq.user req));
                              Txt " is not authorized to view this booking"] 401))
          else Replied (Send 200 (ViewReq.id req, booking, client, photographer))
      end
  end.

End BookingDesk.

(** ** Registration and password change ([auth.controller], continued) *)

Module Accounts.

(** *** The [match] pattern of [email] in the User schema

    Regular expressions over classes of characters, tested by derivatives:
    [Re_test r s] holds when the whole of [s] is in the language of [r], as
    a pattern anchored by [^] and [$] matches. *)

Inductive Class :=
| Word                      (* \w *)
| DotDash                   (* [\.-] *)
| Lit (c : Ascii.ascii).

Definition Class_eqb (a b : Class) : bool :=
  match a, b with
  | Word, Word | DotDash, DotDash => true
  | Lit c, Lit d => Ascii.eqb c d
  | _, _ => false
  end.

Definition is_word (c : Ascii.ascii) : bool :=
  let n := Ascii.nat_of_ascii c in
  ((48 <=? n)%nat && (n <=? 57)%nat)        (* 0-9 *)
  || ((65 <=? n)%nat && (n <=? 90)%nat)     (* A-Z *)
  || ((97 <=? n)%nat && (n <=? 122)%nat)    (* a-z *)
  || (n =? 95)%nat.                         (* _ *)

Definition in_class (k : Class) (c : Ascii.ascii) : bool :=
  match k with
  | Word => is_word c
  | DotDash => Ascii.eqb c "."%char || Ascii.eqb c "-"%char
  | Lit d => Ascii.eqb c d
  end.

Inductive Re :=
| Void
| Eps
| Chr (k : Class)
| Cat (a b : Re)
| Alt (a b : Re)
| Star (a : Re).

Fixpoint Re_eqb (a b : Re) : bool :=
  match a, b with
  | Void, Void | Eps, Eps => true
  | Chr k, Chr l => Class_eqb k l
  | Cat a1 a2, Cat b1 b2 | Alt a1 a2, Alt b1 b2 => Re_eqb a1 b1 && Re_eqb a2 b2
  | Star a, Star b => Re_eqb a b
  | _, _ => false
  end.

Fixpoint nullable (r : Re) : bool :=
  match r with
  | Void | Chr _ => false
  | Eps | Star _ => true
  | Cat a b => nullable a && nullable b
  | Alt a b => nullable a || nullable b
  end.

(** Concatenation and union that drop what cannot match. *)
Definition cat (a b : Re) : Re :=
  match a, b with
  | Void, _ | _, Void => Void
  | Eps, _ => b
  | _, _ => Cat a b
  end.

Definition alt (a b : Re) : Re :=
  match a, b with
  | Void, _ => b
  | _, Void => a
  | _, _ => if Re_eqb a b then a else Alt a b
  end.

Fixpoint deriv (c : Ascii.ascii) (r : Re) : Re :=
  match r with
  | Void | Eps => Void
  | Chr k => if in_class k c then Eps else Void
  | Cat a b =>
      if nullable a then alt (cat (deriv c a) b) (deriv c b) else cat (deriv c a) b
  | Alt a b => alt (deriv c a) (deriv c b)
  | Star a => cat (deriv c a) (Star a)
  end.

Fixpoint Re_test (r : Re) (s : string) : bool :=
  match s with
  | EmptyString => nullable r
  | String c s => Re_test (deriv c r) s
  end.

Definition plus (r : Re) : Re := Cat r (Star r).
Definition opt (r : Re) : Re := Alt Eps r.

(** [\w+([\.-]?\w+)*] *)
Definition words : Re := Cat (plus (Chr Word)) (Star (Cat (opt (Chr DotDash)) (plus (Chr Word)))).

(** [/^\w+([\.-]?\w+)*@\w+([\.-]?\w+)*(\.\w{2,3})+$/] *)
Definition email_pattern : Re :=
  Cat words
    (Cat (Chr (Lit "@"%char))
       (Cat words
          (plus (Cat (Chr (Lit "."%char))
                   (Cat (Chr Word) (Cat (Chr Word) (opt (Chr Word)))))))).

(** *** [User.create] and [user.save] *)

Definition DB_with_users (us : list User.t) (db : DB.t) : DB.t :=
  DB.mk us (DB.products db) (DB.orders db) (DB.bookings db).

Definition User_with_password (hash : string) (u : User.t) : User.t :=
  User.mk (User._id u) (User.name u) (User.email u) hash (User.role u).

(** The [enum] of [role] in the User schema, and its default. *)
Definition Role_of_string (s : option string) : option Role :=
  match s with
  | None => Some RoleUser
  | Some s =>
      if String.eqb s "user" then Some RoleUser
      else if String.eqb s "admin" then Some RoleAdmin
      else None
  end.

(** The fields [register] hands to [User.create]. *)
Module Fields.
Record t := mk {
  name : option string;
  email : option string;
  password : option string;
  role : option string
}.
End Fields.

(** [s.length], the number of UTF-16 code units of [s], from its UTF-8
    bytes: none for a continuation byte, two for the first byte of a
    character of four bytes (a surrogate pair), one for any other. *)
Fixpoint JS_length (s : string) : nat :=
  match s with
  | EmptyString => 0
  | String c s =>
      let n := Ascii.nat_of_ascii c in
      (if (128 <=? n)%nat && (n <? 192)%nat then 0
       else if (240 <=? n)%nat then 2 else 1) + JS_length s
  end.

Definition name_errors (name : option string) : list (string * string) :=
  let name := Bookings.trim (default "" name) in
  if String.eqb name "" then [("name", "Please provide a name")]
  else if (JS_length name <=? 50)%nat then []
  else [("name", "Name cannot be more than 50 characters")].

Definition email_errors (email : option string) : list (string * string) :=
  if negb (truthy email) then [("email", "Please provide an email")]
  else if Re_test email_pattern (default "" email) then []
  else [("email", "Please provide a valid email")].

Definition password_errors (password : option string) : list (string * string) :=
  if negb (truthy password) then [("password", "Please provide a password")]
  else if (6 <=? JS_length (default "" password))%nat then []
  else [("password", "Password must be at least 6 characters")].

Definition role_errors (role : option string) : list (string * string) :=
  match Role_of_string role with
  | Some _ => []
  | None => [("role", enum_message (default "" role) "role")]
  end.

Definition Fields_validate (f : Fields.t) : list (string * string) :=
  name_errors (Fields.name f) ++ email_errors (Fields.email f)
  ++ password_errors (Fields.password f) ++ role_errors (Fields.role f).

(** The unique index on [email]. *)
Definition email_taken (email : string) (db : DB.t) : bool :=
  existsb (λ u, String.eqb (User.email u) email) (DB.users db).

(** [updateOne({ _id }, { $set: { password } })]: the first document with
    that id. *)
Fixpoint set_password (id : ObjectId) (hash : string) (us : list User.t) : list User.t :=
  match us with
  | [] => []
  | u :: us =>
      if String.eqb (User._id u) id then User_with_password hash u :: us
      else u :: set_password id hash us
  end.

Module PasswordReq.
Record t := mk {
  user : ReqUser.t;
  currentPassword : option string;
  newPassword : option string
}.
End PasswordReq.

Section Bcrypt.
(** [bcrypt.hash(password, salt)] and [bcrypt.compare(entered, hash)] *)
Variable bcrypt_hash : string → string → string.
Variable bcrypt_compare : string → string → bool.
(** [user.getSignedJwtToken()] as of this call *)
Variable getSignedJwtToken : User.t → string.

(** [User.create(fields)]: the validators, then the [pre('save')] hook that
    stores the hash of the password under the salt [bcrypt.genSalt] gave
    ([salt]), then the insertion under the id the driver generated
    ([newId]), which the unique index on [email] may refuse. *)
Definition User_create (newId : ObjectId) (salt : string) (f : Fields.t) (db : DB.t)
  : (Err + Thrown + User.t) * DB.t :=
  match Fields_validate f with
  | [] =>
      let email := default "" (Fields.email f) in
      let user :=
        User.mk newId (Bookings.trim (default "" (Fields.name f))) email
          (bcrypt_hash (default "" (Fields.password f)) salt)
          (default RoleUser (Role_of_string (Fields.role f))) in
      if email_taken email db then (inl (inr (DuplicateKey "email_1" email)), db)
      else (inr user, DB_with_users (DB.users db ++ [user]) db)
  | errs => (inl (inl (ValidationError "User" errs)), db)
  end.

(** *** [POST /api/auth/register] *)

Definition register (newId : ObjectId) (salt : string) (body : Fields.t) (db : DB.t)
  : Outcome string * DB.t :=
  let role :=
    match Fields.role body with
    | Some r => if String.eqb r "admin" then Some "user" else Some r
    | None => None
    end in
  match User_create newId salt
          (Fields.mk (Fields.name body) (Fields.email body) (Fields.password body) role)
          db with
  | (inl (inl e), db) => (Replied (Next e), db)
  | (inl (inr e), db) => (Threw e, db)
  | (inr user, db) => (Replied (Auth.sendTokenResponse getSignedJwtToken user 201), db)
  end.

(** *** [PUT /api/auth/updatepassword] *)

(** [user.save()] with [password] modified: its validators on the new
    password, then the [pre('save')] hook. *)
Definition updatePassword (salt : string) (req : PasswordReq.t) (db : DB.t)
  : Outcome string * DB.t :=
  if negb (truthy (PasswordReq.currentPassword req))
     || negb (truthy (PasswordReq.newPassword req)) then
    (Replied (Next (ErrorResponse [Txt "Please provide current and new password"] 400)),
     db)
  else
    match User_findById (ReqUser.id (PasswordReq.user req)) db with
    | None => (Threw (TypeError "matchPassword"), db)   (* user is null *)
    | Some user =>
        if negb (bcrypt_compare (default "" (PasswordReq.currentPassword req))
                   (User.password user)) then
          (Replied (Next (ErrorResponse [Txt "Current password is incorrect"] 401)), db)
        else
          match password_errors (PasswordReq.newPassword req) with
          | [] =>
              let hash := bcrypt_hash (default "" (PasswordReq.newPassword req)) salt in
              (Replied (Auth.sendTokenResponse getSignedJwtToken
                          (User_with_password hash user) 200),
               DB_with_users (set_password (User._id user) hash (DB.users db)) db)
          | errs => (Replied (Next (ValidationError "User" errs)), db)
          end
    end.

End Bcrypt.

End Accounts.

(** ** The middleware ([auth.middleware]) and the admin routes *)

Module Middleware.

(** Where a request may carry its token: the [Authorization] header and the
    [token] cookie. *)
Module Credentials.
Record t := mk { authorization : option string; cookie : option string }.
End Credentials.

(** What [protect] and [authorize] answer themselves, with
    [{ success: false, error }]. *)
Module Denial.
Record t := mk { status : nat; error : string }.
End Denial.

(** [s.split(' ')] *)
Fixpoint split_space (s : string) : list string :=
  match s with
  | EmptyString => [EmptyString]
  | String c s =>
      if Ascii.eqb c " "%char then EmptyString :: split_space s
      else match split_space s with
           | [] => [String c EmptyString]
           | part :: parts => String c part :: parts
           end
  end.

(** The token [protect] finds: in a header that starts with [Bearer], what
    follows the first space; else the cookie. *)
Definition token_of (c : Credentials.t) : option string :=
  if truthy (Credentials.authorization c)
     && String.prefix "Bearer" (default "" (Credentials.authorization c)) then
    split_space (default "" (Credentials.authorization c)) !! 1
  else if truthy (Credentials.cookie c) then Credentials.cookie c
  else None.

Definition not_authorized : Denial.t :=
  Denial.mk 401 "Not authorized to access this route".

Section Protect.
(** [jwt.verify(token, JWT_SECRET)]: the [id] of the decoded payload, or
    nothing when it throws. *)
Variable jwt_verify : string → option ObjectId.

(** [protect]: a denial, or [next()] with [req.user] set to what
    [User.findById] gave, possibly [null]. *)
Definition protect (c : Credentials.t) (db : DB.t) : Denial.t + option User.t :=
  if negb (truthy (token_of c)) then inl not_authorized
  else
    match jwt_verify (default "" (token_of c)) with
    | None => inl not_authorized
    | Some id => inr (User_findById id db)
    end.

Definition Role_to_string (r : Role) : string :=
  match r with
  | RoleUser => "user"
  | RoleAdmin => "admin"
  end.

(** [authorize(...roles)]: a denial, or nothing for [next()]. *)
Definition authorize (roles : list Role) (user : option User.t) : option Denial.t :=
  match user with
  | None => Some not_authorized
  | Some user =>
      if existsb (Role_eqb (User.role user)) roles then None
      else Some (Denial.mk 403
                   ("User role " +:+ Role_to_string (User.role user)
                    +:+ " is not authorized to access this route"))
  end.

(** A route [protect, authorize('admin'), handler]. *)
Definition admin_route {A} (handler : DB.t → A * DB.t) (c : Credentials.t) (db : DB.t)
  : (Denial.t + A) * DB.t :=
  match protect c db with
  | inl denial => (inl denial, db)
  | inr user =>
      match authorize [RoleAdmin] user with
      | Some denial => (inl denial, db)
      | None => let '(reply, db) := handler db in (inr reply, db)
      end
  end.

(** [PUT /api/orders/:id/status] *)
Definition orders_put_status (c : Credentials.t) (req : Orders.StatusReq.t) :=
  admin_route (Orders.updateOrderStatus req) c.

(** [PUT /api/bookings/:id/status] *)
Definition bookings_put_status (c : Credentials.t) (req : Bookings.StatusReq.t) :=
  admin_route (Bookings.updateBookingStatus req) c.

(** [PUT /api/bookings/:id/assign] *)
Definition bookings_put_assign (c : Credentials.t) (req : BookingDesk.AssignReq.t) :=
  admin_route (BookingDesk.assignPhotographer req) c.

End Protect.

End Middleware.

(** ** The handlers that write, in sequence *)

Module System.

(** A call of one of the handlers that change the database, with the ids
    and the salt the libraries generate for it. *)
Inductive Op :=
| CreateOrder (newId : ObjectId) (req : Orders.Req.t)
| UpdateOrderStatus (req : Orders.StatusReq.t)
| CreatePaymentIntent (req : Payments.IntentReq.t)
| StripeWebhook (req : Orders.WebhookReq.t)
| CreateBooking (newId : ObjectId) (req : BookingDesk.CreateReq.t)
| UpdateBookingStatus (req : Bookings.StatusReq.t)
| AssignPhotographer (req : BookingDesk.AssignReq.t)
| UpdateBooking (req : Bookings.UpdateReq.t)
| CancelBooking (req : Bookings.CancelReq.t)
| CalendlyWebhook (newId : ObjectId) (req : BookingDesk.CalendlyEvent.t)
| Register (newId : ObjectId) (salt : string) (body : Accounts.Fields.t)
| UpdatePassword (salt : string) (req : Accounts.PasswordReq.t).

(** The services and settings the handlers depend on.  (What a call
    leaves behind does not depend on the token it answers: one
    [getSignedJwtToken] serves for all the calls.) *)
Module World.
Record t := mk {
  constructEvent : string → option string → option string → string + Orders.StripeEvent.t;
  STRIPE_WEBHOOK_SECRET : option string;
  Math_round : Number → Number;
  paymentIntents_create : Payments.IntentParams.t → Err + Payments.Intent.t;
  axios_post : Bookings.CalendlyCall.t → bool;
  CALENDLY_API_KEY : option string;
  Date_valid : string → bool;
  bcrypt_hash : string → string → string;
  bcrypt_compare : string → string → bool;
  getSignedJwtToken : User.t → string
}.
End World.

(** The database a call leaves behind. *)
Definition exec (w : World.t) (db : DB.t) (op : Op) : DB.t :=
  match op with
  | CreateOrder newId req => (Orders.createOrder newId req db).2
  | UpdateOrderStatus req => (Orders.updateOrderStatus req db).2
  | CreatePaymentIntent req =>
      (Payments.createPaymentIntent (World.Math_round w)
         (World.paymentIntents_create w) req db).1.2
  | StripeWebhook req =>
      (Orders.handleStripeWebhook (World.constructEvent w)
         (World.STRIPE_WEBHOOK_SECRET w) req db).2
  | CreateBooking newId req =>
      (BookingDesk.createBooking (World.Date_valid w) newId req db).2
  | UpdateBookingStatus req => (Bookings.updateBookingStatus req db).2
  | AssignPhotographer req => (BookingDesk.assignPhotographer req db).2
  | UpdateBooking req => (Bookings.updateBooking (World.Date_valid w) req db).2
  | CancelBooking req =>
      (Bookings.cancelBooking (World.axios_post w) (World.CALENDLY_API_KEY w) req db).1.2
  | CalendlyWebhook newId req =>
      (BookingDesk.handleCalendlyWebhook (World.Date_valid w) newId req db).2
  | Register newId salt body =>
      (Accounts.register (World.bcrypt_hash w) (World.getSignedJwtToken w)
         newId salt body db).2
  | UpdatePassword salt req =>
      (Accounts.updatePassword (World.bcrypt_hash w) (World.bcrypt_compare w)
         (World.getSignedJwtToken w) salt req db).2
  end.

Definition exec_all (w : World.t) (ops : list Op) (db : DB.t) : DB.t :=
  foldl (exec w) db ops.

(** The order ids the driver hands out in [ops]. *)
Definition new_order_ids (ops : list Op) : list ObjectId :=
  omap (λ op, match op with CreateOrder newId _ => Some newId | _ => None end) ops.

(** The booking ids the driver hands out in [ops]. *)
Definition new_booking_ids (ops : list Op) : list ObjectId :=
  omap (λ op, match op with
              | CreateBooking newId _ | CalendlyWebhook newId _ => Some newId
              | _ => None
              end) ops.

End System.

(** ** Vocabulary for the properties of order creation *)

Module OrderSpec.
Import Orders.

(** The subtotal of a list of order lines, added up in list order from 0
    with the arithmetic of JavaScript Numbers. *)
Definition addLine (acc : Number) (l : OrderLine.t) : Number :=
  PrimFloat.add acc (PrimFloat.mul (OrderLine.price l) (OrderLine.quantity l)).

Definition sumLines (ls : list OrderLine.t) : Number := foldl addLine 0%float ls.

(** What the catalogue shows of a product: the fields an order line
    snapshots. *)
Definition listing (p : Product.t) : string * Number :=
  (Product.name p, Product.price p).

Definition same_listing (db db' : DB.t) : Prop :=
  ∀ k, listing <$> (DB.products db' !! k) = listing <$> (DB.products db !! k).

(** An order line carries the name and the price product [product l] has
    in [db]. *)
Definition snapshot_of (db : DB.t) (l : OrderLine.t) : Prop :=
  ∃ p, Product_findById (OrderLine.product l) db = Some p
       ∧ OrderLine.name l = Product.name p
       ∧ OrderLine.price l = Product.price p.

(** The line item [it] asks for. *)
Definition requested (it : Item.t) (l : OrderLine.t) : Prop :=
  OrderLine.product l = Item.product it ∧ OrderLine.quantity l = Item.quantity it.

(** The stock of every item of [items] taken off its product, in list
    order, with no check. *)
Definition decrement (ps : gmap ObjectId Product.t) (it : Item.t)
  : gmap ObjectId Product.t :=
  alter (λ p, Product.with_stock
                (PrimFloat.sub (Product.stock p) (Item.quantity it)) p)
    (Item.product it) ps.

Definition decrementAll (items : list Item.t) (ps : gmap ObjectId Product.t)
  : gmap ObjectId Product.t :=
  foldl decrement ps items.

(** Whether product [Item.product it] is there with enough stock. *)
Definition in_stock (ps : gmap ObjectId Product.t) (it : Item.t) : bool :=
  match ps !! Item.product it with
  | Some p => negb (PrimFloat.ltb (Product.stock p) (Item.quantity it))
  | None => false
  end.

(** Every item of [items] is in stock at its turn, the items before it
    having taken theirs. *)
Fixpoint all_in_stock (items : list Item.t) (ps : gmap ObjectId Product.t) : bool :=
  match items with
  | [] => true
  | it :: rest => in_stock ps it && all_in_stock rest (decrement ps it)
  end.

(** The stock [it] leaves on its product is a number. *)
Definition leaves_number (ps : gmap ObjectId Product.t) (it : Item.t) : bool :=
  match ps !! Item.product it with
  | Some p => is_number (PrimFloat.sub (Product.stock p) (Item.quantity it))
  | None => true
  end.

(** Every item of [items] leaves a number at its turn: no [product.save()]
    of the loop is of a NaN stock. *)
Fixpoint all_numbers (items : list Item.t) (ps : gmap ObjectId Product.t) : bool :=
  match items with
  | [] => true
  | it :: rest => leaves_number ps it && all_numbers rest (decrement ps it)
  end.

(** A one-item-list request. *)
Definition request (user : ReqUser.t) (items : list Item.t) (addr : Address.t) : Req.t :=
  Req.mk user (Body.mk (Some items) (Some addr)).

End OrderSpec.

(** ** Vocabulary for the properties of the booking workflow *)

Module BookingSpec.
Import Bookings.

(** The request sent to Calendly for booking [b]. *)
Definition cancellation (b : Booking.t) (key : option string) (req : CancelReq.t)
  : CalendlyCall.t :=
  CalendlyCall.mk (default "" (Booking.calendlyEventId b))
    (if truthy (CancelReq.cancellationReason req)
     then default "" (CancelReq.cancellationReason req) else "Cancelled by user")
    (default "" key).

End BookingSpec.

(** ** Vocabulary for two calls racing for the last unit of a product *)

Module RaceSpec.
Import Orders OrderTasks.

(** Where a call for one unit of a product stands: about to read the
    product, about to write the stock it computed, about to create the
    order, or finished one way or the other. *)
Inductive Phase := Reading | Writing | Creating | Succeeded | Refused.

Definition one_unit (pid : ObjectId) (p : Product.t) : OrderLine.t :=
  OrderLine.mk pid (Product.name p) (Product.price p) 1%float.

Definition order_for (c : Call.t) (pid : ObjectId) (p : Product.t) : Order.t :=
  buildOrder (Call.user c) [one_unit pid p] (Call.shippingAddress c)
    (PrimFloat.add 0%float (PrimFloat.mul (Product.price p) 1%float)).

Definition refusal (p : Product.t) : Reply (ObjectId * Order.t) :=
  Next (ErrorResponse
          [Txt (Product.name p); Txt " is out of stock. Only "; Num 0%float;
           Txt " available."] 400).

(** The task of a call for the last unit of [p] in each phase. *)
Definition task_at (c : Call.t) (pid : ObjectId) (p : Product.t) (ph : Phase) : Task :=
  match ph with
  | Reading => AwaitFind c (Item.mk pid 1%float) [] [] 0%float
  | Writing =>
      AwaitSave c pid 0%float [] [one_unit pid p]
        (PrimFloat.add 0%float (PrimFloat.mul (Product.price p) 1%float))
  | Creating => AwaitCreate c (order_for c pid p)
  | Succeeded => Finished (Send 201 (Call.newId c, order_for c pid p))
  | Refused => Finished (refusal p)
  end.

(** Whether the call has written the stock. *)
Definition wrote (ph : Phase) : bool :=
  match ph with
  | Creating | Succeeded => true
  | Reading | Writing | Refused => false
  end.

(** The stock in the database: 1 until a call has written. *)
Definition stock_left (ph1 ph2 : Phase) : Number :=
  if wrote ph1 || wrote ph2 then 0%float else 1%float.

(** A call is refused only after the other has written the stock. *)
Definition consistent (ph1 ph2 : Phase) : bool :=
  match ph1, ph2 with
  | Refused, (Creating | Succeeded) | (Creating | Succeeded), Refused => true
  | Refused, _ | _, Refused => false
  | _, _ => true
  end.

(** The phase a call moves to when the database serves it, the other call
    being in phase [other]. *)
Definition next_phase (ph other : Phase) : Phase :=
  match ph with
  | Reading => if wrote other then Refused else Writing
  | Writing => Creating
  | Creating => Succeeded
  | Succeeded => Succeeded
  | Refused => Refused
  end.

(** How far a call has come: a finished call is at 3. *)
Definition rank (ph : Phase) : nat :=
  match ph with
  | Reading => 0
  | Writing => 1
  | Creating => 2
  | Succeeded | Refused => 3
  end.

(** The number of turns a schedule gives each call. *)
Fixpoint turns (schedule : list Turn) : nat * nat :=
  match schedule with
  | [] => (0, 0)
  | First :: schedule => let '(a, b) := turns schedule in (S a, b)
  | Second :: schedule => let '(a, b) := turns schedule in (a, S b)
  end.

End RaceSpec.

(** ** Vocabulary for the properties of the whole system *)

Module SystemSpec.

(** The amounts of an order follow from its lines as [createOrder] computes
    them. *)
Definition well_priced (o : Order.t) : Prop :=
  Order.subtotal o = OrderSpec.sumLines (Order.products o)
  ∧ Order.tax o = PrimFloat.mul (Order.subtotal o) zero_point_one
  ∧ Order.shipping o
    = (if PrimFloat.ltb 100%float (Order.subtotal o) then 0%float else 10%float)
  ∧ Order.total o
    = PrimFloat.add (PrimFloat.add (Order.subtotal o) (Order.tax o)) (Order.shipping o).

Definition all_well_priced (db : DB.t) : Prop :=
  ∀ id o, DB.orders db !! id = Some o → well_priced o.

(** What an order is made of once created: everything but its status, its
    payment information, its tracking number and its notes. *)
Definition core (o : Order.t) :=
  (Order.user o, Order.products o, Order.shippingAddress o,
   Order.subtotal o, Order.tax o, Order.shipping o, Order.total o).

(** Every photographer assigned to a booking is an admin user. *)
Definition photographers_are_admins (db : DB.t) : Prop :=
  ∀ id b p,
    DB.bookings db !! id = Some b → Booking.photographer b = Some p →
    ∃ u, User_findById p db = Some u ∧ User.role u = RoleAdmin.

(** The ids of the admins among the users, in the order of the collection. *)
Definition admins (db : DB.t) : list ObjectId :=
  User._id <$> filter (λ u, Role_eqb (User.role u) RoleAdmin = true) (DB.users db).

(** No two users share an email. *)
Definition emails_unique (db : DB.t) : Prop :=
  NoDup (User.email <$> DB.users db).


(** The location the Calendly webhook books: the one given, or a
    placeholder. *)
Definition booked_location (p : BookingDesk.CalendlyPayload.t) : string :=
  if truthy (BookingDesk.CalendlyPayload.location p)
  then default "" (BookingDesk.CalendlyPayload.location p)
  else "To be determined".

(** An [invitee.created] payload the Booking schema accepts: a session
    type of the enum, dates that parse, a location that is not blank. *)
Definition payload_ok (Date_valid : string → bool) (p : BookingDesk.CalendlyPayload.t)
  : bool :=
  Bookings.is_sessionType (BookingDesk.CalendlyPayload.event_type_name p)
  && Date_valid (BookingDesk.CalendlyPayload.start_time p)
  && Date_valid (BookingDesk.CalendlyPayload.end_time p)
  && negb (String.eqb (Bookings.trim (booked_location p)) "").

(** No booking but [id] carries the Calendly event [uuid]. *)
Definition only_event (uuid : string) (id : ObjectId) (db : DB.t) : Prop :=
  ∀ j b, DB.bookings db !! j = Some b → Booking.calendlyEventId b = Some uuid → j = id.

(** No booking carries the Calendly event [uuid]. *)
Definition no_event (uuid : string) (db : DB.t) : Prop :=
  ∀ j b, DB.bookings db !! j = Some b → Booking.calendlyEventId b ≠ Some uuid.

(** No space in the string. *)
Fixpoint spaceless (s : string) : bool :=
  match s with
  | EmptyString => true
  | String c s => negb (Ascii.eqb c " "%char) && spaceless s
  end.

End SystemSpec.

(** ** Example data *)

Module Examples.
Import Orders OrderSpec.

Definition print (stock : Number) : Product.t :=
  Product.mk "Dunes at dawn" 50%float stock "prints" "/images/dunes.jpg".

Definition frame : Product.t :=
  Product.mk "Oak frame" 20%float 4%float "frames" "/images/frame.jpg".

Definition home : Address.t :=
  Address.mk "Ada" "1 Main St" "Springfield" "IL" "62701" "US" "555-0100".

Definition ada : ReqUser.t := ReqUser.mk "u1" RoleUser.
Definition bob : ReqUser.t := ReqUser.mk "u2" RoleUser.
Definition root : ReqUser.t := ReqUser.mk "u9" RoleAdmin.

(** A shop with [stock] prints and four frames, and no orders yet. *)
Definition shop (stock : Number) : DB.t :=
  DB.mk [] (<["p1" := print stock]> (<["p2" := frame]> ∅)) ∅ ∅.

(** Two prints. *)
Definition two_prints : Req.t := request ada [Item.mk "p1" 2%float] home.

(** One print. *)
Definition one_print (user : ReqUser.t) : Req.t :=
  request user [Item.mk "p1" 1%float] home.

(** A frame, then six prints, then another frame. *)
Definition frame_prints_frame : list Item.t :=
  [Item.mk "p2" 1%float; Item.mk "p1" 6%float; Item.mk "p2" 1%float].

(** The race: each call reads the stock before the other writes it. *)
Definition race : list OrderTasks.Turn :=
  [OrderTasks.First; OrderTasks.Second; OrderTasks.First; OrderTasks.Second;
   OrderTasks.First; OrderTasks.Second].

(** A booking of Ada's, made through Calendly. *)
Definition session (status : BookingStatus) : Booking.t :=
  Booking.mk "u1" "portrait" (NewDate "2025-06-01")
    (TimeSlot.mk (NewDate "2025-06-01T10:00") (NewDate "2025-06-01T11:00"))
    "Studio" (AdditionalDetails.mk None None None None) None status
    (BookingPayment.mk 200%float 50%float false CreditCard None)
    (Some "evt-42") None.

Definition diary (status : BookingStatus) : DB.t :=
  DB.mk [] ∅ ∅ {["b1" := session status]}.

(** Move the session to the park. *)
Definition to_the_park : Bookings.UpdateBody.t :=
  Bookings.UpdateBody.mk None None None (Some " City park ") None None.

(** Calendly is down: every request to it is rejected. *)
Definition calendly_down : Bookings.CalendlyCall.t → bool := λ _, false.

(** A paid order of Ada's awaiting its webhook. *)
Definition order_of_ada : Order.t :=
  Order.mk "u1" [OrderLine.mk "p1" "Dunes at dawn" 50%float 1%float] home
    (PaymentInfo.mk Stripe (Some "pi_1") PayPending)
    50%float 5%float 10%float 65%float OrdPending None None.

Definition ledger : DB.t := DB.mk [] ∅ {["o1" := order_of_ada]} ∅.

(** A stand-in for Stripe's check: the signature must be the secret; the
    body is the event type, and the event is about order ["o1"]. *)
Definition check_signature (body : string) (sig secret : option string)
  : string + Orders.StripeEvent.t :=
  match sig, secret with
  | Some s, Some k =>
      if String.eqb s k then inr (Orders.StripeEvent.mk body (Some "o1"))
      else inl "No signatures found matching the expected signature"
  | _, _ => inl "No signature"
  end.

(** A user base of one, and a stand-in for bcrypt: the hash of a
    password is the password reversed. *)
Definition members : DB.t :=
  DB.mk [User.mk "u1" "Ada" "ada@example.com" "terces" RoleUser] ∅ ∅ ∅.

Definition reversed (entered hash : string) : bool :=
  String.eqb (String.rev entered) hash.

Definition token_for (u : User.t) : string := "jwt:" +:+ User._id u.

End Examples.

(** ** More example data *)

Module Samples.
Import Examples.

(** Ada and the admin as users, Ada's order, and her confirmed session. *)
Definition bureau : DB.t :=
  DB.mk [User.mk "u1" "Ada" "ada@example.com" "terces" RoleUser;
         User.mk "u9" "Root" "root@example.com" "toor" RoleAdmin]
    {["p1" := print 5%float]} {["o1" := order_of_ada]}
    {["b1" := session BkConfirmed]}.

(** A stand-in for [Math.round] on whole amounts, and for Stripe: an
    intent named after the order. *)
Definition to_cents (x : Number) : Number := x.

Definition stripe_up (p : Payments.IntentParams.t) : Err + Payments.Intent.t :=
  inr (Payments.Intent.mk ("pi_" +:+ Payments.IntentParams.orderId p)
         ("pi_" +:+ Payments.IntentParams.orderId p +:+ "_secret")).


(** A stand-in for the dates [new Date] can read: those that begin with
    the century. *)
Definition parses (s : string) : bool := String.prefix "20" s.

(** Move the session to no date at all. *)
Definition to_no_date : Bookings.UpdateBody.t :=
  Bookings.UpdateBody.mk None (Some "not-a-date") None None None None.

(** Calendly's payload for Ada's session. *)
Definition ada_invited : BookingDesk.CalendlyPayload.t :=
  BookingDesk.CalendlyPayload.mk "ada@example.com" "portrait" "2025-06-01T10:00"
    "2025-06-01T11:00" None "evt-42".

(** Bob signs up, asking to be an admin. *)
Definition bob_signs_up : Accounts.Fields.t :=
  Accounts.Fields.mk (Some "Bob") (Some "bob@example.com") (Some "hunter22")
    (Some "admin").

(** A stand-in for bcrypt with salts: the hash is the password reversed,
    a dollar sign, and the salt. *)
Definition salted (password salt : string) : string :=
  String.rev password +:+ ("$" +:+ salt).

Definition unsalted (entered hash : string) : bool :=
  String.prefix (String.rev entered +:+ "$") hash.


(** A stand-in for the signing of a later moment. *)
Definition token_later (u : User.t) : string := "jwt:" +:+ User._id u +:+ "@later".

(** A stand-in for [jwt.verify]: the tokens of [token_for]. *)
Definition decode (token : string) : option ObjectId :=
  if String.prefix "jwt:" token then Some (String.substring 4 (String.length token - 4) token)
  else None.

(** A world in which Stripe and Calendly answer, every date parses, and
    the stand-ins above do the rest. *)
Definition world : System.World.t :=
  System.World.mk check_signature (Some "whsec") to_cents stripe_up (λ _, true)
    (Some "key") (λ _, true) salted unsalted token_for.

End Samples.

(** ** Properties of order creation *)

Module OrdersFacts.
Import Orders OrderSpec.

Lemma same_listing_refl db : same_listing db db.
Proof. by intros k. Qed.

Lemma same_listing_trans db1 db2 db3 :
  same_listing db1 db2 → same_listing db2 db3 → same_listing db1 db3.
Proof. intros H12 H23 k. by rewrite H23, H12. Qed.

Lemma save_stock_listing id s db : same_listing db (Product_save_stock id s db).
Proof.
  intros k. unfold Product_save_stock. simpl.
  destruct (decide (id = k)) as [->|Hne].
  - rewrite lookup_alter_eq. by destruct (DB.products db !! k).
  - by rewrite lookup_alter_ne.
Qed.

Lemma snapshot_of_listing db db' l :
  same_listing db db' → snapshot_of db' l → snapshot_of db l.
Proof.
  intros Hs (p & Hp & Hn & Hpr). unfold snapshot_of, Product_findById in *.
  specialize (Hs (OrderLine.product l)). rewrite Hp in Hs. simpl in Hs.
  destruct (DB.products db !! OrderLine.product l) as [q|] eqn:Hq; [|done].
  exists q. simpl in Hs. unfold listing in Hs.
  split; [done|]. split; congruence.
Qed.

(** The loop touches the products collection only, and there only the
    stock: whatever it returns. *)
Lemma processItems_frame items : ∀ acc sub db,
  let db' := (processItems items acc sub db).2 in
  DB.users db' = DB.users db ∧ DB.orders db' = DB.orders db
  ∧ DB.bookings db' = DB.bookings db ∧ same_listing db db'.
Proof.
  induction items as [|item rest IH]; intros acc sub db; simpl.
  - by repeat split.
  - destruct (Product_findById (Item.product item) db) as [p|]; simpl;
      [|by repeat split].
    destruct (PrimFloat.ltb _ _); simpl;
      [by repeat split|].
    match goal with |- context [processItems rest ?a ?s ?d] =>
      destruct (IH a s d) as (Hu & Ho & Hb & Hl) end.
    rewrite Hu, Ho, Hb. split_and!; try done.
    eapply same_listing_trans; [apply save_stock_listing | exact Hl].
Qed.

(** The loop invariant: when the loop completes, the lines it appended
    are the requested items in order, each a snapshot of its product, and
    the subtotal has grown by their sum. *)
Lemma processItems_lines items : ∀ acc sub db lines sub' db',
  processItems items acc sub db = (inr (lines, sub'), db') →
  ∃ new, lines = acc ++ new
         ∧ sub' = foldl addLine sub new
         ∧ Forall2 requested items new
         ∧ Forall (snapshot_of db) new.
Proof.
  induction items as [|item rest IH]; intros acc sub db lines sub' db' H; simpl in H.
  - inversion H; subst. exists []. rewrite app_nil_r. repeat split; constructor.
  - destruct (Product_findById (Item.product item) db) as [p|] eqn:Hp; [|done].
    destruct (PrimFloat.ltb _ _); [done|].
    apply IH in H as (new & -> & -> & Hreq & Hsnap).
    eexists (_ :: new). rewrite <- app_assoc. split; [reflexivity|].
    split; [reflexivity|]. split.
    + constructor; [by split | done].
    + constructor.
      * by exists p.
      * eapply Forall_impl; [exact Hsnap|]. intros l.
        apply snapshot_of_listing, save_stock_listing.
Qed.

Lemma Order_create_ok newId o db o' db' :
  Order_create newId o db = (inr o', db') →
  o' = o ∧ db' = DB.with_orders (<[newId := o]> (DB.orders db)) db.
Proof.
  unfold Order_create. destruct (Order_validate o); [|done].
  intros H. by inversion H.
Qed.

(** A successful [createOrder] unfolds into its three stages. *)
Lemma createOrder_success newId req db s i o db' :
  createOrder newId req db = (Send s (i, o), db') →
  s = 201 ∧ i = newId ∧
  ∃ items addr lines sub db1,
    Body.products (Req.body req) = Some items
    ∧ Body.shippingAddress (Req.body req) = Some addr
    ∧ processItems items [] 0%float db = (inr (lines, sub), db1)
    ∧ o = buildOrder (ReqUser.id (Req.user req)) lines addr sub
    ∧ db' = DB.with_orders (<[newId := o]> (DB.orders db1)) db1.
Proof.
  unfold createOrder.
  destruct (Body.products (Req.body req)) as [[|i0 items]|] eqn:Hi; [done| |done].
  destruct (Body.shippingAddress (Req.body req)) as [addr|]; [|done].
  destruct (processItems (i0 :: items) [] 0%float db) as [[e|[lines sub]] db1] eqn:Hp;
    [done|].
  destruct (Order_create _ _ db1) as [[e|o1] db2] eqn:Hc; [done|].
  apply Order_create_ok in Hc as [-> ->].
  intros H. inversion H; subst.
  split; [done|]. split; [done|].
  exists (i0 :: items), addr, lines, sub, db1. by split_and!.
Qed.

(** C1: a successful [createOrder] persists the order it returns, whose
    subtotal is the sum over its lines of price times quantity, whose tax
    is the subtotal times 0.1, whose shipping is 0 above 100 and 10
    otherwise, whose total is the sum of the three; each line carries the
    name and the price its product had in the database the call started
    from and the quantity that was asked for, and no later change of the
    products collection alters the stored order. *)
Theorem createOrder_totals newId req db s i o db' :
  createOrder newId req db = (Send s (i, o), db') →
  s = 201 ∧ i = newId
  ∧ Order_findById newId db' = Some o
  ∧ Order.subtotal o = sumLines (Order.products o)
  ∧ Order.tax o = PrimFloat.mul (Order.subtotal o) zero_point_one
  ∧ Order.shipping o
    = (if PrimFloat.ltb 100%float (Order.subtotal o) then 0%float else 10%float)
  ∧ Order.total o
    = PrimFloat.add (PrimFloat.add (Order.subtotal o) (Order.tax o)) (Order.shipping o)
  ∧ Forall (snapshot_of db) (Order.products o)
  ∧ (∃ items, Body.products (Req.body req) = Some items
              ∧ Forall2 requested items (Order.products o))
  ∧ (∀ ps, Order_findById newId (DB.with_products ps db') = Some o).
Proof.
  intros H.
  apply createOrder_success in H
    as (-> & -> & items & addr & lines & sub & db1 & Hitems & _ & Hp & -> & ->).
  apply processItems_lines in Hp as (new & -> & -> & Hreq & Hsnap).
  split_and!; try done.
  - unfold Order_findById. simpl. apply lookup_insert_eq.
  - by exists items.
  - intros ps. unfold Order_findById. simpl. apply lookup_insert_eq.
Qed.

Lemma createOrder_totals_witness :
  ∃ o db',
    createOrder "o1" Examples.two_prints (Examples.shop 5%float)
    = (Send 201 ("o1", o), db')
    ∧ Order_findById "o1" db' = Some o
    ∧ Order.subtotal o = sumLines (Order.products o)
    ∧ Forall (snapshot_of (Examples.shop 5%float)) (Order.products o).
Proof.
  eexists _, _. split; [vm_compute; reflexivity|].
  pose proof (createOrder_totals "o1" Examples.two_prints (Examples.shop 5%float)
                _ _ _ _ eq_refl) as H.
  by destruct H as (_ & _ & H1 & H2 & _ & _ & _ & H3 & _ & _).
Defined.

Lemma ten_is_not_zero : 10%float ≠ 0%float.
Proof.
  intros H.
  assert (PrimFloat.ltb 0%float 10%float = PrimFloat.ltb 0%float 0%float) as H'
    by (by rewrite H).
  discriminate H'.
Qed.

(** C2, as the code has it: two units of a product priced 50 with 5 in
    stock give subtotal 100, tax 10, shipping 10 (100 is not above 100),
    total 120, and leave 3 in stock. *)
Theorem createOrder_boundary newId user addr pid p db :
  Product_findById pid db = Some p →
  Product.price p = 50%float → Product.stock p = 5%float →
  ∃ o db',
    createOrder newId (request user [Item.mk pid 2%float] addr) db
    = (Send 201 (newId, o), db')
    ∧ Order.subtotal o = 100%float ∧ Order.tax o = 10%float
    ∧ Order.shipping o = 10%float ∧ Order.total o = 120%float
    ∧ Product.stock <$> Product_findById pid db' = Some 3%float.
Proof.
  intros Hp Hprice Hstock. unfold createOrder, request. simpl.
  rewrite Hp, Hstock, Hprice. simpl.
  eexists _, _. split; [reflexivity|]. simpl. split_and!; try done.
  unfold Product_findById in *. simpl. by rewrite lookup_alter_eq, Hp.
Qed.

Lemma createOrder_boundary_witness :
  ∃ o db',
    createOrder "o1" Examples.two_prints (Examples.shop 5%float)
    = (Send 201 ("o1", o), db')
    ∧ Order.subtotal o = 100%float ∧ Order.tax o = 10%float
    ∧ Order.shipping o = 10%float ∧ Order.total o = 120%float
    ∧ Product.stock <$> Product_findById "p1" db' = Some 3%float.
Proof.
  apply (createOrder_boundary "o1" Examples.ada Examples.home "p1"
           (Examples.print 5%float) (Examples.shop 5%float));
    reflexivity.
Defined.

(** C2 as stated fails: at subtotal 100 the order is charged shipping, so
    it is not an order with shipping 0 and total 110. *)
Lemma createOrder_boundary_counterexample :
  ¬ ∃ o db',
      createOrder "o1" Examples.two_prints (Examples.shop 5%float)
      = (Send 201 ("o1", o), db')
      ∧ Order.subtotal o = 100%float ∧ Order.tax o = 10%float
      ∧ Order.shipping o = 0%float ∧ Order.total o = 110%float
      ∧ Product.stock <$> Product_findById "p1" db' = Some 3%float.
Proof.
  intros (o & db' & H & _ & _ & Hship & _).
  vm_compute in H. inversion H; subst o. simpl in Hship.
  by apply ten_is_not_zero.
Qed.

(** *** Failure part-way through the loop *)

Lemma with_products_twice ps ps' db :
  DB.with_products ps' (DB.with_products ps db) = DB.with_products ps' db.
Proof. by destruct db. Qed.

Lemma with_products_same db : DB.with_products (DB.products db) db = db.
Proof. by destruct db. Qed.

(** Saving the stock computed from the document just read is taking the
    quantity off the stored stock. *)
Lemma save_stock_decrement it p db :
  Product_findById (Item.product it) db = Some p →
  Product_save_stock (Item.product it)
    (PrimFloat.sub (Product.stock p) (Item.quantity it)) db
  = DB.with_products (decrement (DB.products db) it) db.
Proof.
  intros Hp. unfold Product_save_stock, decrement. f_equal.
  apply alter_ext. intros q Hq. unfold Product_findById in Hp.
  by replace q with p by congruence.
Qed.

Lemma processItems_in_stock items : ∀ acc sub db,
  all_in_stock items (DB.products db) = true →
  ∃ lines sub',
    processItems items acc sub db
    = (inr (lines, sub'),
       DB.with_products (decrementAll items (DB.products db)) db).
Proof.
  induction items as [|it rest IH]; intros acc sub db H; simpl in *.
  - exists acc, sub. by rewrite with_products_same.
  - apply andb_prop in H as [Hin Hrest]. unfold in_stock in Hin.
    unfold Product_findById at 1.
    destruct (DB.products db !! Item.product it) as [p|] eqn:Hp; [|done].
    apply negb_true_iff in Hin. rewrite Hin.
    rewrite (save_stock_decrement it p db Hp).
    match goal with |- context [processItems rest ?a ?s ?d] =>
      destruct (IH a s d) as (lines & sub' & ->); [exact Hrest|] end.
    exists lines, sub'. simpl. by rewrite with_products_twice.
Qed.

Lemma processItems_app pre : ∀ rest acc sub db,
  processItems (pre ++ rest) acc sub db
  = match processItems pre acc sub db with
    | (inl e, db') => (inl e, db')
    | (inr (acc', sub'), db') => processItems rest acc' sub' db'
    end.
Proof.
  induction pre as [|it pre IH]; intros rest acc sub db; simpl; [done|].
  destruct (Product_findById (Item.product it) db) as [p|]; [|done].
  destruct (PrimFloat.ltb _ _); [done|]. apply IH.
Qed.

(** C4: when the items before the k-th are in stock at their turn, each
    leaving a stock that is a number, and the
    k-th is not (its product is absent, or has less stock than asked),
    [createOrder] fails (with 404 for an absent product, 400 for a short
    stock) and leaves the database it started
    from with the stock of the items before the k-th taken off and nothing
    else changed: no order is stored, nothing is rolled back, and the
    items after the k-th have no effect. *)
Theorem createOrder_partial_failure newId user addr pre item post db :
  all_in_stock pre (DB.products db) = true →
  all_numbers pre (DB.products db) = true →
  in_stock (decrementAll pre (DB.products db)) item = false →
  ∃ e,
    createOrder newId (request user (pre ++ item :: post) addr) db
    = (Next e, DB.with_products (decrementAll pre (DB.products db)) db)
    ∧ Err_status e
    = match decrementAll pre (DB.products db) !! Item.product item with
      | None => 404
      | Some _ => 400
      end
    ∧ DB.orders (DB.with_products (decrementAll pre (DB.products db)) db)
      = DB.orders db.
Proof.
  intros Hpre _ Hitem.
  assert (∃ e, processItems (pre ++ item :: post) [] 0%float db
               = (inl e, DB.with_products (decrementAll pre (DB.products db)) db)
               ∧ Err_status e
    = match decrementAll pre (DB.products db) !! Item.product item with
      | None => 404
      | Some _ => 400
      end) as (e & Hrun & He).
  { rewrite processItems_app.
    destruct (processItems_in_stock pre [] 0%float db Hpre) as (lines & sub & ->).
    simpl. unfold in_stock in Hitem. unfold Product_findById. simpl.
    destruct (decrementAll pre (DB.products db) !! Item.product item) as [p|].
    - apply negb_false_iff in Hitem. rewrite Hitem. by eexists.
    - by eexists. }
  exists e. split; [|by split].
  unfold createOrder, request. simpl.
  destruct (pre ++ item :: post) as [|i0 l] eqn:Hl.
  - by destruct pre.
  - by rewrite Hrun.
Qed.

Lemma createOrder_partial_failure_witness :
  ∃ e db',
    createOrder "o1" (request Examples.ada Examples.frame_prints_frame Examples.home)
      (Examples.shop 5%float) = (Next e, db')
    ∧ Err_status e = 400
    ∧ DB.orders db' = ∅
    ∧ Product.stock <$> DB.products db' !! "p2" = Some 3%float
    ∧ Product.stock <$> DB.products db' !! "p1" = Some 5%float.
Proof.
  destruct (createOrder_partial_failure "o1" Examples.ada Examples.home
              [Item.mk "p2" 1%float] (Item.mk "p1" 6%float) [Item.mk "p2" 1%float]
              (Examples.shop 5%float) eq_refl eq_refl eq_refl) as (e & H & He & Ho).
  eexists e, _. split; [exact H|]. split; [exact He|].
  split; [exact Ho|]. split; reflexivity.
Defined.

End OrdersFacts.
(** ** Interleaved order creation *)

Module OrderTasksFacts.
Import Orders OrderSpec OrderTasks RaceSpec OrdersFacts.

Lemma run_Finished n r db : run n (Finished r) db = (Finished r, db).
Proof. induction n as [|n IH]; simpl; [done|apply IH]. Qed.

Lemma run_add n m t db :
  run (n + m) t db = let '(t', db') := run n t db in run m t' db'.
Proof.
  revert t db. induction n as [|n IH]; intros t db; simpl; [done|].
  destruct (step t db) as [t' db']. apply IH.
Qed.

(** Once finished, further steps change nothing. *)
Lemma run_more n m t db r db' :
  run n t db = (Finished r, db') → n ≤ m → run m t db = (Finished r, db').
Proof.
  intros H Hle. replace m with (n + (m - n)) by lia.
  rewrite run_add, H. apply run_Finished.
Qed.

(** Run alone, the task goes through the loop as [processItems] does: two
    steps an item, and one for [Order.create]. *)
Lemma run_iterate c items : ∀ orderItems subtotal db,
  run (2 * length items + 1) (iterate c items orderItems subtotal) db
  = conclude c (processItems items orderItems subtotal db).
Proof.
  induction items as [|item rest IH]; intros acc sub db.
  - simpl. by destruct (Order_create _ _ _) as [[e|o] db'].
  - replace (2 * length (item :: rest) + 1) with (S (S (2 * length rest + 1)))
      by (simpl; lia).
    simpl run. simpl processItems.
    destruct (Product_findById (Item.product item) db) as [p|];
      [|apply run_Finished].
    destruct (PrimFloat.ltb _ _); [apply run_Finished|].
    apply IH.
Qed.

(** A call that runs alone does what [createOrder] does. *)
Lemma run_createOrder newId req db n :
  steps_of req ≤ n →
  run n (start newId req) db
  = let '(r, db') := createOrder newId req db in (Finished r, db').
Proof.
  intros Hn.
  destruct (createOrder newId req db) as [r db'] eqn:Hc.
  apply (run_more (steps_of req)); [|exact Hn].
  unfold steps_of, start, createOrder in *.
  destruct (Body.products (Req.body req)) as [[|i0 items]|];
    [inversion Hc; apply run_Finished| |inversion Hc; apply run_Finished].
  destruct (Body.shippingAddress (Req.body req)) as [addr|];
    [|inversion Hc; apply run_Finished].
  simpl default. rewrite run_iterate. unfold conclude. simpl Call.newId.
  simpl Call.user. simpl Call.shippingAddress.
  destruct (processItems (i0 :: items) [] 0%float db) as [[e|[lines sub]] db1];
    [by inversion Hc|].
  destruct (Order_create _ _ db1) as [[e|o] db2]; by inversion Hc.
Qed.

Lemma interleave_app s1 : ∀ s2 t1 t2 db,
  interleave (s1 ++ s2) t1 t2 db
  = let '(t1', t2', db') := interleave s1 t1 t2 db in interleave s2 t1' t2' db'.
Proof.
  induction s1 as [|[|] s1 IH]; intros s2 t1 t2 db; simpl; [done| |].
  - destruct (step t1 db) as [t1' db']. apply IH.
  - destruct (step t2 db) as [t2' db']. apply IH.
Qed.

Lemma interleave_First n : ∀ t1 t2 db,
  interleave (replicate n First) t1 t2 db
  = let '(t1', db') := run n t1 db in (t1', t2, db').
Proof.
  induction n as [|n IH]; intros t1 t2 db; simpl; [done|].
  destruct (step t1 db) as [t1' db']. apply IH.
Qed.

Lemma interleave_Second n : ∀ t1 t2 db,
  interleave (replicate n Second) t1 t2 db
  = let '(t2', db') := run n t2 db in (t1, t2', db').
Proof.
  induction n as [|n IH]; intros t1 t2 db; simpl; [done|].
  destruct (step t2 db) as [t2' db']. apply IH.
Qed.

(** Two calls served one after the other are two calls of [createOrder]. *)
Lemma interleave_serial n m id1 id2 req1 req2 db :
  steps_of req1 ≤ n → steps_of req2 ≤ m →
  interleave (replicate n First ++ replicate m Second)
    (start id1 req1) (start id2 req2) db
  = let '(r1, db1) := createOrder id1 req1 db in
    let '(r2, db2) := createOrder id2 req2 db1 in
    (Finished r1, Finished r2, db2).
Proof.
  intros Hn Hm.
  rewrite interleave_app, interleave_First, (run_createOrder id1 req1 db n Hn).
  destruct (createOrder id1 req1 db) as [r1 db1].
  rewrite interleave_Second, (run_createOrder id2 req2 db1 m Hm).
  by destruct (createOrder id2 req2 db1) as [r2 db2].
Qed.

(** In the race both calls succeed, and two orders are stored for one unit. *)
Lemma race_oversells :
  ∃ o1 o2 db',
    interleave Examples.race (start "o1" (Examples.one_print Examples.ada))
      (start "o2" (Examples.one_print Examples.bob)) (Examples.shop 1%float)
    = (Finished (Send 201 ("o1", o1)), Finished (Send 201 ("o2", o2)), db')
    ∧ Product.stock <$> Product_findById "p1" db' = Some 0%float
    ∧ Order_findById "o1" db' = Some o1 ∧ Order_findById "o2" db' = Some o2.
Proof. eexists _, _, _. split; [vm_compute; reflexivity|]. by split_and!. Qed.

(** C3 as stated fails: it is not so that under every interleaving of two
    calls for the last unit exactly one succeeds and the other is refused
    for lack of stock. *)
Lemma concurrent_orders_counterexample :
  ¬ ∀ schedule t1 t2 db',
      interleave schedule (start "o1" (Examples.one_print Examples.ada))
        (start "o2" (Examples.one_print Examples.bob)) (Examples.shop 1%float)
      = (t1, t2, db') →
      (∃ r1 r2, t1 = Finished r1 ∧ t2 = Finished r2) →
      (succeeded t1 && out_of_stock t2 || out_of_stock t1 && succeeded t2) = true
      ∧ Product.stock <$> Product_findById "p1" db' = Some 0%float.
Proof.
  intros H.
  destruct (H Examples.race _ _ _ eq_refl) as [Hone _]; [by eexists _, _|].
  vm_compute in Hone. discriminate Hone.
Qed.

(** When the two calls for the last unit do not overlap, the first
    succeeds and the second is refused. *)
Lemma serial_orders id1 id2 user1 user2 addr1 addr2 pid p db n m :
  Product_findById pid db = Some p →
  Product.stock p = 1%float →
  Order_validate (order_for (Call.mk id1 (ReqUser.id user1) addr1) pid p) = [] →
  3 ≤ n → 3 ≤ m →
  ∃ db',
    interleave (replicate n First ++ replicate m Second)
      (start id1 (request user1 [Item.mk pid 1%float] addr1))
      (start id2 (request user2 [Item.mk pid 1%float] addr2)) db
    = (Finished (Send 201 (id1, order_for (Call.mk id1 (ReqUser.id user1) addr1) pid p)),
       Finished (refusal p), db')
    ∧ Product.stock <$> Product_findById pid db' = Some 0%float.
Proof.
  intros Hp Hstock Hvalid Hn Hm.
  rewrite interleave_serial; [|exact Hn|exact Hm].
  unfold createOrder at 1, request. simpl.
  rewrite Hp, Hstock. simpl. unfold Order_create.
  unfold order_for, one_unit in Hvalid. simpl in Hvalid. rewrite Hvalid.
  unfold createOrder. simpl.
  unfold Product_findById at 1. simpl. rewrite lookup_alter_eq.
  unfold Product_findById in Hp. rewrite Hp. simpl.
  eexists. split; [reflexivity|].
  unfold Product_findById. simpl. by rewrite lookup_alter_eq, Hp.
Qed.

(** *** Every interleaving *)

Lemma with_stock_stock p : Product.with_stock (Product.stock p) p = p.
Proof. by destruct p. Qed.

Lemma consistent_sym ph1 ph2 : consistent ph1 ph2 = consistent ph2 ph1.
Proof. by destruct ph1, ph2. Qed.

Lemma stock_left_sym ph1 ph2 : stock_left ph1 ph2 = stock_left ph2 ph1.
Proof. by destruct ph1, ph2. Qed.

(** Both orders pass the validators or neither does: these read the
    lines and the amounts only. *)
Lemma order_for_valid c c' pid p :
  Order_validate (order_for c pid p) = Order_validate (order_for c' pid p).
Proof. reflexivity. Qed.

(** One step of a call, the other being in phase [other]. *)
Lemma step_task_at c pid p ph other db :
  Order_validate (order_for c pid p) = [] →
  consistent ph other = true →
  DB.products db !! pid = Some (Product.with_stock (stock_left ph other) p) →
  ∃ db',
    step (task_at c pid p ph) db = (task_at c pid p (next_phase ph other), db')
    ∧ consistent (next_phase ph other) other = true
    ∧ DB.products db' !! pid
      = Some (Product.with_stock (stock_left (next_phase ph other) other) p).
Proof.
  intros Hvalid Hcons Hdb.
  destruct ph.
  - (* Reading *)
    exists db. simpl step. unfold Product_findById. rewrite Hdb.
    destruct other; simpl in *; done.
  - (* Writing *)
    eexists. simpl step. split; [reflexivity|].
    unfold Product_save_stock. simpl DB.products. rewrite lookup_alter_eq, Hdb.
    destruct other; simpl in *; done.
  - (* Creating *)
    eexists. simpl step. unfold Order_create. rewrite Hvalid.
    split; [reflexivity|]. by destruct other.
  - exists db. by destruct other.
  - exists db. by destruct other.
Qed.

Lemma rank_next ph other : Nat.min 3 (S (rank ph)) ≤ rank (next_phase ph other).
Proof. destruct ph, other; simpl; lia. Qed.

(** What every interleaving preserves: each call is in some phase, a
    refused call has seen the other's write, and the stock is 1 until a
    call has written and 0 from then on; and each turn brings its call a
    phase further until it has finished. *)
Lemma interleave_phases c1 c2 pid p schedule : ∀ ph1 ph2 db,
  Order_validate (order_for c1 pid p) = [] →
  consistent ph1 ph2 = true →
  DB.products db !! pid = Some (Product.with_stock (stock_left ph1 ph2) p) →
  ∃ ph1' ph2' db',
    interleave schedule (task_at c1 pid p ph1) (task_at c2 pid p ph2) db
    = (task_at c1 pid p ph1', task_at c2 pid p ph2', db')
    ∧ consistent ph1' ph2' = true
    ∧ DB.products db' !! pid = Some (Product.with_stock (stock_left ph1' ph2') p)
    ∧ Nat.min 3 (rank ph1 + (turns schedule).1) ≤ rank ph1'
    ∧ Nat.min 3 (rank ph2 + (turns schedule).2) ≤ rank ph2'.
Proof.
  induction schedule as [|turn schedule IH]; intros ph1 ph2 db Hvalid Hcons Hdb.
  - exists ph1, ph2, db. split_and!; try done; cbn [turns fst snd]; lia.
  - destruct turn; simpl interleave; simpl turns;
      destruct (turns schedule) as [a b] eqn:Hturns.
    + destruct (step_task_at c1 pid p ph1 ph2 db Hvalid Hcons Hdb)
        as (db1 & -> & Hcons1 & Hdb1).
      destruct (IH _ _ _ Hvalid Hcons1 Hdb1)
        as (ph1' & ph2' & db' & Hrun & Hc & Hd & Hr1 & Hr2).
      exists ph1', ph2', db'. split_and!; try done.
      pose proof (rank_next ph1 ph2). cbn [fst snd] in *. lia.
    + rewrite consistent_sym in Hcons. rewrite stock_left_sym in Hdb.
      pose proof Hvalid as Hvalid2. rewrite (order_for_valid c1 c2) in Hvalid2.
      destruct (step_task_at c2 pid p ph2 ph1 db Hvalid2 Hcons Hdb)
        as (db1 & -> & Hcons1 & Hdb1).
      rewrite consistent_sym in Hcons1. rewrite stock_left_sym in Hdb1.
      destruct (IH _ _ _ Hvalid Hcons1 Hdb1)
        as (ph1' & ph2' & db' & Hrun & Hc & Hd & Hr1 & Hr2).
      exists ph1', ph2', db'. split_and!; try done.
      pose proof (rank_next ph2 ph1). cbn [fst snd] in *. lia.
Qed.

Lemma task_at_Finished c pid p ph r :
  task_at c pid p ph = Finished r →
  (ph = Succeeded ∧ r = Send 201 (Call.newId c, order_for c pid p))
  ∨ (ph = Refused ∧ r = refusal p).
Proof. destruct ph; simpl; intros H; inversion H; auto. Qed.

(** C3, as the code has it: two calls of [createOrder] each asking for one
    unit of a product whose stock is 1 (and whose order passes the validators
    of the Order schema).  Under every interleaving of their database
    operations that gives each call three turns, both calls finish; whenever
    both have finished, each has ended in success or in the 400 out-of-stock
    error, at least one has succeeded, and the stock is 0; when the calls do
    not overlap, the first succeeds and the second is refused. *)
Theorem concurrent_orders id1 id2 user1 user2 addr1 addr2 pid p db :
  Product_findById pid db = Some p →
  Product.stock p = 1%float →
  Order_validate (order_for (Call.mk id1 (ReqUser.id user1) addr1) pid p) = [] →
  let t1 := start id1 (request user1 [Item.mk pid 1%float] addr1) in
  let t2 := start id2 (request user2 [Item.mk pid 1%float] addr2) in
  (∀ schedule, 3 ≤ (turns schedule).1 → 3 ≤ (turns schedule).2 →
      ∃ r1 r2 db', interleave schedule t1 t2 db = (Finished r1, Finished r2, db'))
  ∧ (∀ schedule r1 r2 db',
      interleave schedule t1 t2 db = (Finished r1, Finished r2, db') →
      (succeeded (Finished r1) || out_of_stock (Finished r1)) = true
      ∧ (succeeded (Finished r2) || out_of_stock (Finished r2)) = true
      ∧ (succeeded (Finished r1) || succeeded (Finished r2)) = true
      ∧ Product.stock <$> Product_findById pid db' = Some 0%float)
  ∧ (∀ n m, 3 ≤ n → 3 ≤ m →
      ∃ r1 r2 db',
        interleave (replicate n First ++ replicate m Second) t1 t2 db
        = (Finished r1, Finished r2, db')
        ∧ succeeded (Finished r1) = true ∧ out_of_stock (Finished r2) = true
        ∧ Product.stock <$> Product_findById pid db' = Some 0%float).
Proof.
  intros Hp Hstock Hvalid t1 t2.
  assert (t1 = task_at (Call.mk id1 (ReqUser.id user1) addr1) pid p Reading) as Ht1
    by reflexivity.
  assert (t2 = task_at (Call.mk id2 (ReqUser.id user2) addr2) pid p Reading) as Ht2
    by reflexivity.
  assert (DB.products db !! pid
          = Some (Product.with_stock (stock_left Reading Reading) p)) as Hdb0.
  { replace (Product.with_stock (stock_left Reading Reading) p) with p; [exact Hp|].
    rewrite <- (with_stock_stock p) at 1. by rewrite Hstock. }
  split_and!.
  - intros schedule Hfirst Hsecond.
    destruct (interleave_phases (Call.mk id1 (ReqUser.id user1) addr1)
                (Call.mk id2 (ReqUser.id user2) addr2) pid p schedule
                Reading Reading db Hvalid eq_refl Hdb0)
      as (ph1 & ph2 & db1 & Hrun & _ & _ & Hr1 & Hr2).
    rewrite Ht1, Ht2, Hrun.
    destruct ph1; cbn [rank] in Hr1; try lia;
      destruct ph2; cbn [rank] in Hr2; try lia;
      eexists _, _, _; reflexivity.
  - intros schedule r1 r2 db' Hrun.
    destruct (interleave_phases (Call.mk id1 (ReqUser.id user1) addr1)
                (Call.mk id2 (ReqUser.id user2) addr2) pid p schedule
                Reading Reading db Hvalid eq_refl Hdb0)
      as (ph1 & ph2 & db1 & Hrun' & Hcons & Hdb & _).
    rewrite Ht1, Ht2, Hrun' in Hrun. inversion Hrun as [[H1 H2 Hdb']]. subst db1.
    unfold Product_findById. rewrite Hdb.
    apply task_at_Finished in H1 as [[-> ->]|[-> ->]];
      apply task_at_Finished in H2 as [[-> ->]|[-> ->]]; simpl in *; done.
  - intros n m Hn Hm.
    destruct (serial_orders id1 id2 user1 user2 addr1 addr2 pid p db n m
                Hp Hstock Hvalid Hn Hm) as (db' & Hrun & Hleft).
    eexists _, _, db'. split; [exact Hrun|]. by split_and!.
Qed.

Lemma concurrent_orders_witness :
  ∃ r1 r2 db',
    interleave [First; First; First; Second; Second; Second]
      (start "o1" (Examples.one_print Examples.ada))
      (start "o2" (Examples.one_print Examples.bob)) (Examples.shop 1%float)
    = (Finished r1, Finished r2, db')
    ∧ succeeded (Finished r1) = true ∧ out_of_stock (Finished r2) = true
    ∧ Product.stock <$> Product_findById "p1" db' = Some 0%float.
Proof.
  destruct (concurrent_orders "o1" "o2" Examples.ada Examples.bob Examples.home
              Examples.home "p1" (Examples.print 1%float) (Examples.shop 1%float)
              eq_refl eq_refl eq_refl) as (_ & _ & H).
  apply (H 3 3); lia.
Defined.

End OrderTasksFacts.

(** ** Properties of the booking workflow *)

Module BookingsFacts.
Import Bookings BookingSpec.

Lemma Role_eqb_admin r : Role_eqb r RoleAdmin = true ↔ r = RoleAdmin.
Proof. by destruct r. Qed.

Lemma owner_or_admin booking user :
  not_owner_nor_admin booking user = false
  ↔ Booking.client booking = ReqUser.id user ∨ ReqUser.role user = RoleAdmin.
Proof.
  unfold not_owner_nor_admin. rewrite andb_false_iff, !negb_false_iff.
  by rewrite String.eqb_eq, Role_eqb_admin.
Qed.

Lemma with_bookings_same db : DB.with_bookings (DB.bookings db) db = db.
Proof. by destruct db. Qed.

Lemma with_status_same b : Booking.with_status (Booking.status b) b = b.
Proof. by destruct b. Qed.

(** Writing a path of one document leaves the other documents alone. *)
Lemma alter_booking_other f id j db :
  j ≠ id →
  Booking_findById j (DB.with_bookings (alter f id (DB.bookings db)) db)
  = Booking_findById j db.
Proof. intros Hne. unfold Booking_findById. simpl. by rewrite lookup_alter_ne. Qed.

Lemma alter_booking_same f id b db :
  Booking_findById id db = Some b →
  Booking_findById id (DB.with_bookings (alter f id (DB.bookings db)) db)
  = Some (f b).
Proof.
  unfold Booking_findById. simpl. intros H. by rewrite lookup_alter_eq, H.
Qed.

(** A cast that fails fails with a cast error, which has no status of its
    own. *)
Lemma castFailure_status Date_valid u e :
  castFailure Date_valid u = Some e → Err_status e = 500.
Proof.
  unfold castFailure, date_failure.
  destruct (UpdateFields.date u) as [d|]; simpl;
    repeat case_match; intros; by simplify_eq.
Qed.

(** A partial update overwrites the keys it has and keeps the rest. *)
Lemma applyUpdate_partial u b :
  let b' := applyUpdate u b in
  Booking.sessionType b' = default (Booking.sessionType b) (UpdateFields.sessionType u)
  ∧ Booking.date b' = default (Booking.date b) (UpdateFields.date u)
  ∧ Booking.timeSlot b' = default (Booking.timeSlot b) (UpdateFields.timeSlot u)
  ∧ Booking.location b' = default (Booking.location b) (UpdateFields.location u)
  ∧ Booking.client b' = Booking.client b
  ∧ Booking.status b' = Booking.status b
  ∧ Booking.photographer b' = Booking.photographer b
  ∧ Booking.payment b' = Booking.payment b
  ∧ Booking.calendlyEventId b' = Booking.calendlyEventId b.
Proof. by repeat split. Qed.

(** C6, as the code has it: a requester who is neither the client nor an
    admin is refused with 401 whatever the status; on a confirmed or
    completed booking the client, not being an admin, is refused with 400
    and the database is unchanged; an admin's update whose dates parse and
    whose fields pass the validators succeeds with 200 and stores the
    booking with the given fields overwritten; an admin's update with a
    date that does not parse ends in the cast error (500) and changes
    nothing. *)
Theorem updateBooking_locked Date_valid req db b :
  Booking_findById (UpdateReq.id req) db = Some b →
  let user := UpdateReq.user req in
  let fields := updateFields_of (UpdateReq.body req) in
  let u := castUpdate fields in
  (Booking.client b ≠ ReqUser.id user → ReqUser.role user ≠ RoleAdmin →
     updateBooking Date_valid req db
     = (Next (ErrorResponse
                [Txt "User "; Txt (ReqUser.id user);
                 Txt " is not authorized to update this booking"] 401), db))
  ∧ (Booking.status b = BkConfirmed ∨ Booking.status b = BkCompleted →
     Booking.client b = ReqUser.id user → ReqUser.role user ≠ RoleAdmin →
     updateBooking Date_valid req db
     = (Next (ErrorResponse
                [Txt "Cannot update a booking that is already ";
                 Txt (BookingStatus_to_string (Booking.status b))] 400), db))
  ∧ (Booking.status b = BkConfirmed ∨ Booking.status b = BkCompleted →
     ReqUser.role user = RoleAdmin →
     castFailure Date_valid fields = None → validateUpdate u = [] →
     ∃ db',
       updateBooking Date_valid req db
       = (Send 200 (UpdateReq.id req, Some (applyUpdate u b)), db')
       ∧ Booking_findById (UpdateReq.id req) db' = Some (applyUpdate u b)
       ∧ (∀ j, j ≠ UpdateReq.id req →
               Booking_findById j db' = Booking_findById j db))
  ∧ (Booking.status b = BkConfirmed ∨ Booking.status b = BkCompleted →
     ReqUser.role user = RoleAdmin →
     ∀ e, castFailure Date_valid fields = Some e →
          updateBooking Date_valid req db = (Next e, db) ∧ Err_status e = 500).
Proof.
  intros Hb user fields u. unfold updateBooking. rewrite Hb. fold user.
  split_and!.
  - intros Hclient Hrole.
    destruct (not_owner_nor_admin b user) eqn:Ho; [done|].
    apply owner_or_admin in Ho as [?|?]; done.
  - intros Hst Hclient Hrole.
    assert (not_owner_nor_admin b user = false) as -> by (apply owner_or_admin; by left).
    assert (Role_eqb (ReqUser.role user) RoleAdmin = false) as ->
      by (by destruct (ReqUser.role user)).
    by destruct Hst as [-> | ->].
  - intros _ Hrole Hcast Hvalid.
    assert (not_owner_nor_admin b user = false) as -> by (apply owner_or_admin; by right).
    rewrite Hrole. simpl Role_eqb. rewrite andb_false_r.
    unfold Booking_findByIdAndUpdate. fold fields. rewrite Hcast. fold u.
    rewrite Hvalid, Hb. simpl.
    eexists. split; [reflexivity|]. split.
    + by apply alter_booking_same.
    + intros j Hj. by apply alter_booking_other.
  - intros _ Hrole e Hcast.
    assert (not_owner_nor_admin b user = false) as -> by (apply owner_or_admin; by right).
    rewrite Hrole. simpl Role_eqb. rewrite andb_false_r.
    unfold Booking_findByIdAndUpdate. fold fields. rewrite Hcast. split; [done|].
    by apply castFailure_status in Hcast.
Qed.

Lemma updateBooking_locked_witness :
  updateBooking Samples.parses (UpdateReq.mk "b1" Examples.bob Examples.to_the_park)
    (Examples.diary BkConfirmed)
  = (Next (ErrorResponse
             [Txt "User "; Txt "u2"; Txt " is not authorized to update this booking"]
             401), Examples.diary BkConfirmed)
  ∧ updateBooking Samples.parses (UpdateReq.mk "b1" Examples.ada Examples.to_the_park)
      (Examples.diary BkConfirmed)
    = (Next (ErrorResponse
               [Txt "Cannot update a booking that is already "; Txt "confirmed"] 400),
       Examples.diary BkConfirmed)
  ∧ (∃ b' db',
      updateBooking Samples.parses (UpdateReq.mk "b1" Examples.root Examples.to_the_park)
        (Examples.diary BkConfirmed) = (Send 200 ("b1", Some b'), db')
      ∧ Booking_findById "b1" db' = Some b'
      ∧ Booking.location b' = "City park"
      ∧ Booking.status b' = BkConfirmed)
  ∧ ∃ e,
      updateBooking Samples.parses (UpdateReq.mk "b1" Examples.root Samples.to_no_date)
        (Examples.diary BkConfirmed) = (Next e, Examples.diary BkConfirmed)
      ∧ Err_status e = 500.
Proof.
  split_and!.
  - destruct (updateBooking_locked Samples.parses
                (UpdateReq.mk "b1" Examples.bob Examples.to_the_park)
                (Examples.diary BkConfirmed) (Examples.session BkConfirmed) eq_refl)
      as (H & _).
    apply H; by vm_compute.
  - destruct (updateBooking_locked Samples.parses
                (UpdateReq.mk "b1" Examples.ada Examples.to_the_park)
                (Examples.diary BkConfirmed) (Examples.session BkConfirmed) eq_refl)
      as (_ & H & _).
    apply H; [by left|done|by vm_compute].
  - destruct (updateBooking_locked Samples.parses
                (UpdateReq.mk "b1" Examples.root Examples.to_the_park)
                (Examples.diary BkConfirmed) (Examples.session BkConfirmed) eq_refl)
      as (_ & _ & H & _).
    destruct H as (db' & H & Hfind & _); [by left|done|done|done|].
    eexists _, db'. split; [exact H|]. split; [exact Hfind|]. by split.
  - destruct (updateBooking_locked Samples.parses
                (UpdateReq.mk "b1" Examples.root Samples.to_no_date)
                (Examples.diary BkConfirmed) (Examples.session BkConfirmed) eq_refl)
      as (_ & _ & _ & H).
    eexists. apply H; [by left|done|reflexivity].
Defined.

(** C6 as stated fails: the client's update of a confirmed booking is not
    refused with 403 (Forbidden) but with 400. *)
Lemma updateBooking_locked_counterexample :
  ¬ ∃ e,
      updateBooking Samples.parses (UpdateReq.mk "b1" Examples.ada Examples.to_the_park)
        (Examples.diary BkConfirmed) = (Next e, Examples.diary BkConfirmed)
      ∧ Err_status e = 403.
Proof.
  intros (e & H & He). vm_compute in H. inversion H; subst e. discriminate He.
Qed.

(** C7: for the client or an admin, cancelling a completed booking fails
    with 400 and changes nothing; cancelling any other booking answers 200
    and stores it as cancelled, whether or not Calendly accepts the
    cancellation request that is sent when the booking has an event id
    (and an API key is configured): the reply and the database are those
    of a run in which Calendly accepts. *)
Theorem cancelBooking_cases axios_post key req db b :
  Booking_findById (CancelReq.id req) db = Some b →
  Booking.client b = ReqUser.id (CancelReq.user req)
  ∨ ReqUser.role (CancelReq.user req) = RoleAdmin →
  (Booking.status b = BkCompleted →
     cancelBooking axios_post key req db
     = (Next (ErrorResponse [Txt "Cannot cancel a completed booking"] 400),
        db, Effects.none))
  ∧ (Booking.status b ≠ BkCompleted →
     ∃ db' effects,
       cancelBooking axios_post key req db
       = (Send 200 (CancelReq.id req, Booking.with_status BkCancelled b), db', effects)
       ∧ Booking_findById (CancelReq.id req) db'
         = Some (Booking.with_status BkCancelled b)
       ∧ (∀ j, j ≠ CancelReq.id req →
               Booking_findById j db' = Booking_findById j db)
       ∧ Effects.calls effects
         = (if truthy (Booking.calendlyEventId b) && truthy key
            then [cancellation b key req] else [])
       ∧ (cancelBooking axios_post key req db).1
         = (cancelBooking (λ _, true) key req db).1).
Proof.
  intros Hb Hown. apply owner_or_admin in Hown.
  unfold cancelBooking. rewrite Hb, Hown. split.
  - by intros ->.
  - intros Hst.
    assert (BookingStatus_eqb (Booking.status b) BkCompleted = false) as ->
      by (by destruct (Booking.status b)).
    eexists _, _. split; [reflexivity|]. split_and!.
    + by apply alter_booking_same.
    + intros j Hj. by apply alter_booking_other.
    + simpl. by destruct (truthy (Booking.calendlyEventId b) && truthy key).
    + done.
Qed.

Lemma cancelBooking_cases_witness :
  cancelBooking Examples.calendly_down (Some "key") (CancelReq.mk "b1" Examples.ada None)
    (Examples.diary BkCompleted)
  = (Next (ErrorResponse [Txt "Cannot cancel a completed booking"] 400),
     Examples.diary BkCompleted, Effects.none)
  ∧ ∃ db' effects,
      cancelBooking Examples.calendly_down (Some "key")
        (CancelReq.mk "b1" Examples.ada None) (Examples.diary BkConfirmed)
      = (Send 200 ("b1", Examples.session BkCancelled), db', effects)
      ∧ Booking_findById "b1" db' = Some (Examples.session BkCancelled)
      ∧ Effects.calls effects = [CalendlyCall.mk "evt-42" "Cancelled by user" "key"].
Proof.
  split.
  - apply (cancelBooking_cases Examples.calendly_down (Some "key")
             (CancelReq.mk "b1" Examples.ada None) (Examples.diary BkCompleted)
             (Examples.session BkCompleted) eq_refl); [by left|done].
  - destruct (cancelBooking_cases Examples.calendly_down (Some "key")
                (CancelReq.mk "b1" Examples.ada None) (Examples.diary BkConfirmed)
                (Examples.session BkConfirmed) eq_refl) as [_ H]; [by left|].
    destruct H as (db' & eff & H & Hfind & _ & Hcalls & _); [done|].
    exists db', eff. split; [exact H|]. split; [exact Hfind|exact Hcalls].
Defined.

(** C8, as the code has it: for the client or an admin, cancelling a
    booking that is already cancelled answers 200 and leaves the database
    as it was, and sends Calendly a cancellation request again whenever
    the booking has an event id and an API key is configured. *)
Theorem cancelBooking_again axios_post key req db b :
  Booking_findById (CancelReq.id req) db = Some b →
  Booking.client b = ReqUser.id (CancelReq.user req)
  ∨ ReqUser.role (CancelReq.user req) = RoleAdmin →
  Booking.status b = BkCancelled →
  ∃ effects,
    cancelBooking axios_post key req db = (Send 200 (CancelReq.id req, b), db, effects)
    ∧ Effects.calls effects
      = (if truthy (Booking.calendlyEventId b) && truthy key
         then [cancellation b key req] else []).
Proof.
  intros Hb Hown Hst. apply owner_or_admin in Hown.
  assert (Booking.with_status BkCancelled b = b) as Hsame
    by (rewrite <- Hst; apply with_status_same).
  unfold cancelBooking. rewrite Hb, Hown, Hst. simpl BookingStatus_eqb.
  cbv iota. rewrite Hsame.
  assert (alter (Booking.with_status BkCancelled) (CancelReq.id req) (DB.bookings db)
          = DB.bookings db) as ->.
  { apply alter_id. intros x Hx. unfold Booking_findById in Hb.
    by replace x with b by congruence. }
  rewrite with_bookings_same.
  eexists. split; [reflexivity|].
  by destruct (truthy (Booking.calendlyEventId b) && truthy key).
Qed.

Lemma cancelBooking_again_witness :
  ∃ effects,
    cancelBooking Examples.calendly_down (Some "key")
      (CancelReq.mk "b1" Examples.ada None) (Examples.diary BkCancelled)
    = (Send 200 ("b1", Examples.session BkCancelled), Examples.diary BkCancelled,
       effects)
    ∧ Effects.calls effects = [CalendlyCall.mk "evt-42" "Cancelled by user" "key"].
Proof.
  apply (cancelBooking_again Examples.calendly_down (Some "key")
           (CancelReq.mk "b1" Examples.ada None) (Examples.diary BkCancelled)
           (Examples.session BkCancelled) eq_refl); [by left|done].
Defined.

(** C8 as stated fails: cancelling a booking, then cancelling it again,
    sends Calendly the cancellation request both times. *)
Lemma cancelBooking_again_counterexample :
  ¬ ∀ r1 db1 e1 r2 db2 e2,
      cancelBooking Examples.calendly_down (Some "key")
        (CancelReq.mk "b1" Examples.ada None) (Examples.diary BkConfirmed)
      = (r1, db1, e1) →
      cancelBooking Examples.calendly_down (Some "key")
        (CancelReq.mk "b1" Examples.ada None) db1 = (r2, db2, e2) →
      Effects.calls e2 = [].
Proof.
  intros H. specialize (H _ _ _ _ _ _ eq_refl eq_refl).
  vm_compute in H. discriminate H.
Qed.

(** [updateBookingStatus] stores whichever status of the enum is asked
    for, whatever the current one. *)
Lemma updateBookingStatus_any id status db b :
  Booking_findById id db = Some b →
  ∃ db',
    updateBookingStatus (StatusReq.mk id (Some (BookingStatus_to_string status))) db
    = (Send 200 (id, Booking.with_status status b), db')
    ∧ Booking_findById id db' = Some (Booking.with_status status b)
    ∧ (∀ j, j ≠ id → Booking_findById j db' = Booking_findById j db).
Proof.
  intros Hb. unfold updateBookingStatus. simpl StatusReq.status. simpl StatusReq.id.
  rewrite Hb.
  assert (truthy (Some (BookingStatus_to_string status)) = true) as ->
    by (by destruct status).
  assert (BookingStatus_of_string (default "" (Some (BookingStatus_to_string status)))
          = Some status) as -> by (by destruct status).
  simpl. eexists. split; [reflexivity|]. split.
  - by apply alter_booking_same.
  - intros j Hj. by apply alter_booking_other.
Qed.

End BookingsFacts.

(** ** Properties of the payment webhook and of the status updates *)

Module WebhookFacts.
Import Orders.

(** What a successful payment does to an order. *)
Lemma paid_order_fields o :
  let o' := Order.with_status OrdProcessing
              (Order.with_paymentInfo
                 (PaymentInfo.with_status PayCompleted (Order.paymentInfo o)) o) in
  Order.status o' = OrdProcessing
  ∧ PaymentInfo.status (Order.paymentInfo o') = PayCompleted
  ∧ PaymentInfo.transactionId (Order.paymentInfo o')
    = PaymentInfo.transactionId (Order.paymentInfo o)
  ∧ Order.products o' = Order.products o ∧ Order.total o' = Order.total o
  ∧ Order.user o' = Order.user o.
Proof. by repeat split. Qed.

(** C5: when the signature check fails the webhook answers 400 and
    changes nothing; on a [payment_intent.succeeded] event whose
    [metadata.orderId] names a stored order it answers 200 and stores that
    order with payment status completed and status processing, touching no
    other order; on an event of that type for an unknown order, and on an
    event of any other type, it answers 200 and changes nothing. *)
Theorem handleStripeWebhook_cases constructEvent secret req db :
  (∀ message,
      constructEvent (WebhookReq.body req) (WebhookReq.signature req) secret
      = inl message →
      handleStripeWebhook constructEvent secret req db
      = (Send 400 (WebhookError ("Webhook Error: " +:+ message)), db))
  ∧ (∀ event orderId order,
      constructEvent (WebhookReq.body req) (WebhookReq.signature req) secret
      = inr event →
      StripeEvent.type event = "payment_intent.succeeded" →
      StripeEvent.orderId event = Some orderId →
      Order_findById orderId db = Some order →
      ∃ order' db',
        handleStripeWebhook constructEvent secret req db = (Send 200 Received, db')
        ∧ Order_findById orderId db' = Some order'
        ∧ PaymentInfo.status (Order.paymentInfo order') = PayCompleted
        ∧ Order.status order' = OrdProcessing
        ∧ (∀ j, j ≠ orderId → Order_findById j db' = Order_findById j db)
        ∧ DB.products db' = DB.products db ∧ DB.bookings db' = DB.bookings db
        ∧ DB.users db' = DB.users db)
  ∧ (∀ event,
      constructEvent (WebhookReq.body req) (WebhookReq.signature req) secret
      = inr event →
      StripeEvent.type event ≠ "payment_intent.succeeded"
      ∨ (∀ orderId, StripeEvent.orderId event = Some orderId →
                    Order_findById orderId db = None) →
      handleStripeWebhook constructEvent secret req db = (Send 200 Received, db)).
Proof.
  unfold handleStripeWebhook. split_and!.
  - by intros message ->.
  - intros event orderId order -> -> -> Ho. simpl. rewrite Ho.
    eexists _, _. split; [reflexivity|].
    unfold Order_findById in *. simpl. rewrite lookup_alter_eq, Ho. simpl.
    split_and!; try done.
    intros j Hj. by rewrite lookup_alter_ne.
  - intros event -> [Hty | Hno].
    + apply String.eqb_neq in Hty. by rewrite Hty.
    + destruct (String.eqb _ _); [|done].
      destruct (StripeEvent.orderId event) as [orderId|]; [|done].
      by rewrite (Hno orderId eq_refl).
Qed.

Lemma handleStripeWebhook_cases_witness :
  handleStripeWebhook Examples.check_signature (Some "whsec")
    (WebhookReq.mk "payment_intent.succeeded" (Some "forged")) Examples.ledger
  = (Send 400 (WebhookError
                 "Webhook Error: No signatures found matching the expected signature"),
     Examples.ledger)
  ∧ (∃ order' db',
       handleStripeWebhook Examples.check_signature (Some "whsec")
         (WebhookReq.mk "payment_intent.succeeded" (Some "whsec")) Examples.ledger
       = (Send 200 Received, db')
       ∧ Order_findById "o1" db' = Some order'
       ∧ PaymentInfo.status (Order.paymentInfo order') = PayCompleted
       ∧ Order.status order' = OrdProcessing)
  ∧ handleStripeWebhook Examples.check_signature (Some "whsec")
      (WebhookReq.mk "charge.refunded" (Some "whsec")) Examples.ledger
    = (Send 200 Received, Examples.ledger).
Proof.
  split_and!.
  - by apply (handleStripeWebhook_cases Examples.check_signature (Some "whsec")
                (WebhookReq.mk "payment_intent.succeeded" (Some "forged"))
                Examples.ledger).
  - destruct (handleStripeWebhook_cases Examples.check_signature (Some "whsec")
                (WebhookReq.mk "payment_intent.succeeded" (Some "whsec"))
                Examples.ledger) as (_ & H & _).
    destruct (H _ "o1" Examples.order_of_ada eq_refl eq_refl eq_refl eq_refl)
      as (o' & db' & H1 & H2 & H3 & H4 & _).
    by exists o', db'.
  - eapply (handleStripeWebhook_cases Examples.check_signature (Some "whsec")
              (WebhookReq.mk "charge.refunded" (Some "whsec")) Examples.ledger);
      [reflexivity|by left].
Defined.

End WebhookFacts.

Module StatusFacts.
Import Orders.

(** [updateOrderStatus] stores whichever status of the enum is asked for,
    whatever the current one. *)
Lemma updateOrderStatus_any id status db o :
  Order_findById id db = Some o →
  ∃ db',
    updateOrderStatus (StatusReq.mk id (Some (OrderStatus_to_string status))) db
    = (Send 200 (id, Order.with_status status o), db')
    ∧ Order_findById id db' = Some (Order.with_status status o)
    ∧ (∀ j, j ≠ id → Order_findById j db' = Order_findById j db).
Proof.
  intros Ho. unfold updateOrderStatus. simpl StatusReq.status. simpl StatusReq.id.
  rewrite Ho.
  assert (truthy (Some (OrderStatus_to_string status)) = true) as ->
    by (by destruct status).
  assert (OrderStatus_of_string (default "" (Some (OrderStatus_to_string status)))
          = Some status) as -> by (by destruct status).
  simpl. eexists. split; [reflexivity|].
  unfold Order_findById in *. simpl. split.
  - by rewrite lookup_alter_eq, Ho.
  - intros j Hj. by rewrite lookup_alter_ne.
Qed.

(** C10: neither status update checks a transition.  For every stored
    order and every status of the order enum, [updateOrderStatus] answers
    200 and stores the order with exactly that status (the rest of the
    order and the other orders untouched), whatever its current status;
    and so does [updateBookingStatus] for every stored booking and every
    status of the booking enum. *)
Theorem status_updates_unchecked db :
  (∀ id o status,
      Order_findById id db = Some o →
      ∃ db',
        updateOrderStatus (StatusReq.mk id (Some (OrderStatus_to_string status))) db
        = (Send 200 (id, Order.with_status status o), db')
        ∧ Order_findById id db' = Some (Order.with_status status o)
        ∧ Order.status (Order.with_status status o) = status
        ∧ (∀ j, j ≠ id → Order_findById j db' = Order_findById j db))
  ∧ (∀ id b status,
      Bookings.Booking_findById id db = Some b →
      ∃ db',
        Bookings.updateBookingStatus
          (Bookings.StatusReq.mk id (Some (Bookings.BookingStatus_to_string status))) db
        = (Send 200 (id, Booking.with_status status b), db')
        ∧ Bookings.Booking_findById id db' = Some (Booking.with_status status b)
        ∧ Booking.status (Booking.with_status status b) = status
        ∧ (∀ j, j ≠ id →
                Bookings.Booking_findById j db' = Bookings.Booking_findById j db)).
Proof.
  split.
  - intros id o status Ho.
    destruct (updateOrderStatus_any id status db o Ho) as (db' & H1 & H2 & H3).
    by exists db'.
  - intros id b status Hb.
    destruct (BookingsFacts.updateBookingStatus_any id status db b Hb)
      as (db' & H1 & H2 & H3).
    by exists db'.
Qed.

Lemma status_updates_unchecked_witness :
  (∃ db',
     updateOrderStatus (StatusReq.mk "o1" (Some "pending"))
       (DB.mk [] ∅ {["o1" := Order.with_status OrdDelivered Examples.order_of_ada]} ∅)
     = (Send 200 ("o1", Examples.order_of_ada), db')
     ∧ Order_findById "o1" db' = Some Examples.order_of_ada)
  ∧ (∃ db',
       Bookings.updateBookingStatus (Bookings.StatusReq.mk "b1" (Some "cancelled"))
         (Examples.diary BkCompleted)
       = (Send 200 ("b1", Examples.session BkCancelled), db')
       ∧ Bookings.Booking_findById "b1" db' = Some (Examples.session BkCancelled)).
Proof.
  split.
  - destruct (status_updates_unchecked
                (DB.mk [] ∅ {["o1" := Order.with_status OrdDelivered
                                        Examples.order_of_ada]} ∅)) as [H _].
    destruct (H "o1" _ OrdPending eq_refl) as (db' & H1 & H2 & _).
    by exists db'.
  - destruct (status_updates_unchecked (Examples.diary BkCompleted)) as [_ H].
    destruct (H "b1" _ BkCancelled eq_refl) as (db' & H1 & H2 & _).
    by exists db'.
Defined.

End StatusFacts.

(** ** Properties of login *)

Module AuthFacts.
Import Auth.

(** C9: a login that fails because no user has the email and a login that
    fails because the password does not match the stored hash give the
    caller the same reply: the error "Invalid credentials" with status
    401. *)
Theorem login_failures_alike bcrypt_compare getSignedJwtToken db
    email1 password1 email2 password2 user :
  email1 ≠ "" → password1 ≠ "" → email2 ≠ "" → password2 ≠ "" →
  User_findOne_email email1 db = None →
  User_findOne_email email2 db = Some user →
  bcrypt_compare password2 (User.password user) = false →
  login bcrypt_compare getSignedJwtToken
    (LoginBody.mk (Some email1) (Some password1)) db
  = Next (ErrorResponse [Txt "Invalid credentials"] 401)
  ∧ login bcrypt_compare getSignedJwtToken
      (LoginBody.mk (Some email2) (Some password2)) db
    = Next (ErrorResponse [Txt "Invalid credentials"] 401)
  ∧ Reply_status (login bcrypt_compare getSignedJwtToken
                    (LoginBody.mk (Some email1) (Some password1)) db) = 401.
Proof.
  intros He1 Hp1 He2 Hp2 Hnone Hsome Hcmp.
  apply String.eqb_neq in He1, Hp1, He2, Hp2.
  unfold login, matchPassword. simpl. rewrite He1, Hp1, He2, Hp2. simpl.
  by rewrite Hnone, Hsome, Hcmp.
Qed.

Lemma login_failures_alike_witness :
  login Examples.reversed Examples.token_for
    (LoginBody.mk (Some "eve@example.com") (Some "secret")) Examples.members
  = Next (ErrorResponse [Txt "Invalid credentials"] 401)
  ∧ login Examples.reversed Examples.token_for
      (LoginBody.mk (Some "ada@example.com") (Some "guess")) Examples.members
    = Next (ErrorResponse [Txt "Invalid credentials"] 401)
  ∧ Reply_status (login Examples.reversed Examples.token_for
                    (LoginBody.mk (Some "eve@example.com") (Some "secret"))
                    Examples.members) = 401.
Proof.
  apply (login_failures_alike Examples.reversed Examples.token_for Examples.members
           "eve@example.com" "secret" "ada@example.com" "guess"
           (User.mk "u1" "Ada" "ada@example.com" "terces" RoleUser));
    by vm_compute.
Defined.

End AuthFacts.
(** ** Properties of order views, payment intents and order creation at
    its edges *)

Module PaymentsFacts.
Import Orders OrderSpec Payments SystemSpec OrdersFacts.

Lemma User_findById_id id db u : User_findById id db = Some u → User._id u = id.
Proof.
  unfold User_findById. intros H. apply find_some in H as [_ H].
  by apply String.eqb_eq in H.
Qed.

Lemma populate_id id db p : populate id db = Some p → Populated._id p = id.
Proof.
  unfold populate. destruct (User_findById id db) as [u|] eqn:Hu; [|done].
  intros H. inversion H; subst. simpl. by apply User_findById_id in Hu.
Qed.

(** X1: [getOrder] answers 200 only to the user the order belongs to or to
    an admin, and then with the stored order of the id asked for; to the
    order's user, when that user still exists, it always answers 200. *)
Theorem getOrder_owner_or_admin req db :
  (∀ s id o u,
      getOrder req db = Replied (Send s (id, o, u)) →
      s = 200 ∧ id = ViewReq.id req ∧ Order_findById id db = Some o
      ∧ Populated._id u = Order.user o
      ∧ (Order.user o = ReqUser.id (ViewReq.user req)
         ∨ ReqUser.role (ViewReq.user req) = RoleAdmin))
  ∧ (∀ o u,
      Order_findById (ViewReq.id req) db = Some o →
      populate (Order.user o) db = Some u →
      Order.user o = ReqUser.id (ViewReq.user req) →
      getOrder req db = Replied (Send 200 (ViewReq.id req, o, u))).
Proof.
  unfold getOrder. split.
  - intros s id o u H.
    destruct (Order_findById (ViewReq.id req) db) as [o'|] eqn:Ho; [|done].
    destruct (populate (Order.user o') db) as [u'|] eqn:Hu; [|done].
    apply populate_id in Hu.
    destruct (negb (String.eqb _ _) && negb (Role_eqb _ _)) eqn:Hc; [done|].
    inversion H; subst. split_and!; try done.
    apply andb_false_iff in Hc as [Hc|Hc]; apply negb_false_iff in Hc.
    + left. apply String.eqb_eq in Hc. congruence.
    + right. by destruct (ReqUser.role (ViewReq.user req)).
  - intros o u -> Hu Hown. rewrite Hu. apply populate_id in Hu.
    rewrite Hu, Hown, String.eqb_refl. done.
Qed.

Lemma getOrder_owner_or_admin_witness :
  getOrder (ViewReq.mk "o1" Examples.ada) Samples.bureau
  = Replied (Send 200 ("o1", Examples.order_of_ada,
                       Populated.mk "u1" "Ada" "ada@example.com"))
  ∧ Outcome_status (getOrder (ViewReq.mk "o1" Examples.bob) Samples.bureau) = 401.
Proof.
  split.
  - by apply (getOrder_owner_or_admin (ViewReq.mk "o1" Examples.ada) Samples.bureau).
  - reflexivity.
Defined.

(** What a successful [createPaymentIntent] leaves behind. *)
Lemma createPaymentIntent_steps Math_round paymentIntents_create user orderId db o intent :
  orderId ≠ "" →
  Order_findById orderId db = Some o →
  Order.user o = ReqUser.id user →
  paymentIntents_create
    (IntentParams.mk (Math_round (PrimFloat.mul (Order.total o) 100%float)) "usd"
       orderId (ReqUser.id user)) = inr intent →
  ∃ o1 db1,
    createPaymentIntent Math_round paymentIntents_create
      (IntentReq.mk user (Some orderId)) db
    = (Send 200 (IntentReply.mk (Intent.client_secret intent) orderId), db1,
       [IntentParams.mk (Math_round (PrimFloat.mul (Order.total o) 100%float)) "usd"
          orderId (ReqUser.id user)])
    ∧ Order_findById orderId db1 = Some o1
    ∧ Order.paymentInfo o1 = PaymentInfo.mk Stripe (Some (Intent.id intent)) PayPending
    ∧ core o1 = core o.
Proof.
  intros Hid Ho Hown Hi. unfold createPaymentIntent. simpl IntentReq.orderId.
  assert (truthy (Some orderId) = true) as ->
    by (simpl; by apply negb_true_iff, String.eqb_neq).
  simpl. rewrite Ho, Hown, String.eqb_refl. simpl. rewrite Hi.
  eexists _, _. split; [reflexivity|].
  unfold Order_findById in *. simpl. by rewrite lookup_alter_eq, Ho.
Qed.

(** X2: [createPaymentIntent] on a stored order.  A requester who is not the
    order's user, admin or not, is refused with 401, nothing is sent to
    Stripe and nothing changes.  For the order's user one request goes to
    Stripe, for the rounded total in cents in usd with the order and the
    user as metadata; if Stripe refuses, its error is the reply and nothing
    changes; if it returns an intent, the reply is 200 with the client
    secret, and the order's payment information becomes the intent's id with
    status pending, whatever it was, while its status, lines and amounts and
    the other orders stay as they were. *)
Theorem createPaymentIntent_cases Math_round paymentIntents_create user orderId db o :
  orderId ≠ "" →
  Order_findById orderId db = Some o →
  let req := IntentReq.mk user (Some orderId) in
  let params :=
    IntentParams.mk (Math_round (PrimFloat.mul (Order.total o) 100%float)) "usd"
      orderId (ReqUser.id user) in
  (Order.user o ≠ ReqUser.id user →
     ∃ e, createPaymentIntent Math_round paymentIntents_create req db
          = (Next e, db, [])
          ∧ Err_status e = 401)
  ∧ (Order.user o = ReqUser.id user → ∀ e,
       paymentIntents_create params = inl e →
       createPaymentIntent Math_round paymentIntents_create req db
       = (Next e, db, [params]))
  ∧ (Order.user o = ReqUser.id user → ∀ intent,
       paymentIntents_create params = inr intent →
       ∃ o' db',
         createPaymentIntent Math_round paymentIntents_create req db
         = (Send 200 (IntentReply.mk (Intent.client_secret intent) orderId), db',
            [params])
         ∧ Order_findById orderId db' = Some o'
         ∧ Order.paymentInfo o' = PaymentInfo.mk Stripe (Some (Intent.id intent)) PayPending
         ∧ Order.status o' = Order.status o ∧ core o' = core o
         ∧ (∀ j, j ≠ orderId → Order_findById j db' = Order_findById j db)
         ∧ DB.products db' = DB.products db).
Proof.
  intros Hid Ho req params. unfold createPaymentIntent. simpl IntentReq.orderId.
  assert (truthy (Some orderId) = true) as ->
    by (simpl; by apply negb_true_iff, String.eqb_neq).
  simpl. rewrite Ho. split_and!.
  - intros Hne. apply String.eqb_neq in Hne. rewrite Hne. simpl. by eexists.
  - intros Hown e He. rewrite Hown, String.eqb_refl. simpl. fold params. by rewrite He.
  - intros Hown intent Hi. rewrite Hown, String.eqb_refl. simpl. fold params.
    rewrite Hi. eexists _, _. split; [reflexivity|].
    unfold Order_findById in *. simpl. rewrite lookup_alter_eq, Ho. simpl.
    split_and!; try done. intros j Hj. by rewrite lookup_alter_ne.
Qed.

Lemma createPaymentIntent_cases_witness :
  (∃ e, createPaymentIntent Samples.to_cents Samples.stripe_up
          (IntentReq.mk Examples.root (Some "o1")) Samples.bureau
        = (Next e, Samples.bureau, []) ∧ Err_status e = 401)
  ∧ ∃ o' db',
      createPaymentIntent Samples.to_cents Samples.stripe_up
        (IntentReq.mk Examples.ada (Some "o1")) Samples.bureau
      = (Send 200 (IntentReply.mk "pi_o1_secret" "o1"), db',
         [IntentParams.mk 6500%float "usd" "o1" "u1"])
      ∧ Order_findById "o1" db' = Some o'
      ∧ Order.paymentInfo o' = PaymentInfo.mk Stripe (Some "pi_o1") PayPending.
Proof.
  destruct (createPaymentIntent_cases Samples.to_cents Samples.stripe_up Examples.root
              "o1" Samples.bureau Examples.order_of_ada) as (H & _ & _);
    [done|reflexivity|].
  split; [by apply H|].
  destruct (createPaymentIntent_cases Samples.to_cents Samples.stripe_up Examples.ada
              "o1" Samples.bureau Examples.order_of_ada) as (_ & _ & H');
    [done|reflexivity|].
  destruct (H' eq_refl _ eq_refl) as (o' & db' & H1 & H2 & H3 & _).
  by exists o', db'.
Defined.

(** X3: paying an order.  When the order's user asks for a payment intent
    and Stripe returns one, and the webhook then receives a verified
    [payment_intent.succeeded] event carrying that order's id, the order
    ends with status processing and with payment information made of the
    intent's id and status completed; its lines and amounts are unchanged. *)
Theorem payment_flow Math_round paymentIntents_create constructEvent secret
    user orderId db o intent hook event :
  orderId ≠ "" →
  Order_findById orderId db = Some o →
  Order.user o = ReqUser.id user →
  paymentIntents_create
    (IntentParams.mk (Math_round (PrimFloat.mul (Order.total o) 100%float)) "usd"
       orderId (ReqUser.id user)) = inr intent →
  constructEvent (WebhookReq.body hook) (WebhookReq.signature hook) secret = inr event →
  StripeEvent.type event = "payment_intent.succeeded" →
  StripeEvent.orderId event = Some orderId →
  let db1 := (createPaymentIntent Math_round paymentIntents_create
                (IntentReq.mk user (Some orderId)) db).1.2 in
  ∃ o' db2,
    handleStripeWebhook constructEvent secret hook db1 = (Send 200 Received, db2)
    ∧ Order_findById orderId db2 = Some o'
    ∧ Order.status o' = OrdProcessing
    ∧ Order.paymentInfo o' = PaymentInfo.mk Stripe (Some (Intent.id intent)) PayCompleted
    ∧ core o' = core o.
Proof.
  intros Hid Ho Hown Hi He Hty Hev db1.
  destruct (createPaymentIntent_steps Math_round paymentIntents_create user orderId db o
              intent Hid Ho Hown Hi) as (o1 & db1' & Hrun & Ho1 & Hp1 & Hc1).
  subst db1. rewrite Hrun. simpl.
  unfold handleStripeWebhook. rewrite He, Hty, Hev. simpl. rewrite Ho1.
  eexists _, _. split; [reflexivity|].
  unfold Order_findById in *. simpl. rewrite lookup_alter_eq, Ho1. simpl.
  split_and!; try done.
  by rewrite Hp1.
Qed.

Lemma payment_flow_witness :
  ∃ o' db2,
    handleStripeWebhook Examples.check_signature (Some "whsec")
      (WebhookReq.mk "payment_intent.succeeded" (Some "whsec"))
      (createPaymentIntent Samples.to_cents Samples.stripe_up
         (IntentReq.mk Examples.ada (Some "o1")) Samples.bureau).1.2
    = (Send 200 Received, db2)
    ∧ Order_findById "o1" db2 = Some o'
    ∧ Order.status o' = OrdProcessing
    ∧ Order.paymentInfo o' = PaymentInfo.mk Stripe (Some "pi_o1") PayCompleted
    ∧ core o' = core Examples.order_of_ada.
Proof.
  apply (payment_flow Samples.to_cents Samples.stripe_up Examples.check_signature
           (Some "whsec") Examples.ada "o1" Samples.bureau Examples.order_of_ada
           (Intent.mk "pi_o1" "pi_o1_secret")
           (WebhookReq.mk "payment_intent.succeeded" (Some "whsec"))
           (StripeEvent.mk "payment_intent.succeeded" (Some "o1")));
    done.
Defined.

(** *** What order creation leaves alone, and what it does not restore *)

Lemma processItems_other_stock items : ∀ acc sub db k,
  k ∉ Item.product <$> items →
  DB.products (processItems items acc sub db).2 !! k = DB.products db !! k.
Proof.
  induction items as [|it rest IH]; intros acc sub db k Hk; simpl; [done|].
  rewrite fmap_cons, not_elem_of_cons in Hk. destruct Hk as [Hne Hk].
  destruct (Product_findById (Item.product it) db) as [p|]; [|done].
  destruct (PrimFloat.ltb _ _); [done|].
  rewrite IH by done. unfold Product_save_stock. simpl. by rewrite lookup_alter_ne.
Qed.

Lemma buildOrder_well_priced user lines addr :
  well_priced (buildOrder user lines addr (sumLines lines)).
Proof. by repeat split. Qed.

(** The database [createOrder] leaves: the one its loop left, with or
    without a new order, well priced, under the new id. *)
Lemma createOrder_outcome newId req db :
  ∃ items,
    (items = [] ∨ Body.products (Req.body req) = Some items)
    ∧ let dbp := (processItems items [] 0%float db).2 in
      ((createOrder newId req db).2 = dbp
       ∨ ∃ o, (createOrder newId req db).2
              = DB.with_orders (<[newId := o]> (DB.orders dbp)) dbp
              ∧ well_priced o).
Proof.
  unfold createOrder.
  destruct (Body.products (Req.body req)) as [[|i0 items]|] eqn:Hi;
    [exists []; split; [by left|by left] | | exists []; split; [by left|by left]].
  destruct (Body.shippingAddress (Req.body req)) as [addr|];
    [|exists []; split; [by left|by left]].
  exists (i0 :: items). split; [by right|].
  destruct (processItems (i0 :: items) [] 0%float db) as [[e|[lines sub]] db1] eqn:Hp;
    [by left|].
  unfold Order_create. destruct (Order_validate _); [|by left].
  right. eexists. split; [reflexivity|].
  apply processItems_lines in Hp as (new & -> & -> & _). apply buildOrder_well_priced.
Qed.

(** [createOrder] reads and writes products and orders only. *)
Lemma createOrder_elsewhere newId req db :
  DB.users (createOrder newId req db).2 = DB.users db
  ∧ DB.bookings (createOrder newId req db).2 = DB.bookings db.
Proof.
  destruct (createOrder_outcome newId req db) as (items & _ & Hout).
  pose proof (processItems_frame items [] 0%float db) as (Hu & _ & Hb & _).
  by destruct Hout as [-> | (o & -> & _)].
Qed.

(** X4: whatever its outcome, [createOrder] leaves the users and the
    bookings as they are, changes no product's name or price, touches the
    stock of no product the request does not name, and touches no order but
    the one under the new id. *)
Theorem createOrder_untouched newId req db :
  let db' := (createOrder newId req db).2 in
  DB.users db' = DB.users db
  ∧ DB.bookings db' = DB.bookings db
  ∧ same_listing db db'
  ∧ (∀ k, k ∉ Item.product <$> default [] (Body.products (Req.body req)) →
          DB.products db' !! k = DB.products db !! k)
  ∧ (∀ j, j ≠ newId → DB.orders db' !! j = DB.orders db !! j).
Proof.
  intros db'. subst db'.
  destruct (createOrder_outcome newId req db) as (items & Hitems & Hout).
  pose proof (processItems_frame items [] 0%float db) as (Hu & Ho & Hb & Hl).
  assert (∀ k, k ∉ Item.product <$> default [] (Body.products (Req.body req)) →
               DB.products (processItems items [] 0%float db).2 !! k
               = DB.products db !! k) as Hk.
  { intros k Hk. apply processItems_other_stock.
    destruct Hitems as [-> | Hi]; [apply not_elem_of_nil|by rewrite Hi in Hk]. }
  destruct Hout as [-> | (o & -> & _)]; simpl.
  - split_and!; try done. intros j _. by rewrite Ho.
  - split_and!; try done. intros j Hj. by rewrite lookup_insert_ne, Ho.
Qed.

Lemma createOrder_untouched_witness :
  let db' := (createOrder "o1" Examples.two_prints (Examples.shop 5%float)).2 in
  DB.products db' !! "p2" = Some Examples.frame ∧ DB.users db' = [].
Proof.
  pose proof (createOrder_untouched "o1" Examples.two_prints (Examples.shop 5%float))
    as (Hu & _ & _ & Hk & _).
  split; [|exact Hu].
  rewrite Hk; [reflexivity|]. vm_compute. by intros ?%list_elem_of_singleton.
Defined.




End PaymentsFacts.

(** ** Properties of booking creation, views, assignment and the Calendly
    webhook *)

Module DeskFacts.
Import Bookings BookingDesk SystemSpec BookingsFacts.

(** X8: [getBooking] answers 200 only to the booking's client, to its
    assigned photographer or to an admin, and then with the stored booking of
    the id asked for; to the client, when that user still exists, it always
    answers 200. *)
Theorem getBooking_viewers req db :
  (∀ s id b c p,
      getBooking req db = Replied (Send s (id, b, c, p)) →
      s = 200 ∧ id = ViewReq.id req ∧ Booking_findById id db = Some b
      ∧ (Booking.client b = ReqUser.id (ViewReq.user req)
         ∨ Booking.photographer b = Some (ReqUser.id (ViewReq.user req))
         ∨ ReqUser.role (ViewReq.user req) = RoleAdmin))
  ∧ (∀ b c,
      Booking_findById (ViewReq.id req) db = Some b →
      populate (Booking.client b) db = Some c →
      Booking.client b = ReqUser.id (ViewReq.user req) →
      getBooking req db
      = Replied (Send 200 (ViewReq.id req, b, c,
                           Booking.photographer b ≫= (λ p, populate p db)))).
Proof.
  unfold getBooking. split.
  - intros s id b c p H.
    destruct (Booking_findById (ViewReq.id req) db) as [b'|] eqn:Hb; [|done].
    destruct (populate (Booking.client b') db) as [c'|] eqn:Hc; [|done].
    apply PaymentsFacts.populate_id in Hc.
    match type of H with (if ?cond then _ else _) = _ =>
      destruct cond eqn:Hcond; [done|] end.
    inversion H; subst. split_and!; try done.
    apply andb_false_iff in Hcond as [Hcond|Hcond];
      [apply andb_false_iff in Hcond as [Hcond|Hcond]|].
    + left. apply negb_false_iff, String.eqb_eq in Hcond. congruence.
    + right. left.
      destruct (Booking.photographer b) as [pid|] eqn:Hp; simpl in Hcond; [|done].
      destruct (populate pid db) as [q|] eqn:Hq; [|done].
      apply PaymentsFacts.populate_id in Hq.
      apply negb_false_iff, String.eqb_eq in Hcond. congruence.
    + right. right. apply negb_false_iff in Hcond. by apply Role_eqb_admin.
  - intros b c -> Hc Hown. rewrite Hc. apply PaymentsFacts.populate_id in Hc.
    by rewrite Hc, Hown, String.eqb_refl.
Qed.

Lemma getBooking_viewers_witness :
  getBooking (ViewReq.mk "b1" Examples.ada) Samples.bureau
  = Replied (Send 200 ("b1", Examples.session BkConfirmed,
                       Populated.mk "u1" "Ada" "ada@example.com", None))
  ∧ Outcome_status (getBooking (ViewReq.mk "b1" Examples.bob) Samples.bureau) = 401.
Proof.
  split.
  - by apply (getBooking_viewers (ViewReq.mk "b1" Examples.ada) Samples.bureau).
  - reflexivity.
Defined.



(** *** Creating a booking *)




(** *** The Calendly webhook *)

Lemma findOne_event_found uuid db id b :
  Booking_findOne_event uuid db = Some (id, b) →
  Booking_findById id db = Some b ∧ Booking.calendlyEventId b = Some uuid.
Proof.
  unfold Booking_findOne_event, Booking_findById. intros H.
  apply head_Some_elem_of, list_elem_of_filter in H as [Hev Hin].
  by apply elem_of_map_to_list in Hin.
Qed.

Lemma findOne_event_none uuid db :
  no_event uuid db → Booking_findOne_event uuid db = None.
Proof.
  intros Hno. destruct (Booking_findOne_event uuid db) as [[id b]|] eqn:H; [|done].
  apply findOne_event_found in H as [Hb Hev]. by destruct (Hno id b Hb).
Qed.

(** When one booking only carries the event, [findOne] finds it. *)
Lemma findOne_event_unique uuid db id b :
  Booking_findById id db = Some b →
  Booking.calendlyEventId b = Some uuid →
  only_event uuid id db →
  Booking_findOne_event uuid db = Some (id, b).
Proof.
  intros Hb Hev Honly.
  destruct (Booking_findOne_event uuid db) as [[j b']|] eqn:H.
  - apply findOne_event_found in H as [Hj Hev'].
    assert (j = id) as -> by (by apply (Honly j b')).
    unfold Booking_findById in *. congruence.
  - exfalso. unfold Booking_findOne_event in H.
    apply head_None in H.
    assert ((id, b) ∈ filter (λ kv, Booking.calendlyEventId kv.2 = Some uuid)
                         (map_to_list (DB.bookings db))) as Hin.
    { apply list_elem_of_filter. split; [done|]. by apply elem_of_map_to_list. }
    rewrite H in Hin. by apply elem_of_nil in Hin.
Qed.

(** X12: a completed booking that alone carries a Calendly event cannot be
    cancelled through [cancelBooking], by its client or by an admin (400,
    nothing changes), but an [invitee.canceled] webhook for that event
    cancels it. *)
Theorem calendly_cancels_completed Date_valid axios_post key newId creq payload db b :
  Booking_findById (CancelReq.id creq) db = Some b →
  Booking.client b = ReqUser.id (CancelReq.user creq)
  ∨ ReqUser.role (CancelReq.user creq) = RoleAdmin →
  Booking.status b = BkCompleted →
  Booking.calendlyEventId b = Some (CalendlyPayload.uuid payload) →
  only_event (CalendlyPayload.uuid payload) (CancelReq.id creq) db →
  (cancelBooking axios_post key creq db).1
  = (Next (ErrorResponse [Txt "Cannot cancel a completed booking"] 400), db)
  ∧ ∃ db',
      handleCalendlyWebhook Date_valid newId
        (CalendlyEvent.mk (Some "invitee.canceled") (Some payload)) db
      = (Replied (Send 200 tt), db')
      ∧ Booking_findById (CancelReq.id creq) db'
        = Some (Booking.with_status BkCancelled b).
Proof.
  intros Hb Hown Hst Hev Honly. split.
  - unfold cancelBooking. apply owner_or_admin in Hown. by rewrite Hb, Hown, Hst.
  - unfold handleCalendlyWebhook. simpl.
    rewrite (findOne_event_unique _ db _ b Hb Hev Honly).
    eexists. split; [reflexivity|]. by apply alter_booking_same.
Qed.

Lemma calendly_cancels_completed_witness :
  (cancelBooking Examples.calendly_down (Some "key")
     (CancelReq.mk "b1" Examples.ada None) (Examples.diary BkCompleted)).1
  = (Next (ErrorResponse [Txt "Cannot cancel a completed booking"] 400),
     Examples.diary BkCompleted)
  ∧ ∃ db',
      handleCalendlyWebhook (λ _, true) "b2"
        (CalendlyEvent.mk (Some "invitee.canceled") (Some Samples.ada_invited))
        (Examples.diary BkCompleted)
      = (Replied (Send 200 tt), db')
      ∧ Booking_findById "b1" db' = Some (Examples.session BkCancelled).
Proof.
  apply (calendly_cancels_completed (λ _, true) Examples.calendly_down (Some "key") "b2"
           (CancelReq.mk "b1" Examples.ada None) Samples.ada_invited
           (Examples.diary BkCompleted) (Examples.session BkCompleted));
    try done; [by left|].
  intros j b Hj _. unfold Examples.diary in Hj. simpl in Hj.
  destruct (decide (j = "b1")) as [->|Hne]; [done|].
  by rewrite lookup_singleton_ne in Hj.
Defined.

Lemma payload_ok_valid Date_valid p client :
  payload_ok Date_valid p = true →
  Draft_validate Date_valid
    (Draft.mk client (CalendlyPayload.event_type_name p) (CalendlyPayload.start_time p)
       (SlotInput.mk (CalendlyPayload.start_time p) (CalendlyPayload.end_time p))
       (booked_location p) (AdditionalDetails.mk None None None None)
       (PaymentInput.mk (Some 0%float) None (Some false) None None)
       (Some (CalendlyPayload.uuid p))) = [].
Proof.
  unfold payload_ok, Draft_validate. simpl.
  intros H. apply andb_prop in H as [H Hloc]. apply andb_prop in H as [H He].
  apply andb_prop in H as [Hty Hs].
  rewrite Hty, Hs, He. apply negb_true_iff in Hloc. rewrite Hloc.
  destruct (String.eqb (CalendlyPayload.event_type_name p) "") eqn:Hempty; [|done].
  apply String.eqb_eq in Hempty. by rewrite Hempty in Hty.
Qed.

(** X13: an [invitee.created] webhook for the email of a user, with a
    payload the schema accepts and an event no booking carries yet, stores a
    pending booking for that user under the new id, with the event's id, the
    trimmed location and payment amount 0; an [invitee.canceled] webhook for
    the same event then cancels that booking. *)
Theorem calendly_books_then_cancels Date_valid newId newId' payload db u :
  Auth.User_findOne_email (CalendlyPayload.invitee_email payload) db = Some u →
  payload_ok Date_valid payload = true →
  no_event (CalendlyPayload.uuid payload) db →
  ∃ b db1 db2,
    handleCalendlyWebhook Date_valid newId
      (CalendlyEvent.mk (Some "invitee.created") (Some payload)) db
    = (Replied (Send 200 tt), db1)
    ∧ Booking_findById newId db1 = Some b
    ∧ Booking.client b = User._id u
    ∧ Booking.status b = BkPending
    ∧ Booking.calendlyEventId b = Some (CalendlyPayload.uuid payload)
    ∧ Booking.location b = trim (booked_location payload)
    ∧ BookingPayment.amount (Booking.payment b) = 0%float
    ∧ handleCalendlyWebhook Date_valid newId'
        (CalendlyEvent.mk (Some "invitee.canceled") (Some payload)) db1
      = (Replied (Send 200 tt), db2)
    ∧ Booking_findById newId db2 = Some (Booking.with_status BkCancelled b).
Proof.
  intros Hu Hok Hno.
  pose proof (payload_ok_valid Date_valid payload (User._id u) Hok) as Hvalid.
  unfold handleCalendlyWebhook at 1. simpl. rewrite Hu.
  unfold Booking_create. fold (booked_location payload). rewrite Hvalid.
  set (b := Draft_document _).
  set (db1 := DB.with_bookings (<[newId:=b]> (DB.bookings db)) db).
  assert (Booking_findById newId db1 = Some b) as Hb
    by (unfold Booking_findById; simpl; apply lookup_insert_eq).
  assert (Booking_findOne_event (CalendlyPayload.uuid payload) db1 = Some (newId, b))
    as Hfound.
  { apply findOne_event_unique; [done|done|].
    intros j b' Hj Hev. destruct (decide (j = newId)) as [->|Hne]; [done|].
    unfold db1 in Hj. simpl in Hj. rewrite lookup_insert_ne in Hj by done.
    by destruct (Hno j b' Hj). }
  eexists b, db1, _. split_and!; try done.
  - unfold handleCalendlyWebhook. simpl. by rewrite Hfound.
  - by apply alter_booking_same.
Qed.

Lemma calendly_books_then_cancels_witness :
  ∃ b db1 db2,
    handleCalendlyWebhook (λ _, true) "b2"
      (CalendlyEvent.mk (Some "invitee.created") (Some Samples.ada_invited))
      Examples.members
    = (Replied (Send 200 tt), db1)
    ∧ Booking_findById "b2" db1 = Some b
    ∧ Booking.client b = "u1"
    ∧ Booking.location b = "To be determined"
    ∧ handleCalendlyWebhook (λ _, true) "b3"
        (CalendlyEvent.mk (Some "invitee.canceled") (Some Samples.ada_invited)) db1
      = (Replied (Send 200 tt), db2)
    ∧ Booking_findById "b2" db2 = Some (Booking.with_status BkCancelled b).
Proof.
  destruct (calendly_books_then_cancels (λ _, true) "b2" "b3" Samples.ada_invited
              Examples.members (User.mk "u1" "Ada" "ada@example.com" "terces" RoleUser))
    as (b & db1 & db2 & H1 & H2 & H3 & _ & _ & H4 & _ & H5 & H6);
    [reflexivity|reflexivity|by intros j b Hj|].
  by exists b, db1, db2.
Defined.

(** X14: the Calendly webhook answers 200 and changes nothing when the
    event is neither [invitee.created] nor [invitee.canceled], when an
    [invitee.created] payload names an email no user has, and when an
    [invitee.canceled] payload names an event no booking carries. *)
Theorem calendly_ignores Date_valid newId req db :
  (CalendlyEvent.event req ≠ Some "invitee.created" →
   CalendlyEvent.event req ≠ Some "invitee.canceled" →
   handleCalendlyWebhook Date_valid newId req db = (Replied (Send 200 tt), db))
  ∧ (∀ payload,
       CalendlyEvent.event req = Some "invitee.created" →
       CalendlyEvent.payload req = Some payload →
       Auth.User_findOne_email (CalendlyPayload.invitee_email payload) db = None →
       handleCalendlyWebhook Date_valid newId req db = (Replied (Send 200 tt), db))
  ∧ (∀ payload,
       CalendlyEvent.event req = Some "invitee.canceled" →
       CalendlyEvent.payload req = Some payload →
       no_event (CalendlyPayload.uuid payload) db →
       handleCalendlyWebhook Date_valid newId req db = (Replied (Send 200 tt), db)).
Proof.
  unfold handleCalendlyWebhook. split_and!.
  - intros Hc Hx.
    destruct (CalendlyEvent.event req) as [e|]; [|done]. simpl.
    destruct (String.eqb e "invitee.created") eqn:H1;
      [apply String.eqb_eq in H1; congruence|].
    destruct (String.eqb e "invitee.canceled") eqn:H2;
      [apply String.eqb_eq in H2; congruence|done].
  - intros payload -> -> Hu. simpl. by rewrite Hu.
  - intros payload -> -> Hno. simpl. by rewrite findOne_event_none.
Qed.

Lemma calendly_ignores_witness :
  handleCalendlyWebhook (λ _, true) "b2"
    (CalendlyEvent.mk (Some "invitee.rescheduled") (Some Samples.ada_invited))
    Samples.bureau = (Replied (Send 200 tt), Samples.bureau)
  ∧ handleCalendlyWebhook (λ _, true) "b2"
      (CalendlyEvent.mk (Some "invitee.created") (Some Samples.ada_invited))
      (Examples.shop 1%float) = (Replied (Send 200 tt), Examples.shop 1%float).
Proof.
  split.
  - by apply (calendly_ignores (λ _, true) "b2"
                (CalendlyEvent.mk (Some "invitee.rescheduled") (Some Samples.ada_invited))
                Samples.bureau).
  - destruct (calendly_ignores (λ _, true) "b2"
                (CalendlyEvent.mk (Some "invitee.created") (Some Samples.ada_invited))
                (Examples.shop 1%float)) as (_ & H & _).
    by apply (H Samples.ada_invited).
Defined.

End DeskFacts.

(** ** Properties of registration, password change and the middleware *)

Module AccountsFacts.
Import Auth Accounts SystemSpec.

Lemma find_app_none {A} (f : A → bool) l k :
  List.find f l = None → List.find f (l ++ k) = List.find f k.
Proof.
  induction l as [|y l IH]; simpl; [done|]. by destruct (f y).
Qed.

Lemma email_free email db :
  email_taken email db = false → User_findOne_email email db = None.
Proof.
  unfold email_taken, User_findOne_email.
  induction (DB.users db) as [|u us IH]; simpl; [done|].
  destruct (String.eqb (User.email u) email); [done|exact IH].
Qed.

(** The role [register] stores is ['user'] whatever role the body asks
    for. *)
Lemma register_role (role : option string) :
  default RoleUser
    (Role_of_string
       match role with
       | Some r => if String.eqb r "admin" then Some "user" else Some r
       | None => None
       end) = RoleUser.
Proof.
  destruct role as [r|]; [|done].
  destruct (String.eqb r "admin") eqn:Hr; [done|].
  unfold Role_of_string. rewrite Hr. by destruct (String.eqb r "user").
Qed.

(** What a registration that got its token has stored. *)
Lemma register_success bcrypt_hash getSignedJwtToken newId salt body db s token db' :
  register bcrypt_hash getSignedJwtToken newId salt body db
  = (Replied (Send s token), db') →
  ∃ email password u,
    Fields.email body = Some email ∧ email ≠ ""
    ∧ Fields.password body = Some password ∧ password ≠ ""
    ∧ s = 201 ∧ token = getSignedJwtToken u
    ∧ User._id u = newId ∧ User.email u = email ∧ User.role u = RoleUser
    ∧ User.password u = bcrypt_hash password salt
    ∧ email_taken email db = false
    ∧ db' = DB_with_users (DB.users db ++ [u]) db.
Proof.
  unfold register, User_create.
  destruct (Fields_validate _) as [|err errs] eqn:Hv; [|done].
  unfold Fields_validate in Hv. simpl in Hv.
  apply app_eq_nil in Hv as [_ Hv]. apply app_eq_nil in Hv as [He Hv].
  apply app_eq_nil in Hv as [Hp _].
  unfold email_errors in He. unfold password_errors in Hp.
  destruct (Fields.email body) as [email|]; [|done].
  destruct (Fields.password body) as [password|]; [|done].
  simpl in He, Hp.
  destruct (String.eqb email "") eqn:He0; [done|].
  destruct (String.eqb password "") eqn:Hp0; [done|].
  apply String.eqb_neq in He0, Hp0. simpl.
  destruct (email_taken email db) eqn:Htaken; [done|].
  intros H. inversion H; subst. eexists email, password, _.
  split_and!; try done. apply register_role.
Qed.

(** X16: whoever has registered can log in: after a registration that got
    its token, [login] with the same email and password answers 200 with a
    token signed, at the time of the login, for the new user, who has the
    new id and the role ['user'] and for whom the registration's token was
    signed, provided [bcrypt.compare] accepts a password against its own
    hash. *)
Theorem register_then_login bcrypt_hash bcrypt_compare signed_at_register
    signed_at_login newId salt body db s token db' :
  (∀ password salt, bcrypt_compare password (bcrypt_hash password salt) = true) →
  register bcrypt_hash signed_at_register newId salt body db
  = (Replied (Send s token), db') →
  ∃ u,
    login bcrypt_compare signed_at_login
      (LoginBody.mk (Fields.email body) (Fields.password body)) db'
    = Send 200 (signed_at_login u)
    ∧ token = signed_at_register u
    ∧ User._id u = newId ∧ User.role u = RoleUser.
Proof.
  intros Hbcrypt H.
  apply register_success in H
    as (email & password & u & -> & He & -> & Hp & -> & -> & Hid & Hemail
        & Hrole & Hhash & Hfree & ->).
  exists u. split_and!; try done.
  unfold login, matchPassword. simpl.
  apply String.eqb_neq in He, Hp. rewrite He, Hp. simpl.
  unfold User_findOne_email. simpl.
  rewrite find_app_none by (by apply email_free). simpl.
  rewrite Hemail, String.eqb_refl. by rewrite Hhash, Hbcrypt.
Qed.

Lemma register_then_login_witness :
  ∃ token db' u,
    register Samples.salted Examples.token_for "u2" "NaCl" Samples.bob_signs_up
      Samples.bureau = (Replied (Send 201 token), db')
    ∧ login Samples.unsalted Samples.token_later
        (LoginBody.mk (Some "bob@example.com") (Some "hunter22")) db'
      = Send 200 (Samples.token_later u)
    ∧ User._id u = "u2" ∧ User.role u = RoleUser.
Proof.
  eexists _, _.
  assert (∀ password salt,
             Samples.unsalted password (Samples.salted password salt) = true) as Hb.
  { intros password salt. unfold Samples.unsalted, Samples.salted.
    induction (String.rev password) as [|c s IH]; simpl; [by destruct salt|].
    by destruct (Ascii.ascii_dec c c). }
  destruct (register_then_login Samples.salted Samples.unsalted Examples.token_for
              Samples.token_later "u2" "NaCl" Samples.bob_signs_up Samples.bureau
              _ _ _ Hb eq_refl)
    as (u & H1 & _ & H2 & H3).
  exists u. split; [reflexivity|]. by split_and!.
Defined.

(** *** Changing the password *)




End AccountsFacts.

(** ** Properties of the middleware and of the admin routes *)

Module MiddlewareFacts.
Import Middleware SystemSpec.

Lemma split_space_spaceless t : spaceless t = true → split_space t = [t].
Proof.
  induction t as [|c t IH]; simpl; [done|].
  intros [Hc Ht]%andb_prop. apply negb_true_iff in Hc. rewrite Hc.
  by rewrite (IH Ht).
Qed.

(** X19: from a header [Bearer t], where [t] is not empty and has no
    space, [protect] takes [t] as the token whatever the cookie holds: if
    [jwt.verify] accepts [t] the request goes on with the user of the decoded
    id, and if it rejects [t] the answer is 401 without the cookie being
    tried. *)
Theorem protect_bearer jwt_verify t cookie db :
  t ≠ "" → spaceless t = true →
  let c := Credentials.mk (Some ("Bearer " +:+ t)) cookie in
  token_of c = Some t
  ∧ (∀ id, jwt_verify t = Some id → protect jwt_verify c db = inr (User_findById id db))
  ∧ (jwt_verify t = None → protect jwt_verify c db = inl not_authorized).
Proof.
  intros Hne Hsp c.
  assert (token_of c = Some t) as Htoken.
  { unfold token_of, c. simpl.
    change (split_space ("" +:+ t)) with (split_space t).
    by rewrite (split_space_spaceless t Hsp). }
  unfold protect. rewrite Htoken. simpl.
  apply String.eqb_neq in Hne. rewrite Hne. simpl.
  split_and!; [done| |]; by intros; simplify_option_eq.
Qed.

Lemma protect_bearer_witness :
  protect Samples.decode (Credentials.mk (Some "Bearer jwt:u9") (Some "jwt:u1"))
    Samples.bureau
  = inr (Some (User.mk "u9" "Root" "root@example.com" "toor" RoleAdmin))
  ∧ protect Samples.decode (Credentials.mk (Some "Bearer forged") (Some "jwt:u1"))
      Samples.bureau
    = inl not_authorized.
Proof.
  split.
  - destruct (protect_bearer Samples.decode "jwt:u9" (Some "jwt:u1") Samples.bureau)
      as (_ & H & _); [done|reflexivity|].
    by apply (H "u9").
  - destruct (protect_bearer Samples.decode "forged" (Some "jwt:u1") Samples.bureau)
      as (_ & _ & H); [done|reflexivity|].
    by apply H.
Defined.

(** X20: when the [Authorization] header starts with [Bearer], the cookie
    plays no part in [protect]; in particular a header that starts with
    [Bearer] and has no space carries no token, and the request is refused
    with 401 even if the cookie holds a valid token. *)
Theorem bearer_masks_cookie jwt_verify h db :
  String.prefix "Bearer" h = true →
  (∀ cookie,
      protect jwt_verify (Credentials.mk (Some h) cookie) db
      = protect jwt_verify (Credentials.mk (Some h) None) db)
  ∧ (spaceless h = true →
     ∀ cookie, protect jwt_verify (Credentials.mk (Some h) cookie) db
               = inl not_authorized).
Proof.
  intros Hpre.
  assert (∀ cookie, token_of (Credentials.mk (Some h) cookie) = split_space h !! 1)
    as Htoken.
  { intros cookie. unfold token_of. simpl. rewrite Hpre.
    assert (String.eqb h "" = false) as -> by (by destruct h). done. }
  split.
  - intros cookie. unfold protect. by rewrite !Htoken.
  - intros Hsp cookie. unfold protect.
    by rewrite Htoken, (split_space_spaceless h Hsp).
Qed.

Lemma bearer_masks_cookie_witness :
  protect Samples.decode (Credentials.mk (Some "Bearerjwt:u9") (Some "jwt:u9"))
    Samples.bureau = inl not_authorized
  ∧ protect Samples.decode (Credentials.mk None (Some "jwt:u9")) Samples.bureau
    = inr (Some (User.mk "u9" "Root" "root@example.com" "toor" RoleAdmin)).
Proof.
  split; [|reflexivity].
  destruct (bearer_masks_cookie Samples.decode "Bearerjwt:u9" Samples.bureau)
    as [_ H]; [reflexivity|].
  by apply H.
Defined.

(** A route behind [protect] and [authorize('admin')] runs its handler for
    an admin and for nobody else. *)
Lemma admin_route_cases {A} jwt_verify (handler : DB.t → A * DB.t) c db :
  (∀ u, protect jwt_verify c db = inr (Some u) → User.role u = RoleAdmin →
        admin_route jwt_verify handler c db = (inr (handler db).1, (handler db).2))
  ∧ ((∀ u, protect jwt_verify c db = inr (Some u) → User.role u ≠ RoleAdmin) →
     ∃ d, admin_route jwt_verify handler c db = (inl d, db)
          ∧ (Denial.status d = 401 ∨ Denial.status d = 403)).
Proof.
  unfold admin_route. split.
  - intros u -> Hrole. simpl. rewrite Hrole. simpl. by destruct (handler db).
  - intros Hnot. destruct (protect jwt_verify c db) as [d|[u|]] eqn:Hp.
    + exists d. split; [done|]. left. unfold protect in Hp.
      repeat case_match; by simplify_eq.
    + specialize (Hnot u eq_refl). simpl.
      destruct (User.role u); [|done]. simpl. eexists. split; [done|by right].
    + simpl. eexists. split; [done|by left].
Qed.

(** X21: the three admin routes ([PUT /api/orders/:id/status],
    [PUT /api/bookings/:id/status], [PUT /api/bookings/:id/assign]) answer
    401 or 403 and change nothing unless [protect] resolves the request to a
    user whose role is admin; for such a user they do what their handler
    does. *)
Theorem admin_routes_guarded jwt_verify c db :
  ((∀ u, protect jwt_verify c db = inr (Some u) → User.role u ≠ RoleAdmin) →
   (∀ req, ∃ d, orders_put_status jwt_verify c req db = (inl d, db)
                ∧ (Denial.status d = 401 ∨ Denial.status d = 403))
   ∧ (∀ req, ∃ d, bookings_put_status jwt_verify c req db = (inl d, db)
                  ∧ (Denial.status d = 401 ∨ Denial.status d = 403))
   ∧ (∀ req, ∃ d, bookings_put_assign jwt_verify c req db = (inl d, db)
                  ∧ (Denial.status d = 401 ∨ Denial.status d = 403)))
  ∧ (∀ u, protect jwt_verify c db = inr (Some u) → User.role u = RoleAdmin →
     (∀ req, orders_put_status jwt_verify c req db
             = (inr (Orders.updateOrderStatus req db).1,
                (Orders.updateOrderStatus req db).2))
     ∧ (∀ req, bookings_put_status jwt_verify c req db
               = (inr (Bookings.updateBookingStatus req db).1,
                  (Bookings.updateBookingStatus req db).2))
     ∧ (∀ req, bookings_put_assign jwt_verify c req db
               = (inr (BookingDesk.assignPhotographer req db).1,
                  (BookingDesk.assignPhotographer req db).2))).
Proof.
  split.
  - intros Hnot. split_and!; intros req; by apply admin_route_cases.
  - intros u Hu Hrole. split_and!; intros req; by eapply admin_route_cases.
Qed.

Lemma admin_routes_guarded_witness :
  (∃ d, orders_put_status Samples.decode (Credentials.mk (Some "Bearer jwt:u1") None)
          (Orders.StatusReq.mk "o1" (Some "delivered")) Samples.bureau
        = (inl d, Samples.bureau) ∧ (Denial.status d = 401 ∨ Denial.status d = 403))
  ∧ ∃ db',
      bookings_put_assign Samples.decode (Credentials.mk None (Some "jwt:u9"))
        (BookingDesk.AssignReq.mk "b1" (Some "u9")) Samples.bureau
      = (inr (Send 200 ("b1", BookingDesk.Booking_with_photographer "u9"
                                (Examples.session BkConfirmed))), db').
Proof.
  split.
  - destruct (admin_routes_guarded Samples.decode
                (Credentials.mk (Some "Bearer jwt:u1") None) Samples.bureau) as [H _].
    destruct H as (H & _ & _); [|by apply H].
    intros u Hu. vm_compute in Hu. by inversion Hu.
  - destruct (admin_routes_guarded Samples.decode
                (Credentials.mk None (Some "jwt:u9")) Samples.bureau) as [_ H].
    destruct (H _ eq_refl eq_refl) as (_ & _ & Hassign).
    eexists. rewrite Hassign. reflexivity.
Defined.

End MiddlewareFacts.
(** ** More properties of orders, login and assignment *)

Module MoreFacts.
Import Orders OrderSpec OrderTasks SystemSpec.



Lemma quantity_errors_none lines : ∀ i,
  quantity_errors i lines = [] →
  Forall (λ l, at_least 1%float (OrderLine.quantity l) = true) lines.
Proof.
  induction lines as [|l lines IH]; intros i H; simpl in H; [constructor|].
  destruct (at_least 1%float (OrderLine.quantity l)) eqn:Hl; [|done].
  constructor; [done|]. by apply (IH (S i)).
Qed.

(** X23: an order [createOrder] has stored has passed the validators of
    the Order schema: every line has a quantity of at least 1, and subtotal,
    tax, shipping and total are at least 0 (none is NaN). *)
Theorem createOrder_stores_valid newId req db s i o db' :
  createOrder newId req db = (Send s (i, o), db') →
  Forall (λ l, at_least 1%float (OrderLine.quantity l) = true) (Order.products o)
  ∧ at_least 0%float (Order.subtotal o) = true
  ∧ at_least 0%float (Order.tax o) = true
  ∧ at_least 0%float (Order.shipping o) = true
  ∧ at_least 0%float (Order.total o) = true.
Proof.
  unfold createOrder.
  destruct (Body.products (Req.body req)) as [[|i0 items]|]; [done| |done].
  destruct (Body.shippingAddress (Req.body req)) as [addr|]; [|done].
  destruct (processItems (i0 :: items) [] 0%float db) as [[e|[lines sub]] db1];
    [done|].
  unfold Order_create.
  destruct (Order_validate _) as [|err errs] eqn:Hv; [|done].
  intros H. inversion H; subst. clear H.
  unfold Order_validate in Hv.
  apply app_eq_nil in Hv as [Hq Hv]. apply app_eq_nil in Hv as [Hsub Hv].
  apply app_eq_nil in Hv as [Htax Hv]. apply app_eq_nil in Hv as [Hship Htot].
  split; [by apply (quantity_errors_none _ 0)|].
  split_and!; by match goal with |- ?b = true => destruct b end.
Qed.

Lemma createOrder_stores_valid_witness :
  ∃ o db',
    createOrder "o1" Examples.two_prints (Examples.shop 5%float)
    = (Send 201 ("o1", o), db')
    ∧ Forall (λ l, at_least 1%float (OrderLine.quantity l) = true) (Order.products o)
    ∧ at_least 0%float (Order.total o) = true.
Proof.
  eexists _, _. split; [vm_compute; reflexivity|].
  pose proof (createOrder_stores_valid "o1" Examples.two_prints (Examples.shop 5%float)
                _ _ _ _ eq_refl) as (H1 & _ & _ & _ & H2).
  by split.
Defined.

(** X24: [login] answers with a token only when some user has the email
    and [bcrypt.compare] accepts the password against that user's stored
    hash; the status is then 200 and the token is that user's. *)
Theorem login_sound bcrypt_compare getSignedJwtToken body db s token :
  Auth.login bcrypt_compare getSignedJwtToken body db = Send s token →
  ∃ email password u,
    Auth.LoginBody.email body = Some email
    ∧ Auth.LoginBody.password body = Some password
    ∧ Auth.User_findOne_email email db = Some u
    ∧ User.email u = email
    ∧ bcrypt_compare password (User.password u) = true
    ∧ s = 200 ∧ token = getSignedJwtToken u.
Proof.
  unfold Auth.login, Auth.matchPassword, Auth.sendTokenResponse.
  destruct (Auth.LoginBody.email body) as [email|]; [|done].
  destruct (Auth.LoginBody.password body) as [password|];
    [|by rewrite orb_true_r].
  destruct (negb (truthy (Some email)) || negb (truthy (Some password))); [done|].
  simpl. destruct (Auth.User_findOne_email email db) as [u|] eqn:Hu; [|done].
  destruct (bcrypt_compare password (User.password u)) eqn:Hc; [|done].
  simpl. intros H. inversion H; subst.
  exists email, password, u. split_and!; try done.
  unfold Auth.User_findOne_email in Hu. apply find_some in Hu as [_ Hu].
  by apply String.eqb_eq in Hu.
Qed.

Lemma login_sound_witness :
  ∃ u,
    Auth.User_findOne_email "ada@example.com" Examples.members = Some u
    ∧ Examples.reversed "secret" (User.password u) = true
    ∧ Auth.login Examples.reversed Examples.token_for
        (Auth.LoginBody.mk (Some "ada@example.com") (Some "secret")) Examples.members
      = Send 200 (Examples.token_for u).
Proof.
  destruct (login_sound Examples.reversed Examples.token_for
              (Auth.LoginBody.mk (Some "ada@example.com") (Some "secret"))
              Examples.members _ _ eq_refl)
    as (email & password & u & He & Hp & Hu & _ & Hc & _ & _).
  inversion He; subst. inversion Hp; subst. exists u.
  split; [exact Hu|]. split; [exact Hc|].
  vm_compute in Hu. inversion Hu; subst. reflexivity.
Defined.

(** X25: [assignPhotographer] with a photographer id that is not the id
    of an admin user answers 404 and changes nothing, whether or not the
    booking exists; with the id of an admin user and a stored booking it
    answers 200 and stores the booking with that photographer and nothing
    else changed, leaving the other bookings alone. *)
Theorem assignPhotographer_cases id pid db :
  pid ≠ "" →
  let req := BookingDesk.AssignReq.mk id (Some pid) in
  ((∀ u, User_findById pid db = Some u → User.role u ≠ RoleAdmin) →
   BookingDesk.assignPhotographer req db
   = (Next (ErrorResponse [Txt "Photographer not found with id of "; Txt pid] 404), db))
  ∧ (∀ u b,
       User_findById pid db = Some u → User.role u = RoleAdmin →
       Bookings.Booking_findById id db = Some b →
       ∃ b' db',
         BookingDesk.assignPhotographer req db = (Send 200 (id, b'), db')
         ∧ Bookings.Booking_findById id db' = Some b'
         ∧ Booking.photographer b' = Some pid
         ∧ Booking.client b' = Booking.client b
         ∧ Booking.status b' = Booking.status b
         ∧ Booking.payment b' = Booking.payment b
         ∧ (∀ j, j ≠ id →
                 Bookings.Booking_findById j db' = Bookings.Booking_findById j db)).
Proof.
  intros Hne req. unfold BookingDesk.assignPhotographer. simpl.
  apply String.eqb_neq in Hne. rewrite Hne. simpl. split.
  - intros Hnot. destruct (User_findById pid db) as [u|]; [|done].
    specialize (Hnot u eq_refl). destruct (User.role u); [done|by destruct Hnot].
  - intros u b Hu Hrole Hb. rewrite Hu, Hrole, Hb. simpl.
    eexists _, _. split; [reflexivity|].
    split; [by apply BookingsFacts.alter_booking_same|].
    split_and!; try done. intros j Hj. by apply BookingsFacts.alter_booking_other.
Qed.

Lemma assignPhotographer_cases_witness :
  BookingDesk.assignPhotographer (BookingDesk.AssignReq.mk "b1" (Some "u1")) Samples.bureau
  = (Next (ErrorResponse [Txt "Photographer not found with id of "; Txt "u1"] 404),
     Samples.bureau)
  ∧ ∃ b' db',
      BookingDesk.assignPhotographer (BookingDesk.AssignReq.mk "b1" (Some "u9"))
        Samples.bureau = (Send 200 ("b1", b'), db')
      ∧ Bookings.Booking_findById "b1" db' = Some b'
      ∧ Booking.photographer b' = Some "u9".
Proof.
  split.
  - destruct (assignPhotographer_cases "b1" "u1" Samples.bureau) as [H _]; [done|].
    apply H. intros u Hu. vm_compute in Hu. by inversion Hu.
  - destruct (assignPhotographer_cases "b1" "u9" Samples.bureau) as [_ H]; [done|].
    destruct (H _ _ eq_refl eq_refl eq_refl) as (b' & db' & H1 & H2 & H3 & _).
    by exists b', db'.
Defined.

End MoreFacts.

(** ** What every sequence of calls preserves *)

Module SystemFacts.
Import System SystemSpec.

(** Unfold a handler and go through its branches. *)
Ltac branches := repeat (simpl; case_match); simplify_eq/=; try done.

Lemma well_priced_core o o' : core o' = core o → well_priced o → well_priced o'.
Proof.
  unfold core, well_priced. intros H (H1 & H2 & H3 & H4).
  inversion H as [[Hu Hp Ha Hs Ht Hsh Hto]].
  rewrite Hp, Hs, Ht, Hsh, Hto. done.
Qed.

(** What one call does to the orders: nothing, or a new well-priced order
    under the new id, or a change to one order that keeps its core. *)
Lemma exec_orders w db op :
  DB.orders (exec w db op) = DB.orders db
  ∨ (∃ newId req o,
       op = CreateOrder newId req
       ∧ DB.orders (exec w db op) = <[newId := o]> (DB.orders db)
       ∧ well_priced o)
  ∨ (∃ id f,
       DB.orders (exec w db op) = alter f id (DB.orders db)
       ∧ ∀ o, core (f o) = core o).
Proof.
  destruct op as [newId req|req|req|req|newId req|req|req|req|req|newId req
                 |newId salt body|salt req]; simpl.
  - destruct (PaymentsFacts.createOrder_outcome newId req db) as (items & _ & Hout).
    pose proof (OrdersFacts.processItems_frame items [] 0%float db) as (_ & Ho & _).
    destruct Hout as [-> | (o & -> & Hwp)].
    + by left.
    + right. left. exists newId, req, o. simpl. by rewrite Ho.
  - unfold Orders.updateOrderStatus. branches; try by left.
    right. right. by eexists _, _.
  - unfold Payments.createPaymentIntent. branches; try by left.
    right. right. by eexists _, _.
  - unfold Orders.handleStripeWebhook. branches; try by left.
    right. right. by eexists _, _.
  - left. unfold BookingDesk.createBooking, BookingDesk.Booking_create. branches.
  - left. unfold Bookings.updateBookingStatus. branches.
  - left. unfold BookingDesk.assignPhotographer. branches.
  - left. unfold Bookings.updateBooking, Bookings.Booking_findByIdAndUpdate. branches.
  - left. unfold Bookings.cancelBooking. branches.
  - left. unfold BookingDesk.handleCalendlyWebhook, BookingDesk.Booking_create. branches.
  - left. unfold Accounts.register, Accounts.User_create. branches.
  - left. unfold Accounts.updatePassword. branches.
Qed.

(** X6: through any sequence of calls of the handlers, an order keeps what
    it was created with (its user, lines, address and amounts), as long as
    the driver does not hand out its id again. *)
Theorem orders_keep_their_core w ops : ∀ db id o,
  DB.orders db !! id = Some o →
  id ∉ new_order_ids ops →
  ∃ o', DB.orders (exec_all w ops db) !! id = Some o' ∧ core o' = core o.
Proof.
  induction ops as [|op ops IH]; intros db id o Ho Hfresh; simpl.
  - by exists o.
  - assert ((id ∉ new_order_ids ops)
            ∧ (∀ newId req, op = CreateOrder newId req → newId ≠ id))
      as [Hrest Hop].
    { unfold new_order_ids in Hfresh. simpl in Hfresh.
      destruct op; simpl in Hfresh; try (split; [exact Hfresh|done]).
      apply not_elem_of_cons in Hfresh as [Hne Hrest].
      split; [exact Hrest|]. intros ? ? [= <- _]. done. }
    destruct (exec_orders w db op)
      as [Hsame | [(newId & req & o1 & -> & Hins & _) | (j & f & Halt & Hcore)]].
    + apply (IH _ id o); [by rewrite Hsame|done].
    + apply (IH _ id o); [|done].
      rewrite Hins, lookup_insert_ne; [done|]. by apply (Hop newId req).
    + destruct (decide (j = id)) as [->|Hne].
      * destruct (IH (exec w db op) id (f o)) as (o' & Ho' & Hc); [|done|].
        { by rewrite Halt, lookup_alter_eq, Ho. }
        exists o'. split; [done|]. by rewrite Hc.
      * apply (IH _ id o); [|done]. by rewrite Halt, lookup_alter_ne.
Qed.

Lemma orders_keep_their_core_witness :
  ∃ o',
    DB.orders
      (exec_all Samples.world
         [UpdateOrderStatus (Orders.StatusReq.mk "o1" (Some "shipped"));
          CreateOrder "o2" Examples.two_prints;
          CreatePaymentIntent (Payments.IntentReq.mk Examples.ada (Some "o1"))]
         Samples.bureau) !! "o1" = Some o'
    ∧ core o' = core Examples.order_of_ada.
Proof.
  apply orders_keep_their_core; [reflexivity|].
  vm_compute. by intros ?%list_elem_of_singleton.
Defined.

(** X7: if the amounts of every stored order follow from its lines
    (subtotal the sum of price times quantity, tax a tenth of it, shipping 0
    above 100 and 10 otherwise, total their sum), they still do after any
    sequence of calls of the handlers. *)
Theorem orders_stay_well_priced w ops : ∀ db,
  all_well_priced db → all_well_priced (exec_all w ops db).
Proof.
  induction ops as [|op ops IH]; intros db Hdb; simpl; [done|].
  apply IH. intros id o Ho.
  destruct (exec_orders w db op)
    as [Hsame | [(newId & req & o1 & -> & Hins & Hwp) | (j & f & Halt & Hcore)]].
  - apply (Hdb id). by rewrite <- Hsame.
  - rewrite Hins in Ho. destruct (decide (newId = id)) as [->|Hne].
    + rewrite lookup_insert_eq in Ho. by inversion Ho; subst.
    + rewrite lookup_insert_ne in Ho by done. by apply (Hdb id).
  - rewrite Halt in Ho. destruct (decide (j = id)) as [->|Hne].
    + rewrite lookup_alter_eq in Ho.
      destruct (DB.orders db !! id) as [o0|] eqn:Ho0; [|done].
      inversion Ho; subst. apply (well_priced_core o0); [done|]. by apply (Hdb id).
    + rewrite lookup_alter_ne in Ho by done. by apply (Hdb id).
Qed.

Lemma orders_stay_well_priced_witness :
  all_well_priced
    (exec_all Samples.world
       [CreateOrder "o1" Examples.two_prints;
        StripeWebhook (Orders.WebhookReq.mk "payment_intent.succeeded" (Some "whsec"));
        CreateOrder "o2" (Examples.one_print Examples.bob)]
       (Examples.shop 5%float)).
Proof.
  apply orders_stay_well_priced. intros id o H. vm_compute in H. done.
Defined.

(** *** Users *)

(** What one call does to the users: nothing, or a new user with role
    ['user'] and an email nobody has, or a new password hash for one user. *)
Lemma exec_users w db op :
  DB.users (exec w db op) = DB.users db
  ∨ (∃ u, DB.users (exec w db op) = DB.users db ++ [u]
          ∧ User.role u = RoleUser
          ∧ Accounts.email_taken (User.email u) db = false)
  ∨ (∃ id hash,
       DB.users (exec w db op) = Accounts.set_password id hash (DB.users db)).
Proof.
  destruct op as [newId req|req|req|req|newId req|req|req|req|req|newId req
                 |newId salt body|salt req]; simpl.
  - left. by destruct (PaymentsFacts.createOrder_elsewhere newId req db) as [-> _].
  - left. unfold Orders.updateOrderStatus. branches.
  - left. unfold Payments.createPaymentIntent. branches.
  - left. unfold Orders.handleStripeWebhook. branches.
  - left. unfold BookingDesk.createBooking, BookingDesk.Booking_create. branches.
  - left. unfold Bookings.updateBookingStatus. branches.
  - left. unfold BookingDesk.assignPhotographer. branches.
  - left. unfold Bookings.updateBooking, Bookings.Booking_findByIdAndUpdate. branches.
  - left. unfold Bookings.cancelBooking. branches.
  - left. unfold BookingDesk.handleCalendlyWebhook, BookingDesk.Booking_create. branches.
  - unfold Accounts.register, Accounts.User_create.
    destruct (Accounts.Fields_validate _); [|by left].
    destruct (Accounts.email_taken _ db) eqn:Htaken; [by left|].
    right. left. eexists. simpl. split; [reflexivity|]. simpl.
    split; [apply AccountsFacts.register_role|exact Htaken].
  - unfold Accounts.updatePassword. branches; try by left.
    right. right. by eexists _, _.
Qed.

Lemma set_password_emails id hash us :
  User.email <$> Accounts.set_password id hash us = User.email <$> us.
Proof.
  induction us as [|u us IH]; csimpl; [done|].
  destruct (String.eqb (User._id u) id); csimpl; [done|by rewrite IH].
Qed.

Lemma set_password_admins id hash db :
  admins (Accounts.DB_with_users (Accounts.set_password id hash (DB.users db)) db)
  = admins db.
Proof.
  unfold admins. simpl. induction (DB.users db) as [|u us IH]; csimpl; [done|].
  destruct (String.eqb (User._id u) id); csimpl.
  - rewrite !filter_cons. simpl. by case_decide.
  - rewrite !filter_cons. case_decide; csimpl; by rewrite IH.
Qed.

Lemma email_not_taken email db :
  Accounts.email_taken email db = false → email ∉ User.email <$> DB.users db.
Proof.
  unfold Accounts.email_taken. intros H Hin.
  apply list_elem_of_fmap in Hin as (u & -> & Hu).
  apply list_elem_of_In in Hu.
  assert (existsb (λ u0, String.eqb (User.email u0) (User.email u)) (DB.users db) = true)
    as Hex by (apply existsb_exists; exists u; by rewrite String.eqb_refl).
  congruence.
Qed.

(** X15: no sequence of calls of the handlers makes or unmakes an admin:
    the admins among the users are the same, in the same order, before and
    after. *)
Theorem admins_never_change w ops : ∀ db, admins (exec_all w ops db) = admins db.
Proof.
  induction ops as [|op ops IH]; intros db; simpl; [done|].
  rewrite IH. unfold admins.
  destruct (exec_users w db op) as [-> | [(u & -> & Hrole & _) | (id & hash & ->)]].
  - done.
  - rewrite filter_app, filter_cons, filter_nil. rewrite Hrole. simpl.
    by rewrite app_nil_r.
  - apply (set_password_admins id hash db).
Qed.

(** X17: if no two users share an email, none do after any sequence of
    calls of the handlers. *)
Theorem emails_stay_unique w ops : ∀ db,
  emails_unique db → emails_unique (exec_all w ops db).
Proof.
  induction ops as [|op ops IH]; intros db Hdb; simpl; [done|].
  apply IH. unfold emails_unique in *.
  destruct (exec_users w db op) as [-> | [(u & -> & _ & Hfree) | (id & hash & ->)]].
  - done.
  - rewrite fmap_app. apply NoDup_app. split; [done|]. split.
    + intros e He ->%list_elem_of_singleton. by apply email_not_taken in Hfree.
    + apply NoDup_singleton.
  - by rewrite set_password_emails.
Qed.

Lemma emails_stay_unique_witness :
  emails_unique
    (exec_all Samples.world
       [Register "u2" "salt1" Samples.bob_signs_up;
        Register "u3" "salt2" Samples.bob_signs_up;
        UpdatePassword "salt3"
          (Accounts.PasswordReq.mk Examples.ada (Some "secret") (Some "s3cret!"))]
       Samples.bureau).
Proof.
  apply emails_stay_unique. unfold emails_unique. compute_done.
Defined.

(** *** Bookings *)

(** What one call does to the bookings: nothing, or a new booking without
    photographer, or a change to one booking that keeps its photographer or
    sets one who is an admin. *)
Lemma exec_bookings w db op :
  DB.bookings (exec w db op) = DB.bookings db
  ∨ (∃ newId b,
       DB.bookings (exec w db op) = <[newId := b]> (DB.bookings db)
       ∧ Booking.photographer b = None)
  ∨ (∃ id f,
       DB.bookings (exec w db op) = alter f id (DB.bookings db)
       ∧ ∀ b, Booking.photographer (f b) = Booking.photographer b
              ∨ ∃ p u, Booking.photographer (f b) = Some p
                       ∧ User_findById p db = Some u ∧ User.role u = RoleAdmin).
Proof.
  destruct op as [newId req|req|req|req|newId req|req|req|req|req|newId req
                 |newId salt body|salt req]; simpl.
  - left. by destruct (PaymentsFacts.createOrder_elsewhere newId req db) as [_ ->].
  - left. unfold Orders.updateOrderStatus. branches.
  - left. unfold Payments.createPaymentIntent. branches.
  - left. unfold Orders.handleStripeWebhook. branches.
  - unfold BookingDesk.createBooking, BookingDesk.Booking_create.
    branches; try by left. right. left. by eexists _, _.
  - unfold Bookings.updateBookingStatus. branches; try by left.
    right. right. eexists _, _. split; [done|]. intros ?. by left.
  - unfold BookingDesk.assignPhotographer. branches; try by left.
    right. right. eexists _, _. split; [done|]. intros ?. right.
    eexists _, _. split; [done|]. split; [done|].
    match goal with H : negb (Role_eqb _ _) = false |- _ =>
      apply negb_false_iff in H; by apply BookingsFacts.Role_eqb_admin end.
  - unfold Bookings.updateBooking, Bookings.Booking_findByIdAndUpdate.
    branches; try by left.
    right. right. eexists _, _. split; [done|]. intros ?. by left.
  - unfold Bookings.cancelBooking. branches; try by left.
    right. right. eexists _, _. split; [done|]. intros ?. by left.
  - unfold BookingDesk.handleCalendlyWebhook, BookingDesk.Booking_create.
    branches; try by left.
    all: first [ right; left; by eexists _, _
               | right; right; eexists _, _; split; [done|]; intros ?; by left ].
  - left. unfold Accounts.register, Accounts.User_create. branches.
  - left. unfold Accounts.updatePassword. branches.
Qed.

Lemma find_set_password id hash p us u :
  List.find (λ u, String.eqb (User._id u) p) us = Some u →
  ∃ u', List.find (λ u, String.eqb (User._id u) p) (Accounts.set_password id hash us)
        = Some u'
        ∧ User.role u' = User.role u.
Proof.
  induction us as [|u0 us IH]; simpl; [done|].
  destruct (String.eqb (User._id u0) id) eqn:Hid; simpl.
  - destruct (String.eqb (User._id u0) p); [|by eauto].
    intros [= <-]. by eexists.
  - destruct (String.eqb (User._id u0) p); [by eauto|]. apply IH.
Qed.

Lemma find_app_found {A} (f : A → bool) l k x :
  List.find f l = Some x → List.find f (l ++ k) = Some x.
Proof.
  induction l as [|y l IH]; simpl; [done|]. by destruct (f y).
Qed.

(** An admin stays one, under the same id, through any call. *)
Lemma admin_lookup_stable w db op p u :
  User_findById p db = Some u → User.role u = RoleAdmin →
  ∃ u', User_findById p (exec w db op) = Some u' ∧ User.role u' = RoleAdmin.
Proof.
  unfold User_findById. intros Hu Hrole.
  destruct (exec_users w db op) as [-> | [(n & -> & _) | (id & hash & ->)]].
  - by exists u.
  - exists u. split; [|done]. by apply find_app_found.
  - destruct (find_set_password id hash p (DB.users db) u Hu) as (u' & Hu' & Hr).
    exists u'. split; [done|congruence].
Qed.

(** X11: if every photographer assigned to a booking is an admin user,
    that is still so after any sequence of calls of the handlers. *)
Theorem photographers_stay_admins w ops : ∀ db,
  photographers_are_admins db → photographers_are_admins (exec_all w ops db).
Proof.
  induction ops as [|op ops IH]; intros db Hdb; simpl; [done|].
  apply IH. intros id b p Hb Hp.
  assert (∃ u, User_findById p db = Some u ∧ User.role u = RoleAdmin)
    as (u & Hu & Hrole); [|by apply (admin_lookup_stable w db op p u)].
  destruct (exec_bookings w db op)
    as [Hsame | [(newId & b1 & Hins & Hnone) | (j & f & Halt & Hf)]].
  - rewrite Hsame in Hb. by apply (Hdb id b p).
  - rewrite Hins in Hb. destruct (decide (newId = id)) as [->|Hne].
    + rewrite lookup_insert_eq in Hb. inversion Hb; subst. congruence.
    + rewrite lookup_insert_ne in Hb by done. by apply (Hdb id b p).
  - rewrite Halt in Hb. destruct (decide (j = id)) as [->|Hne].
    + rewrite lookup_alter_eq in Hb.
      destruct (DB.bookings db !! id) as [b0|] eqn:Hb0; [|done].
      inversion Hb; subst.
      destruct (Hf b0) as [Hkeep | (q & u & Hq & Hu & Hrole)].
      * apply (Hdb id b0 p); [done|congruence].
      * exists u. split; [|done]. congruence.
    + rewrite lookup_alter_ne in Hb by done. by apply (Hdb id b p).
Qed.

Lemma photographers_stay_admins_witness :
  photographers_are_admins
    (exec_all Samples.world
       [AssignPhotographer (BookingDesk.AssignReq.mk "b1" (Some "u1"));
        AssignPhotographer (BookingDesk.AssignReq.mk "b1" (Some "u9"));
        Register "u2" "salt1" Samples.bob_signs_up;
        AssignPhotographer (BookingDesk.AssignReq.mk "b1" (Some "u2"))]
       Samples.bureau).
Proof.
  apply photographers_stay_admins. intros id b p Hb Hp.
  destruct (decide (id = "b1")) as [->|Hne].
  - vm_compute in Hb. inversion Hb; subst. discriminate Hp.
  - unfold Samples.bureau in Hb. simpl in Hb.
    by rewrite lookup_singleton_ne in Hb.
Defined.

End SystemFacts.
